(** * dc-cli: the two "remove archived ..." content-item commands

    A shallow embedding of
    - [commands/content-item/remove-archived-delivery-key.ts]  (module [DeliveryKey])
    - [commands/content-item/remove-archived-active-flag.ts]   (module [ActiveFlag])

    Both commands locate archived content items, narrow them with a
    predicate filter, ask for confirmation and then run a sequential
    batch loop that records its outcome in an audit log.

    The remote hub, the terminal, the clock and the file system are
    external: they are taken as oracles over an abstract [World], and every
    interaction with them is recorded, in program order, in a trace of
    [Event]s. *)

From Stdlib Require Import String Ascii List ZArith Bool Lia DecimalString.
From stdpp Require Import base list strings.
Import ListNotations.

Local Open Scope Z_scope.
Local Open Scope nat_scope.
Local Open Scope list_scope.

(* ===================================================================== *)
(** * JavaScript values *)
(* ===================================================================== *)

(** A thrown value, as the code observes it: through [e.toString()]. *)
Inductive Result (A : Type) : Type :=
| Ok (a : A)
| Throw (e : string).
Arguments Ok {A} a.
Arguments Throw {A} e.

(** A property that holds a string, [null] or nothing at all. *)
Inductive JsOptStr : Type :=
| JsUndefined
| JsNull
| JsStr (s : string).

(** [string | string[]], the type yargs gives a repeatable option. *)
Inductive StrOrArr : Type :=
| Single (s : string)
| Multiple (l : list string).

Definition str_truthy (s : string) : bool := negb (String.eqb s "").

(** Truthiness of a [JsOptStr]: a non-empty string. *)
Definition truthy (v : JsOptStr) : bool :=
  match v with
  | JsStr s => str_truthy s
  | _ => false
  end.

(** Truthiness of an optional string: defined and non-empty. *)
Definition opt_truthy (v : option string) : bool :=
  match v with
  | Some s => str_truthy s
  | None => false
  end.

(** Truthiness of an optional [string | string[]]: an array is an object,
    hence truthy even when empty. *)
Definition soa_truthy (v : option StrOrArr) : bool :=
  match v with
  | Some (Single s) => str_truthy s
  | Some (Multiple _) => true
  | None => false
  end.

(** Truthiness of an optional number: defined and not zero. *)
Definition num_truthy (v : option nat) : bool :=
  match v with
  | Some n => negb (Nat.eqb n 0)
  | None => false
  end.

(** [`${v}`] for a [JsOptStr]. *)
Definition show (v : JsOptStr) : string :=
  match v with
  | JsUndefined => "undefined"
  | JsNull => "null"
  | JsStr s => s
  end.

(** [`${v}`] for an optional string. *)
Definition show_opt (v : option string) : string :=
  match v with
  | Some s => s
  | None => "undefined"
  end.

(** [`${n}`] and [n.toString()] for a non-negative integer. *)
Definition show_nat (n : nat) : string := NilZero.string_of_uint (Nat.to_uint n).
Definition show_N (n : N) : string := NilZero.string_of_uint (N.to_uint n).

(** [Array.isArray(x) ? x : [x]] *)
Definition toArray (x : StrOrArr) : list string :=
  match x with
  | Single s => [s]
  | Multiple l => l
  end.

(** [typeof x === 'string' ? [x] : x || []] *)
Definition toArrayOrEmpty (x : option StrOrArr) : list string :=
  match x with
  | Some (Single s) => [s]
  | Some (Multiple l) => l
  | None => []
  end.

(** [s.replace(pat, rep)] with a string pattern: the first occurrence only.
    The replacement is always a decimal timestamp here, so none of the
    special [$] replacement patterns can occur. *)
Fixpoint replace (pat rep s : string) : string :=
  if String.prefix pat s
  then rep +:+ String.substring (String.length pat) (String.length s - String.length pat) s
  else match s with
       | EmptyString => EmptyString
       | String ch s' => String ch (replace pat rep s')
       end.

(** [Array.prototype.findIndex] with a callback that may throw: the
    callback runs on the elements in order and stops at the first hit. *)
Fixpoint findIndex_from {A} (p : A -> Result bool) (l : list A) (i : Z) : Result Z :=
  match l with
  | [] => Ok (-1)%Z
  | x :: l' =>
    match p x with
    | Throw e => Throw e
    | Ok true => Ok i
    | Ok false => findIndex_from p l' (i + 1)%Z
    end
  end.

Definition findIndex {A} (p : A -> Result bool) (l : list A) : Result Z :=
  findIndex_from p l 0%Z.

(** [Array.prototype.filter] with a callback that may throw: the callback
    runs on every element in order. *)
Fixpoint filterJs {A} (p : A -> Result bool) (l : list A) : Result (list A) :=
  match l with
  | [] => Ok []
  | x :: l' =>
    match p x with
    | Throw e => Throw e
    | Ok b =>
      match filterJs p l' with
      | Throw e => Throw e
      | Ok r => Ok (if b then x :: r else r)
      end
    end
  end.

(* ===================================================================== *)
(** * Data model *)
(* ===================================================================== *)

Inductive Status : Type := ACTIVE | ARCHIVED | DELETED.

Definition Status_eqb (a b : Status) : bool :=
  match a, b with
  | ACTIVE, ACTIVE | ARCHIVED, ARCHIVED | DELETED, DELETED => true
  | _, _ => false
  end.

Definition show_status (s : Status) : string :=
  match s with
  | ACTIVE => "ACTIVE"
  | ARCHIVED => "ARCHIVED"
  | DELETED => "DELETED"
  end.

Record Meta : Type := { schema : string; deliveryKey : JsOptStr }.

Record Body : Type := { _meta : Meta; active : bool }.

Record ContentItem : Type := {
  id : string;
  label : option string;
  status : Status;
  body : Body;
  lastPublishedVersion : option nat
}.

(** [item.body._meta.deliveryKey = v] *)
Definition set_deliveryKey (v : JsOptStr) (item : ContentItem) : ContentItem :=
  {| id := id item;
     label := label item;
     status := status item;
     body := {| _meta := {| schema := schema (_meta (body item)); deliveryKey := v |};
                active := active (body item) |};
     lastPublishedVersion := lastPublishedVersion item |}.

(** [item.label || ''] *)
Definition label_or_empty (item : ContentItem) : string :=
  match label item with
  | Some s => s
  | None => ""
  end.

Record Hub : Type := { hub_id : string }.
Record ContentRepository : Type := { repo_id : string }.
Record Folder : Type := { folder_id : string }.

(** The parsed command line, [Arguments<UnarchiveOptions & ConfigurationParameters>]:
    the fields the handlers destructure. *)
Module Argv.
Record t : Type := {
  id : option string;
  logFile : option string;
  force : bool;
  silent : bool;
  ignoreError : bool;
  hubId : string;
  revertLog : option string;
  repoId : option StrOrArr;
  folderId : option StrOrArr;
  name : option StrOrArr;
  contentType : option StrOrArr
}.
End Argv.

(** Modelled from the spec: the audit log class [ArchiveLog]
    (common/archive/archive-log) is not among the sources.  Section 4.5: a
    header line, then an ordered sequence of lines of four kinds, ACTION
    (action name and data), COMMENT (free text), WARN and ERROR (each with
    its associated cause). *)
Inductive LogLine : Type :=
| ACTION (action data : string)
| COMMENT (text : string)
| WARN (message cause : string)
| ERROR (message cause : string).

Record ArchiveLog : Type := { title : string; lines : list LogLine }.

Definition newArchiveLog (t : string) : ArchiveLog := {| title := t; lines := [] |}.

Definition appendLine (l : LogLine) (log : ArchiveLog) : ArchiveLog :=
  {| title := title log; lines := lines log ++ [l] |}.

Definition addAction (action data : string) := appendLine (ACTION action data).
Definition addComment (text : string) := appendLine (COMMENT text).
Definition warn (message cause : string) := appendLine (WARN message cause).
Definition error (message cause : string) := appendLine (ERROR message cause).

(* ===================================================================== *)
(** * The outside world *)
(* ===================================================================== *)

(** Requests sent to the hub, as they appear in the trace (there together
    with their outcome: returned or thrown). *)
Inductive Call : Type :=
| GetContentItem (itemId : string)
| GetHub (hubId : string)
| ListContentRepositories (hub : Hub)
| GetContentRepository (repoId : string)
| GetFolder (folderId : string)
| ListRepoItems (source : ContentRepository) (st : Status)
| ListFolderItems (source : Folder) (st : Status)
| Unarchive (item : ContentItem)
| Update (self item : ContentItem)
| Archive (item : ContentItem)
| Publish (item : ContentItem).

Inductive Event : Type :=
| ConsoleLog (line : string)
| ConsoleLogArgvEnv (argv : Argv.t) (env : list (string * string))
| Remote (c : Call) (returned : bool)
| Question (q : string)
| WriteToFile (path : string) (log : ArchiveLog).

(** The management SDK client.  Each operation reads and may change the
    world, and either returns or throws.  The two [list] operations stand
    for [paginator(x.related.….list, …)], the whole collected sequence. *)
Record DynamicContent (World : Type) : Type := {
  contentItems_get : string -> World -> Result ContentItem * World;
  hubs_get : string -> World -> Result Hub * World;
  contentRepositories_get : string -> World -> Result ContentRepository * World;
  folders_get : string -> World -> Result Folder * World;
  hub_contentRepositories_list : Hub -> World -> Result (list ContentRepository) * World;
  repo_contentItems_list : ContentRepository -> Status -> World -> Result (list ContentItem) * World;
  folder_contentItems_list : Folder -> Status -> World -> Result (list ContentItem) * World;
  unarchive : ContentItem -> World -> Result ContentItem * World;
  update : ContentItem -> ContentItem -> World -> Result ContentItem * World;
  archive : ContentItem -> World -> Result ContentItem * World
}.
Arguments contentItems_get {World} _ _ _.
Arguments hubs_get {World} _ _ _.
Arguments contentRepositories_get {World} _ _ _.
Arguments folders_get {World} _ _ _.
Arguments hub_contentRepositories_list {World} _ _ _.
Arguments repo_contentItems_list {World} _ _ _ _.
Arguments folder_contentItems_list {World} _ _ _ _.
Arguments unarchive {World} _ _ _.
Arguments update {World} _ _ _ _.
Arguments archive {World} _ _ _.

(** Everything else the commands import.

    Modelled from the spec: [equalsOrRegex] (common/filter/filter),
    [asyncQuestion] (common/question-helpers), [PublishQueue]
    (common/import/publish-queue), [dynamicContentClientFactory] and
    [ArchiveLog.writeToFile] are not among the sources; section 6 lists
    them as collaborator interfaces.  [equalsOrRegex value pattern] decides
    a literal-or-[/regex/] match and may throw; the yes/no prompt and the
    log-file writer answer with a boolean (section 7: no error reaches the
    process boundary). *)
Record System (World : Type) : Type := {
  dynamicContentClientFactory : Argv.t -> DynamicContent World;
  equalsOrRegex : string -> string -> Result bool;
  PublishQueue_publish : Argv.t -> ContentItem -> World -> Result unit * World;
  asyncQuestion : string -> World -> bool * World;
  Date_now : World -> N;
  writeToFile : string -> ArchiveLog -> World -> bool * World;
  process_env : list (string * string)
}.
Arguments dynamicContentClientFactory {World} _ _.
Arguments equalsOrRegex {World} _ _ _.
Arguments PublishQueue_publish {World} _ _ _ _.
Arguments asyncQuestion {World} _ _ _.
Arguments Date_now {World} _ _.
Arguments writeToFile {World} _ _ _ _.
Arguments process_env {World} _.

(** ** Programs *)

(** A program reads and changes the world, produces the events of its
    interactions in program order, and returns a value. *)
Record Run (World A : Type) : Type := { value : A; world : World; trace : list Event }.
Arguments value {World A} _.
Arguments world {World A} _.
Arguments trace {World A} _.

Definition M (World A : Type) : Type := World -> Run World A.

Section Monad.
Context {World : Type}.

Definition ret {A} (a : A) : M World A :=
  fun w => {| value := a; world := w; trace := [] |}.

Definition bind {A B} (m : M World A) (k : A -> M World B) : M World B :=
  fun w =>
    let r := m w in
    let r' := k (value r) (world r) in
    {| value := value r'; world := world r'; trace := trace r ++ trace r' |}.

Definition emit (e : Event) : M World unit :=
  fun w => {| value := tt; world := w; trace := [e] |}.

Definition returned {A} (r : Result A) : bool :=
  match r with
  | Ok _ => true
  | Throw _ => false
  end.

(** An awaited request: answered by the oracle, and recorded with its
    outcome. *)
Definition call {A} (c : Call) (op : World -> Result A * World) : M World (Result A) :=
  fun w => {| value := fst (op w); world := snd (op w);
              trace := [Remote c (returned (fst (op w)))] |}.

Definition ask (sys : System World) (q : string) : M World bool :=
  fun w => {| value := fst (asyncQuestion sys q w); world := snd (asyncQuestion sys q w);
              trace := [Question q] |}.

Definition now (sys : System World) : M World N :=
  fun w => {| value := Date_now sys w; world := w; trace := [] |}.

Definition write (sys : System World) (path : string) (log : ArchiveLog) : M World bool :=
  fun w => {| value := fst (writeToFile sys path log w);
              world := snd (writeToFile sys path log w);
              trace := [WriteToFile path log] |}.

(** Sequencing inside a [try] block: a throw skips the rest. *)
Definition bindE {A B} (m : M World (Result A)) (k : A -> M World (Result B))
  : M World (Result B) :=
  bind m (fun r => match r with
                   | Ok a => k a
                   | Throw e => ret (Throw e)
                   end).

(** [contentItems.forEach(f)] *)
Fixpoint forEach {A} (l : list A) (f : A -> M World unit) : M World unit :=
  match l with
  | [] => ret tt
  | x :: l' => bind (f x) (fun _ => forEach l' f)
  end.

(** [await Promise.all(l.map(f))]: every request is issued, in list
    order; the result is the list of answers, or the first rejection.
    Completions are taken in the order of issue (the program itself fixes
    no order among them). *)
Fixpoint promiseAll {A} (l : list (M World (Result A))) : M World (Result (list A)) :=
  match l with
  | [] => ret (Ok [])
  | m :: l' =>
    bind m (fun r =>
    bind (promiseAll l') (fun rs =>
    ret match r, rs with
        | Throw e, _ => Throw e
        | Ok _, Throw e => Throw e
        | Ok a, Ok as_ => Ok (a :: as_)
        end))
  end.
End Monad.

Declare Scope prog_scope.
Delimit Scope prog_scope with prog.
Notation "x <- m ;; k" := (bind m (fun x => k))
  (at level 100, m at next level, right associativity) : prog_scope.
Notation "m ;;; k" := (bind m (fun _ => k))
  (at level 100, right associativity) : prog_scope.
Notation "x <-? m ;; k" := (bindE m (fun x => k))
  (at level 100, m at next level, right associativity) : prog_scope.

Definition nl : string := String (ascii_of_nat 10) EmptyString.

(** What [filterContentItems] and [getContentItems] resolve to. *)
Record Selection : Type := { contentItems : list ContentItem; missingContent : bool }.

(** The locals of [processItems] that the loop updates. *)
Record Frame : Type := { items : list ContentItem; log : ArchiveLog; successCount : nat }.

(** [processItems] returns nothing; the model returns how it ended, and the
    final locals when it ran the loop, so that they can be spoken of. *)
Inductive Outcome : Type :=
| NothingFound
| Declined
| Completed (f : Frame).

Inductive HandlerOutcome : Type :=
| Rejected
| Processed (o : Outcome).

Local Open Scope prog_scope.

(* ===================================================================== *)
(** * remove-archived-delivery-key *)
(* ===================================================================== *)

Module DeliveryKey.
Section Command.
Context {World : Type} (sys : System World).

(** The body of the [try] of [filterContentItems]. *)
Definition filterContentItems_try
    (name contentType : option StrOrArr) (contentItems : list ContentItem)
  : Result Selection :=
  let missingContent := false in
  (* Filter to content items with a delivery key *)
  let contentItemsWithDeliveryKey :=
    List.filter (fun item => truthy (deliveryKey (_meta (body item)))) contentItems in
  match name with
  | Some name =>
    let itemsArray := toArray name in
    match filterJs
            (fun item =>
               match findIndex (fun id => equalsOrRegex sys (label_or_empty item) id) itemsArray with
               | Ok k => Ok (negb (k =? -1)%Z)
               | Throw e => Throw e
               end)
            contentItemsWithDeliveryKey with
    | Ok contentItemsFiltered =>
      Ok {| contentItems := contentItemsFiltered; missingContent := missingContent |}
    | Throw e => Throw e
    end
  | None =>
    match contentType with
    | Some contentType =>
      let itemsArray := toArray contentType in
      match filterJs
              (fun item =>
                 match findIndex (fun id => equalsOrRegex sys (schema (_meta (body item))) id) itemsArray with
                 | Ok k => Ok (negb (k =? -1)%Z)
                 | Throw e => Throw e
                 end)
              contentItemsWithDeliveryKey with
      | Ok contentItemsFiltered =>
        Ok {| contentItems := contentItemsFiltered; missingContent := missingContent |}
      | Throw e => Throw e
      end
    | None =>
      Ok {| contentItems := contentItemsWithDeliveryKey; missingContent := missingContent |}
    end
  end.

Definition filterContentItems
    (name contentType : option StrOrArr) (contentItems : list ContentItem)
  : M World Selection :=
  match filterContentItems_try name contentType contentItems with
  | Ok r => ret r
  | Throw err =>
    emit (ConsoleLog err);;;
    ret {| contentItems := []; missingContent := false |}
  end.

(** The body of the [try] of [getContentItems]. *)
Definition getContentItems_try
    (client : DynamicContent World) (id : option string) (hubId : string)
    (repoId folderId name contentType : option StrOrArr)
  : M World (Result Selection) :=
  match id with
  | Some id =>
    item <-? call (GetContentItem id) (contentItems_get client id);;
    ret (Ok {| contentItems := [item]; missingContent := false |})
  | None =>
    hub <-? call (GetHub hubId) (hubs_get client hubId);;
    let repoIds := toArrayOrEmpty repoId in
    let folderIds := toArrayOrEmpty folderId in
    contentRepositories <-?
      match repoId with
      | Some _ =>
        promiseAll (map (fun id => call (GetContentRepository id)
                                        (contentRepositories_get client id)) repoIds)
      | None =>
        call (ListContentRepositories hub) (hub_contentRepositories_list client hub)
      end;;
    folders <-?
      match folderId with
      | Some _ =>
        promiseAll (map (fun id => call (GetFolder id) (folders_get client id)) folderIds)
      | None => ret (Ok [])
      end;;
    pushed <-?
      match folderId with
      | Some _ =>
        promiseAll (map (fun source => call (ListFolderItems source ARCHIVED)
                                            (folder_contentItems_list client source ARCHIVED))
                        folders)
      | None =>
        promiseAll (map (fun source => call (ListRepoItems source ARCHIVED)
                                            (repo_contentItems_list client source ARCHIVED))
                        contentRepositories)
      end;;
    let contentItems := concat pushed in
    r <- filterContentItems name contentType contentItems;;
    ret (Ok r)
  end.

Definition getContentItems
    (client : DynamicContent World) (id : option string) (hubId : string)
    (repoId folderId name contentType : option StrOrArr)
  : M World Selection :=
  r <- getContentItems_try client id hubId repoId folderId name contentType;;
  match r with
  | Ok r => ret r
  | Throw err =>
    emit (ConsoleLog err);;;
    ret {| contentItems := []; missingContent := false |}
  end.

(** The [catch] block of the loop; the flag says whether the loop goes on. *)
Definition catch_dk (ignoreError : bool) (i : nat) (deliveryKey : JsOptStr) (e : string)
    (f : Frame) : bool * Frame :=
  match items f !! i with
  | None => (false, f)
  | Some item =>
    let log1 := addComment ("REMOVED-ARCHIVED-DELIVERY-KEY FAILED: " +:+ id item +:+ ":"
                            +:+ show deliveryKey) (log f) in
    let log2 := addComment e log1 in
    if ignoreError then
      (true,
       {| items := items f;
          log := warn ("Failed to remove delivery key " +:+ show deliveryKey
                       +:+ " and re-archive " +:+ show_opt (label item)
                       +:+ " (" +:+ id item +:+ "), current status is "
                       +:+ show_status (status item) +:+ ", continuing.") e log2;
          successCount := successCount f |})
    else
      (false,
       {| items := items f;
          log := error ("Failed to remove delivery key " +:+ show deliveryKey
                        +:+ " and re-archive " +:+ show_opt (label item)
                        +:+ " (" +:+ id item +:+ "), current status is "
                        +:+ show_status (status item) +:+ ", aborting.") e log2;
          successCount := successCount f |})
  end.

(** One iteration of the [for] loop, at index [i < contentItems.length].
    The requests are methods of the item ([item.related.…]); the model
    takes them from the client that fetched the item.  The flag of the
    result says whether the loop goes on ([break] otherwise). *)
Definition iteration (client : DynamicContent World) (ignoreError : bool) (i : nat)
    (f : Frame) : M World (bool * Frame) :=
  match items f !! i with
  | None => ret (false, f)
  | Some item0 =>
    let deliveryKey := deliveryKey (_meta (body item0)) in
    (* contentItems[i] = await contentItems[i].related.unarchive(); *)
    r1 <- call (Unarchive item0) (unarchive client item0);;
    match r1 with
    | Throw e => ret (catch_dk ignoreError i deliveryKey e f)
    | Ok item1 =>
      (* contentItems[i].body._meta.deliveryKey = null; *)
      let item1 := set_deliveryKey JsNull item1 in
      let f1 := {| items := <[i := item1]> (items f); log := log f;
                   successCount := successCount f |} in
      (* contentItems[i] = await contentItems[i].related.update(contentItems[i]); *)
      r2 <- call (Update item1 item1) (update client item1 item1);;
      match r2 with
      | Throw e => ret (catch_dk ignoreError i deliveryKey e f1)
      | Ok item2 =>
        let f2 := {| items := <[i := item2]> (items f1); log := log f1;
                     successCount := successCount f1 |} in
        (* await contentItems[i].related.archive(); *)
        r3 <- call (Archive item2) (archive client item2);;
        match r3 with
        | Throw e => ret (catch_dk ignoreError i deliveryKey e f2)
        | Ok _ =>
          ret (true,
               {| items := items f2;
                  log := addAction "REMOVED-ARCHIVED-DELIVERY-KEY"
                                   (id item2 +:+ ":" +:+ show deliveryKey +:+ nl) (log f2);
                  successCount := S (successCount f2) |})
        end
      end
    end
  end.

(** [for (let i = 0; i < contentItems.length; i++) { … }], started at
    [i]; the array keeps its length, so [length - i] iterations suffice. *)
Fixpoint loop (client : DynamicContent World) (ignoreError : bool) (fuel i : nat)
    (f : Frame) : M World Frame :=
  match fuel with
  | 0 => ret f
  | S fuel' =>
    if i <? length (items f) then
      r <- iteration client ignoreError i f;;
      if fst r then loop client ignoreError fuel' (S i) (snd r) else ret (snd r)
    else ret f
  end.

Definition question (allContent : bool) : string :=
  if allContent
  then "Providing no ID or filter will remove delivery keys from all archived content-items! Are you sure you want to do this? (y/n)" +:+ nl
  else "Are you sure you want to remove delivery keys from these archived content-items? (y/n)" +:+ nl.

Definition processItems
    (contentItems : list ContentItem) (force silent : bool) (logFile : option string)
    (allContent missingContent ignoreError : bool) (client : DynamicContent World)
  : M World Outcome :=
  if length contentItems =? 0 then
    emit (ConsoleLog "No delivery keys found in archived items.");;;
    ret NothingFound
  else
    emit (ConsoleLog "The following content items in the archive will have the delivery keys removed:");;;
    forEach contentItems (fun contentItem =>
      emit (ConsoleLog (" " +:+ show_opt (label contentItem) +:+ " (" +:+ id contentItem +:+ ")")));;;
    emit (ConsoleLog ("Total: " +:+ show_nat (length contentItems)));;;
    yes <- (if negb force then ask sys (question allContent) else ret true);;
    if negb yes then ret Declined
    else
      t <- now sys;;
      let timestamp := show_N t in
      let log0 := newArchiveLog ("Content Items Remove Archived Delivery Key Log - "
                                 +:+ timestamp +:+ nl) in
      f <- loop client ignoreError (length contentItems) 0
                {| items := contentItems; log := log0; successCount := 0 |};;
      match logFile with
      | Some logFile =>
        if negb silent && str_truthy logFile
        then _ <- write sys (replace "<DATE>" timestamp logFile) (log f);; ret tt
        else ret tt
      | None => ret tt
      end;;;
      emit (ConsoleLog ("Remove archived delivery key from " +:+ show_nat (successCount f)
                        +:+ " content items."));;;
      ret (Completed f).

Definition handler (argv : Argv.t) : M World HandlerOutcome :=
  let id := Argv.id argv in
  let logFile := Argv.logFile argv in
  let force := Argv.force argv in
  let silent := Argv.silent argv in
  let ignoreError := Argv.ignoreError argv in
  let hubId := Argv.hubId argv in
  let revertLog := Argv.revertLog argv in
  let repoId := Argv.repoId argv in
  let folderId := Argv.folderId argv in
  let name := Argv.name argv in
  let contentType := Argv.contentType argv in
  let client := dynamicContentClientFactory sys argv in
  let allContent :=
    negb (opt_truthy id) && negb (soa_truthy name) && negb (soa_truthy contentType)
    && negb (opt_truthy revertLog) && negb (soa_truthy folderId) && negb (soa_truthy repoId) in
  (if soa_truthy repoId && opt_truthy id
   then emit (ConsoleLog "ID of content item is specified, ignoring repository ID")
   else ret tt);;;
  if opt_truthy id && soa_truthy name then
    emit (ConsoleLog "Please specify either a item name or an ID - not both.");;;
    ret Rejected
  else
    (if soa_truthy repoId && soa_truthy folderId
     then emit (ConsoleLog "Folder is specified, ignoring repository ID")
     else ret tt);;;
    (if allContent
     then emit (ConsoleLog "No filter was given, removing delivery keys on all archived content")
     else ret tt);;;
    sel <- getContentItems client id hubId repoId folderId name contentType;;
    o <- processItems (contentItems sel) force silent logFile allContent
                      (missingContent sel) ignoreError client;;
    ret (Processed o).
End Command.
End DeliveryKey.

(* ===================================================================== *)
(** * remove-archived-active-flag *)
(* ===================================================================== *)

Module ActiveFlag.
Section Command.
Context {World : Type} (sys : System World).

(** The body of the [try] of [filterContentItems]. *)
Definition filterContentItems_try
    (name contentType : option StrOrArr) (contentItems : list ContentItem)
  : Result Selection :=
  let missingContent := false in
  (* Filter to content items which have been published before with an active flag *)
  let contentItemsWithActive :=
    List.filter (fun item => active (body item) && num_truthy (lastPublishedVersion item))
                contentItems in
  match name with
  | Some name =>
    let itemsArray := toArray name in
    match filterJs
            (fun item =>
               match findIndex (fun id => equalsOrRegex sys (label_or_empty item) id) itemsArray with
               | Ok k => Ok (negb (k =? -1)%Z)
               | Throw e => Throw e
               end)
            contentItemsWithActive with
    | Ok contentItemsFiltered =>
      Ok {| contentItems := contentItemsFiltered; missingContent := missingContent |}
    | Throw e => Throw e
    end
  | None =>
    match contentType with
    | Some contentType =>
      let itemsArray := toArray contentType in
      match filterJs
              (fun item =>
                 match findIndex (fun id => equalsOrRegex sys (schema (_meta (body item))) id) itemsArray with
                 | Ok k => Ok (negb (k =? -1)%Z)
                 | Throw e => Throw e
                 end)
              contentItemsWithActive with
      | Ok contentItemsFiltered =>
        Ok {| contentItems := contentItemsFiltered; missingContent := missingContent |}
      | Throw e => Throw e
      end
    | None =>
      Ok {| contentItems := contentItemsWithActive; missingContent := missingContent |}
    end
  end.

Definition filterContentItems
    (name contentType : option StrOrArr) (contentItems : list ContentItem)
  : M World Selection :=
  match filterContentItems_try name contentType contentItems with
  | Ok r => ret r
  | Throw err =>
    emit (ConsoleLog err);;;
    ret {| contentItems := []; missingContent := false |}
  end.

(** The body of the [try] of [getContentItems]. *)
Definition getContentItems_try
    (client : DynamicContent World) (id : option string) (hubId : string)
    (repoId folderId name contentType : option StrOrArr)
  : M World (Result Selection) :=
  match id with
  | Some id =>
    item <-? call (GetContentItem id) (contentItems_get client id);;
    ret (Ok {| contentItems := [item]; missingContent := false |})
  | None =>
    hub <-? call (GetHub hubId) (hubs_get client hubId);;
    let repoIds := toArrayOrEmpty repoId in
    let folderIds := toArrayOrEmpty folderId in
    contentRepositories <-?
      match repoId with
      | Some _ =>
        promiseAll (map (fun id => call (GetContentRepository id)
                                        (contentRepositories_get client id)) repoIds)
      | None =>
        call (ListContentRepositories hub) (hub_contentRepositories_list client hub)
      end;;
    folders <-?
      match folderId with
      | Some _ =>
        promiseAll (map (fun id => call (GetFolder id) (folders_get client id)) folderIds)
      | None => ret (Ok [])
      end;;
    pushed <-?
      match folderId with
      | Some _ =>
        promiseAll (map (fun source => call (ListFolderItems source ARCHIVED)
                                            (folder_contentItems_list client source ARCHIVED))
                        folders)
      | None =>
        promiseAll (map (fun source => call (ListRepoItems source ARCHIVED)
                                            (repo_contentItems_list client source ARCHIVED))
                        contentRepositories)
      end;;
    let contentItems := concat pushed in
    r <- filterContentItems name contentType contentItems;;
    ret (Ok r)
  end.

Definition getContentItems
    (client : DynamicContent World) (id : option string) (hubId : string)
    (repoId folderId name contentType : option StrOrArr)
  : M World Selection :=
  r <- getContentItems_try client id hubId repoId folderId name contentType;;
  match r with
  | Ok r => ret r
  | Throw err =>
    emit (ConsoleLog err);;;
    ret {| contentItems := []; missingContent := false |}
  end.

(** The outer [try] block of the loop: the unarchive, update and archive
    requests are commented out in the source; what is left is the publish
    request under its own [try]/[catch], the ACTION line and the counter. *)
Definition tryBody (argv : Argv.t) (item : ContentItem) (f : Frame)
  : M World (Result Frame) :=
  r <- call (Publish item) (PublishQueue_publish sys argv item);;
  let log1 :=
    match r with
    | Ok _ => addComment ("Started publish for " +:+ show_opt (label item) +:+ ".") (log f)
    | Throw e => addComment ("Failed to initiate publish for " +:+ show_opt (label item)
                             +:+ ": " +:+ e) (log f)
    end in
  ret (Ok {| items := items f;
             log := addAction "REMOVED-ARCHIVED-ACTIVE-FLAG" (id item +:+ nl) log1;
             successCount := S (successCount f) |}).

(** The outer [catch] block; the flag says whether the loop goes on. *)
Definition catch_af (ignoreError : bool) (i : nat) (e : string) (f : Frame) : bool * Frame :=
  match items f !! i with
  | None => (false, f)
  | Some item =>
    let log1 := addComment ("REMOVED-ARCHIVED-ACTIVE-FLAG FAILED: " +:+ id item) (log f) in
    let log2 := addComment e log1 in
    if ignoreError then
      (true,
       {| items := items f;
          log := warn ("Failed to remove active flag and re-archive "
                       +:+ show_opt (label item)
                       +:+ " (" +:+ id item +:+ "), current status is "
                       +:+ show_status (status item) +:+ ", continuing.") e log2;
          successCount := successCount f |})
    else
      (false,
       {| items := items f;
          log := error ("Failed to remove active flag and re-archive "
                        +:+ show_opt (label item)
                        +:+ " (" +:+ id item +:+ "), current status is "
                        +:+ show_status (status item) +:+ ", aborting.") e log2;
          successCount := successCount f |})
  end.

(** One iteration of the [for] loop, at index [i < contentItems.length]. *)
Definition iteration (argv : Argv.t) (ignoreError : bool) (i : nat) (f : Frame)
  : M World (bool * Frame) :=
  match items f !! i with
  | None => ret (false, f)
  | Some item =>
    r <- tryBody argv item f;;
    match r with
    | Ok f' => ret (true, f')
    | Throw e => ret (catch_af ignoreError i e f)
    end
  end.

Fixpoint loop (argv : Argv.t) (ignoreError : bool) (fuel i : nat) (f : Frame)
  : M World Frame :=
  match fuel with
  | 0 => ret f
  | S fuel' =>
    if i <? length (items f) then
      r <- iteration argv ignoreError i f;;
      if fst r then loop argv ignoreError fuel' (S i) (snd r) else ret (snd r)
    else ret f
  end.

Definition question (allContent : bool) : string :=
  if allContent
  then "Providing no ID or filter will remove active flags from all archived content-items! Are you sure you want to do this? (y/n)" +:+ nl
  else "Are you sure you want to remove active flags from these archived content-items? (y/n)" +:+ nl.

Definition processItems
    (contentItems : list ContentItem) (force silent : bool) (logFile : option string)
    (allContent missingContent ignoreError : bool) (argv : Argv.t)
  : M World Outcome :=
  if length contentItems =? 0 then
    emit (ConsoleLog "No active flags found in archived items.");;;
    ret NothingFound
  else
    emit (ConsoleLog "The following content items in the archive will have the active flags removed:");;;
    forEach contentItems (fun contentItem =>
      emit (ConsoleLog (" " +:+ show_opt (label contentItem) +:+ " (" +:+ id contentItem +:+ ")")));;;
    emit (ConsoleLog ("Total: " +:+ show_nat (length contentItems)));;;
    yes <- (if negb force then ask sys (question allContent) else ret true);;
    if negb yes then ret Declined
    else
      t <- now sys;;
      let timestamp := show_N t in
      let log0 := newArchiveLog ("Content Items Remove Archived Active Flag Log - "
                                 +:+ timestamp +:+ nl) in
      f <- loop argv ignoreError (length contentItems) 0
                {| items := contentItems; log := log0; successCount := 0 |};;
      match logFile with
      | Some logFile =>
        if negb silent && str_truthy logFile
        then _ <- write sys (replace "<DATE>" timestamp logFile) (log f);; ret tt
        else ret tt
      | None => ret tt
      end;;;
      emit (ConsoleLog ("Remove archived active flag from " +:+ show_nat (successCount f)
                        +:+ " content items."));;;
      ret (Completed f).

Definition handler (argv : Argv.t) : M World HandlerOutcome :=
  let id := Argv.id argv in
  let logFile := Argv.logFile argv in
  let force := Argv.force argv in
  let silent := Argv.silent argv in
  let ignoreError := Argv.ignoreError argv in
  let hubId := Argv.hubId argv in
  let revertLog := Argv.revertLog argv in
  let repoId := Argv.repoId argv in
  let folderId := Argv.folderId argv in
  let name := Argv.name argv in
  let contentType := Argv.contentType argv in
  (* console.log(argv, process.env); *)
  emit (ConsoleLogArgvEnv argv (process_env sys));;;
  let client := dynamicContentClientFactory sys argv in
  let allContent :=
    negb (opt_truthy id) && negb (soa_truthy name) && negb (soa_truthy contentType)
    && negb (opt_truthy revertLog) && negb (soa_truthy folderId) && negb (soa_truthy repoId) in
  (if soa_truthy repoId && opt_truthy id
   then emit (ConsoleLog "ID of content item is specified, ignoring repository ID")
   else ret tt);;;
  if opt_truthy id && soa_truthy name then
    emit (ConsoleLog "Please specify either a item name or an ID - not both.");;;
    ret Rejected
  else
    (if soa_truthy repoId && soa_truthy folderId
     then emit (ConsoleLog "Folder is specified, ignoring repository ID")
     else ret tt);;;
    (if allContent
     then emit (ConsoleLog "No filter was given, removing active flags on all archived content")
     else ret tt);;;
    sel <- getContentItems client id hubId repoId folderId name contentType;;
    o <- processItems (contentItems sel) force silent logFile allContent
                      (missingContent sel) ignoreError argv;;
    ret (Processed o).
End Command.
End ActiveFlag.

(* ===================================================================== *)
(** * Vocabulary of the specification *)
(* ===================================================================== *)

Section Vocabulary.
Context {World : Type}.

(** The confirmation gate lets the run through: forced, or the user
    answered yes to question [q]; [w0] is the world after the gate. *)
Definition confirmed (sys : System World) (force : bool) (q : string) (w w0 : World) : Prop :=
  (force = true /\ w0 = w) \/ (force = false /\ asyncQuestion sys q w = (true, w0)).

(** Requests that touch the stored copy of a content item. *)
Definition is_mutation (e : Event) : bool :=
  match e with
  | Remote (Unarchive _) _ | Remote (Update _ _) _ | Remote (Archive _) _ => true
  | _ => false
  end.

Definition is_remote (e : Event) : bool :=
  match e with
  | Remote _ _ => true
  | _ => false
  end.

Definition is_action (l : LogLine) : bool :=
  match l with
  | ACTION _ _ => true
  | _ => false
  end.

Definition is_warn_or_error (l : LogLine) : bool :=
  match l with
  | WARN _ _ | ERROR _ _ => true
  | _ => false
  end.

(** The target field of the delivery-key command, and of the active-flag
    command. *)
Definition hasDeliveryKey (item : ContentItem) : bool :=
  truthy (deliveryKey (_meta (body item))).

Definition hasActiveFlag (item : ContentItem) : bool :=
  active (body item) && num_truthy (lastPublishedVersion item).

(** The pattern part of the filter predicate, section 4.2: a name filter
    if there is one, else a content-type filter if there is one. *)
Definition matchesPatterns (sys : System World) (name contentType : option StrOrArr)
    (item : ContentItem) : Prop :=
  match name, contentType with
  | Some name, _ =>
    exists p, In p (toArray name) /\ equalsOrRegex sys (label_or_empty item) p = Ok true
  | None, Some contentType =>
    exists p, In p (toArray contentType)
              /\ equalsOrRegex sys (schema (_meta (body item))) p = Ok true
  | None, None => True
  end.

(** Section 4.4, delivery-key command: the item's transition goes
    through, from world [w] to world [w'], leaving [item2] in slot [i]. *)
Definition succeeds (client : DynamicContent World) (item : ContentItem) (w : World)
    (item2 : ContentItem) (w' : World) : Prop :=
  exists item1 w1 w2 r,
    unarchive client item w = (Ok item1, w1)
    /\ update client (set_deliveryKey JsNull item1) (set_deliveryKey JsNull item1) w1
       = (Ok item2, w2)
    /\ archive client item2 w2 = (Ok r, w').

(** Section 4.4, delivery-key command: one of the three requests throws
    [e]; [cur] is the local copy at that moment. *)
Inductive throws (client : DynamicContent World) (item : ContentItem) (w : World)
  : string -> ContentItem -> World -> Prop :=
| throws_unarchive e w' :
    unarchive client item w = (Throw e, w') ->
    throws client item w e item w'
| throws_update item1 w1 e w' :
    unarchive client item w = (Ok item1, w1) ->
    update client (set_deliveryKey JsNull item1) (set_deliveryKey JsNull item1) w1
    = (Throw e, w') ->
    throws client item w e (set_deliveryKey JsNull item1) w'
| throws_archive item1 w1 item2 w2 e w' :
    unarchive client item w = (Ok item1, w1) ->
    update client (set_deliveryKey JsNull item1) (set_deliveryKey JsNull item1) w1
    = (Ok item2, w2) ->
    archive client item2 w2 = (Throw e, w') ->
    throws client item w e item2 w'.

(** Section 4.4 steps 2 to 4 for the delivery-key command, read as the
    requests one item causes: each step only after the one before
    returned. *)
Definition transition_requests (client : DynamicContent World) (item : ContentItem)
    (w : World) : list Event :=
  match unarchive client item w with
  | (Throw _, _) => [Remote (Unarchive item) false]
  | (Ok item1, w1) =>
    let cleared := set_deliveryKey JsNull item1 in
    match update client cleared cleared w1 with
    | (Throw _, _) => [Remote (Unarchive item) true; Remote (Update cleared cleared) false]
    | (Ok item2, w2) =>
      [Remote (Unarchive item) true; Remote (Update cleared cleared) true;
       Remote (Archive item2) (returned (fst (archive client item2 w2)))]
    end
  end.

(** What the commands rely on from the hub: a listing by status returns
    items of that status. *)
Record ListingContract (client : DynamicContent World) : Prop := {
  repo_list_status : forall source st w r w',
    repo_contentItems_list client source st w = (Ok r, w') ->
    Forall (fun item => status item = st) r;
  folder_list_status : forall source st w r w',
    folder_contentItems_list client source st w = (Ok r, w') ->
    Forall (fun item => status item = st) r
}.

(** What the commands rely on from the hub: [status_of w i] is the stored
    status of item [i]; a request on an item keeps the item's id, leaves
    the other items' status alone, and a returning archive request
    leaves the item ARCHIVED.  Writing the log file is no hub request. *)
Record RemoteContract (sys : System World) (client : DynamicContent World)
    (status_of : World -> string -> option Status) : Prop := {
  unarchive_id : forall item w item' w',
    unarchive client item w = (Ok item', w') -> id item' = id item;
  update_id : forall self item w item' w',
    update client self item w = (Ok item', w') -> id item' = id item;
  archive_status : forall item w r w',
    archive client item w = (Ok r, w') -> status_of w' (id item) = Some ARCHIVED;
  unarchive_frame : forall item w r w' j,
    unarchive client item w = (r, w') -> j <> id item -> status_of w' j = status_of w j;
  update_frame : forall self item w r w' j,
    update client self item w = (r, w') -> j <> id item -> status_of w' j = status_of w j;
  archive_frame : forall item w r w' j,
    archive client item w = (r, w') -> j <> id item -> status_of w' j = status_of w j;
  write_frame : forall path log w r w' j,
    writeToFile sys path log w = (r, w') -> status_of w' j = status_of w j
}.
End Vocabulary.

(* ===================================================================== *)
(** * An in-memory hub *)
(* ===================================================================== *)

(** A small hub held in memory, with requests that can be made to fail, on
    which the commands can be run. *)
Module Mock.
Inductive Op : Type := OpGet | OpUnarchive | OpUpdate | OpArchive | OpPublish.

Definition Op_eqb (a b : Op) : bool :=
  match a, b with
  | OpGet, OpGet | OpUnarchive, OpUnarchive | OpUpdate, OpUpdate
  | OpArchive, OpArchive | OpPublish, OpPublish => true
  | _, _ => false
  end.

Record Entry : Type := { repo : string; folder : string; item : ContentItem }.

Record World : Type := {
  hub : list Entry;
  failing : list (Op * string);
  answer : bool;
  clock : N
}.

Definition fails (op : Op) (i : string) (w : World) : bool :=
  existsb (fun f => Op_eqb (fst f) op && String.eqb (snd f) i) (failing w).

Definition lookup (i : string) (es : list Entry) : option Entry :=
  find (fun e => String.eqb (id (item e)) i) es.

Definition store (it : ContentItem) (es : list Entry) : list Entry :=
  map (fun e => if String.eqb (id (item e)) (id it)
                then {| repo := repo e; folder := folder e; item := it |}
                else e) es.

Definition with_status (st : Status) (it : ContentItem) : ContentItem :=
  {| id := id it; label := label it; status := st; body := body it;
     lastPublishedVersion := lastPublishedVersion it |}.

Definition with_hub (es : list Entry) (w : World) : World :=
  {| hub := es; failing := failing w; answer := answer w; clock := clock w |}.

Definition status_of (w : World) (i : string) : option Status :=
  option_map (fun e => status (item e)) (lookup i (hub w)).

Definition get (i : string) (w : World) : Result ContentItem * World :=
  if fails OpGet i w then (Throw "Error: request failed", w)
  else match lookup i (hub w) with
       | Some e => (Ok (item e), w)
       | None => (Throw "Error: 404 Not Found", w)
       end.

Definition listed (p : Entry -> bool) (st : Status) (w : World)
  : Result (list ContentItem) * World :=
  (Ok (map item (List.filter (fun e => p e && Status_eqb (status (item e)) st) (hub w))), w).

Definition unarchiveItem (it : ContentItem) (w : World) : Result ContentItem * World :=
  if fails OpUnarchive (id it) w then (Throw "Error: unarchive failed", w)
  else match lookup (id it) (hub w) with
       | Some e =>
         match status (item e) with
         | ARCHIVED =>
           let it' := with_status ACTIVE (item e) in
           (Ok it', with_hub (store it' (hub w)) w)
         | _ => (Throw "Error: item is not archived", w)
         end
       | None => (Throw "Error: 404 Not Found", w)
       end.

Definition updateItem (self it : ContentItem) (w : World) : Result ContentItem * World :=
  if fails OpUpdate (id it) w then (Throw "Error: update failed", w)
  else match lookup (id it) (hub w) with
       | Some e =>
         let it' := with_status (status (item e)) it in
         (Ok it', with_hub (store it' (hub w)) w)
       | None => (Throw "Error: 404 Not Found", w)
       end.

Definition archiveItem (it : ContentItem) (w : World) : Result ContentItem * World :=
  if fails OpArchive (id it) w then (Throw "Error: archive failed", w)
  else match lookup (id it) (hub w) with
       | Some e =>
         match status (item e) with
         | ACTIVE =>
           let it' := with_status ARCHIVED (item e) in
           (Ok it', with_hub (store it' (hub w)) w)
         | _ => (Throw "Error: item is not active", w)
         end
       | None => (Throw "Error: 404 Not Found", w)
       end.

Definition publish (_ : Argv.t) (it : ContentItem) (w : World) : Result unit * World :=
  if fails OpPublish (id it) w then (Throw "Error: publish failed", w) else (Ok tt, w).

Definition client : DynamicContent World := {|
  contentItems_get := get;
  hubs_get := fun h w => (Ok {| hub_id := h |}, w);
  contentRepositories_get := fun r w => (Ok {| repo_id := r |}, w);
  folders_get := fun f w => (Ok {| folder_id := f |}, w);
  hub_contentRepositories_list := fun _ w =>
    (Ok (map Build_ContentRepository (nodup string_dec (map repo (hub w)))), w);
  repo_contentItems_list := fun source =>
    listed (fun e => String.eqb (repo e) (repo_id source));
  folder_contentItems_list := fun source =>
    listed (fun e => String.eqb (folder e) (folder_id source));
  unarchive := unarchiveItem;
  update := updateItem;
  archive := archiveItem
|}.

(** Patterns are taken literally by this hub's [equalsOrRegex]. *)
Definition system : System World := {|
  dynamicContentClientFactory := fun _ => client;
  equalsOrRegex := fun value pattern => Ok (String.eqb value pattern);
  PublishQueue_publish := publish;
  asyncQuestion := fun _ w => (answer w, w);
  Date_now := clock;
  writeToFile := fun _ _ w => (true, w);
  process_env := [("DC_CLIENT_SECRET", "hunter2"); ("HOME", "/home/editor")]
|}.

Definition mkItem (i l : string) (st : Status) (key : JsOptStr) (act : bool)
    (published : option nat) : ContentItem :=
  {| id := i; label := Some l; status := st;
     body := {| _meta := {| schema := "https://schema.example.com/banner.json";
                            deliveryKey := key |};
                active := act |};
     lastPublishedVersion := published |}.

Definition itemA := mkItem "a1" "header-a" ARCHIVED (JsStr "key/a") true (Some 3).
Definition itemB := mkItem "b2" "header-b" ARCHIVED (JsStr "key/b") true (Some 1).
Definition itemC := mkItem "c3" "footer-c" ARCHIVED (JsStr "key/c") true (Some 2).
(** An archived item with neither a delivery key nor an active flag. *)
Definition itemPlain := mkItem "item123" "plain" ARCHIVED JsUndefined false None.

Definition entries : list Entry :=
  [ {| repo := "repo1"; folder := "folder1"; item := itemA |};
    {| repo := "repo1"; folder := "folder2"; item := itemB |};
    {| repo := "repo2"; folder := "folder1"; item := itemC |};
    {| repo := "repo2"; folder := "folder2"; item := itemPlain |} ].

Definition initial (failing : list (Op * string)) : World :=
  {| hub := entries; failing := failing; answer := true; clock := 1700000000000%N |}.

(** The local copy of an item after its unarchive request returned and its
    delivery key was cleared, and the hub after each step of the item's
    transition. *)
Definition cleared (it : ContentItem) : ContentItem :=
  set_deliveryKey JsNull (with_status ACTIVE it).

Definition after_unarchive (it : ContentItem) (w : World) : World := snd (unarchiveItem it w).

Definition after_update (it : ContentItem) (w : World) : World :=
  snd (updateItem (cleared it) (cleared it) (after_unarchive it w)).

Definition after_transition (it : ContentItem) (w : World) : World :=
  snd (archiveItem (cleared it) (after_update it w)).

Definition argv : Argv.t := {|
  Argv.id := None;
  Argv.logFile := Some "log-<DATE>.log";
  Argv.force := true;
  Argv.silent := false;
  Argv.ignoreError := false;
  Argv.hubId := "hub1";
  Argv.revertLog := None;
  Argv.repoId := None;
  Argv.folderId := None;
  Argv.name := None;
  Argv.contentType := None
|}.

Definition with_id (i : string) (a : Argv.t) : Argv.t := {|
  Argv.id := Some i;
  Argv.logFile := Argv.logFile a;
  Argv.force := Argv.force a;
  Argv.silent := Argv.silent a;
  Argv.ignoreError := Argv.ignoreError a;
  Argv.hubId := Argv.hubId a;
  Argv.revertLog := Argv.revertLog a;
  Argv.repoId := Argv.repoId a;
  Argv.folderId := Argv.folderId a;
  Argv.name := Argv.name a;
  Argv.contentType := Argv.contentType a
|}.

Definition with_name (n : StrOrArr) (a : Argv.t) : Argv.t := {|
  Argv.id := Argv.id a;
  Argv.logFile := Argv.logFile a;
  Argv.force := Argv.force a;
  Argv.silent := Argv.silent a;
  Argv.ignoreError := Argv.ignoreError a;
  Argv.hubId := Argv.hubId a;
  Argv.revertLog := Argv.revertLog a;
  Argv.repoId := Argv.repoId a;
  Argv.folderId := Argv.folderId a;
  Argv.name := Some n;
  Argv.contentType := Argv.contentType a
|}.
End Mock.

(* ===================================================================== *)
(** * Further vocabulary *)
(* ===================================================================== *)

Section MoreVocabulary.
Context {World : Type}.

Definition is_question (e : Event) : bool :=
  match e with
  | Question _ => true
  | _ => false
  end.

Definition is_write (e : Event) : bool :=
  match e with
  | WriteToFile _ _ => true
  | _ => false
  end.

Definition is_warn (l : LogLine) : bool :=
  match l with
  | WARN _ _ => true
  | _ => false
  end.

Definition is_error (l : LogLine) : bool :=
  match l with
  | ERROR _ _ => true
  | _ => false
  end.

(** What the item locator may do: print to the console and send read
    requests, the listings asking for ARCHIVED items. *)
Definition locator_event (e : Event) : Prop :=
  match e with
  | ConsoleLog _ => True
  | Remote (ListRepoItems _ st) _ | Remote (ListFolderItems _ st) _ => st = ARCHIVED
  | Remote (GetContentItem _) _ | Remote (GetHub _) _
  | Remote (ListContentRepositories _) _ | Remote (GetContentRepository _) _
  | Remote (GetFolder _) _ => True
  | _ => False
  end.

Definition is_repo_listing (e : Event) : bool :=
  match e with
  | Remote (ListRepoItems _ _) _ => true
  | _ => false
  end.

Definition is_folder_request (e : Event) : bool :=
  match e with
  | Remote (GetFolder _) _ | Remote (ListFolderItems _ _) _ => true
  | _ => false
  end.

Definition is_returned_archive (e : Event) : bool :=
  match e with
  | Remote (Archive _) true => true
  | _ => false
  end.

(** The items of the unarchive requests, respectively of the publish
    submissions, of a trace, in order. *)
Definition unarchived (t : list Event) : list ContentItem :=
  flat_map (fun e => match e with
                     | Remote (Unarchive item) _ => [item]
                     | _ => []
                     end) t.

Definition published (t : list Event) : list ContentItem :=
  flat_map (fun e => match e with
                     | Remote (Publish item) _ => [item]
                     | _ => []
                     end) t.

(** The console lines that list the selection. *)
Definition listing (contentItems : list ContentItem) : list Event :=
  map (fun contentItem =>
         ConsoleLog (" " +:+ show_opt (label contentItem) +:+ " (" +:+ id contentItem +:+ ")"))
      contentItems.

(** The predicate filter read as one boolean test per item, for a pattern
    test [m]: the target field is there, and some name pattern matches the
    label, or (without name patterns) some content-type pattern matches the
    schema id. *)
Definition selects (m : string -> string -> bool) (hasField : ContentItem -> bool)
    (name contentType : option StrOrArr) (item : ContentItem) : bool :=
  hasField item
  && match name, contentType with
     | Some name, _ => existsb (m (label_or_empty item)) (toArray name)
     | None, Some contentType => existsb (m (schema (_meta (body item)))) (toArray contentType)
     | None, None => true
     end.

Definition is_console (e : Event) : bool :=
  match e with
  | ConsoleLog _ | ConsoleLogArgvEnv _ _ => true
  | _ => false
  end.

(** Requests of the batch loops. *)
Definition is_batch_request (e : Event) : bool :=
  match e with
  | Remote (Unarchive _) _ | Remote (Update _ _) _ | Remote (Archive _) _
  | Remote (Publish _) _ => true
  | _ => false
  end.

Definition is_returned (e : Event) : bool :=
  match e with
  | Remote _ true => true
  | _ => false
  end.

(** Scanning a trace from its start, a question comes before the first
    request of a batch loop (or there is no such request). *)
Fixpoint asked_first (t : list Event) : bool :=
  match t with
  | [] => true
  | e :: t' => if is_question e then true
               else if is_batch_request e then false
               else asked_first t'
  end.

(** Neither a question nor a request of a batch loop. *)
Definition quiet (e : Event) : Prop :=
  is_question e = false /\ is_batch_request e = false.

(** A [try] block that throws whenever one of its requests threw. *)
Definition fails_closed {A} (m : M World (Result A)) : Prop :=
  forall w c, In (Remote c false) (trace (m w)) -> exists e, value (m w) = Throw e.

(** Every event of a program, from whatever world, satisfies [P]. *)
Definition traces {A} (P : Event -> Prop) (m : M World A) : Prop :=
  forall w, Forall P (trace (m w)).

(** The two [filterContentItems] differ in the field test only. *)
Definition filter_try_with (sys : System World) (hasField : ContentItem -> bool)
    (name contentType : option StrOrArr) (contentItems : list ContentItem)
  : Result Selection :=
  let withField := List.filter hasField contentItems in
  match name with
  | Some name =>
    match filterJs
            (fun item =>
               match findIndex (fun id => equalsOrRegex sys (label_or_empty item) id)
                               (toArray name) with
               | Ok k => Ok (negb (k =? -1)%Z)
               | Throw e => Throw e
               end) withField with
    | Ok filtered => Ok {| contentItems := filtered; missingContent := false |}
    | Throw e => Throw e
    end
  | None =>
    match contentType with
    | Some contentType =>
      match filterJs
              (fun item =>
                 match findIndex (fun id => equalsOrRegex sys (schema (_meta (body item))) id)
                                 (toArray contentType) with
                 | Ok k => Ok (negb (k =? -1)%Z)
                 | Throw e => Throw e
                 end) withField with
      | Ok filtered => Ok {| contentItems := filtered; missingContent := false |}
      | Throw e => Throw e
      end
    | None => Ok {| contentItems := withField; missingContent := false |}
    end
  end.

(** The pattern match read as a test: a match is an answer of [true]. *)
Definition matched (sys : System World) (value pattern : string) : bool :=
  match equalsOrRegex sys value pattern with
  | Ok b => b
  | Throw _ => false
  end.

(** The pattern matches the filter can ask for about an item: its label
    against the name patterns, or (without name patterns) its schema id
    against the content-type patterns. *)
Definition asked (name contentType : option StrOrArr) (item : ContentItem)
  : list (string * string) :=
  match name, contentType with
  | Some name, _ => map (pair (label_or_empty item)) (toArray name)
  | None, Some contentType => map (pair (schema (_meta (body item)))) (toArray contentType)
  | None, None => []
  end.

(** One of the pattern matches the filter can ask for, about an item of
    [l] that has the target field, throws [e]. *)
Definition match_throws (sys : System World) (hasField : ContentItem -> bool)
    (name contentType : option StrOrArr) (l : list ContentItem) (e : string) : Prop :=
  exists item vp,
    In item l /\ hasField item = true /\ In vp (asked name contentType item)
    /\ equalsOrRegex sys (fst vp) (snd vp) = Throw e.

(** The outcomes of submitting the items of [l] to the publish queue one
    after the other, from world [w] on, each with its item. *)
Fixpoint publish_outcomes (sys : System World) (argv : Argv.t) (l : list ContentItem)
    (w : World) : list (ContentItem * Result unit) :=
  match l with
  | [] => []
  | item :: l' =>
    (item, fst (PublishQueue_publish sys argv item w))
    :: publish_outcomes sys argv l' (snd (PublishQueue_publish sys argv item w))
  end.

(** The log lines of an item of the active-flag command whose publish
    submission had outcome [r]: one COMMENT line, which alone tells whether
    the submission returned or threw, then the ACTION line. *)
Definition publish_lines (ir : ContentItem * Result unit) : list LogLine :=
  [COMMENT match snd ir with
           | Ok _ => "Started publish for " +:+ show_opt (label (fst ir)) +:+ "."
           | Throw e => "Failed to initiate publish for " +:+ show_opt (label (fst ir))
                        +:+ ": " +:+ e
           end;
   ACTION "REMOVED-ARCHIVED-ACTIVE-FLAG" (id (fst ir) +:+ nl)].

(** The request of an item's publish submission, with its outcome. *)
Definition publish_request (ir : ContentItem * Result unit) : Event :=
  Remote (Publish (fst ir)) (returned (snd ir)).

(** The ACTION line of the delivery-key command for an item. *)
Definition removed_key_line (item : ContentItem) : LogLine :=
  ACTION "REMOVED-ARCHIVED-DELIVERY-KEY"
         (id item +:+ ":" +:+ show (deliveryKey (_meta (body item))) +:+ nl).

(** Trace [t] holds the whole transition of [item], section 4.4 steps 2 to
    4: its unarchive request, the update request carrying the returned
    copy with the delivery key set to null, and the archive request, one
    after the other and all three returned. *)
Definition restored_by (t : list Event) (item : ContentItem) : Prop :=
  exists before item1 item2 after,
    t = before
        ++ [Remote (Unarchive item) true;
            Remote (Update (set_deliveryKey JsNull item1) (set_deliveryKey JsNull item1)) true;
            Remote (Archive item2) true]
        ++ after
    /\ id item1 = id item /\ id item2 = id item.
End MoreVocabulary.

(** More hub worlds and arguments to run the commands on. *)
Module MockMore.
Definition with_folderId (f : StrOrArr) (a : Argv.t) : Argv.t := {|
  Argv.id := Argv.id a;
  Argv.logFile := Argv.logFile a;
  Argv.force := Argv.force a;
  Argv.silent := Argv.silent a;
  Argv.ignoreError := Argv.ignoreError a;
  Argv.hubId := Argv.hubId a;
  Argv.revertLog := Argv.revertLog a;
  Argv.repoId := Argv.repoId a;
  Argv.folderId := Some f;
  Argv.name := Argv.name a;
  Argv.contentType := Argv.contentType a
|}.

Definition unforced (a : Argv.t) : Argv.t := {|
  Argv.id := Argv.id a;
  Argv.logFile := Argv.logFile a;
  Argv.force := false;
  Argv.silent := Argv.silent a;
  Argv.ignoreError := Argv.ignoreError a;
  Argv.hubId := Argv.hubId a;
  Argv.revertLog := Argv.revertLog a;
  Argv.repoId := Argv.repoId a;
  Argv.folderId := Argv.folderId a;
  Argv.name := Argv.name a;
  Argv.contentType := Argv.contentType a
|}.

(** A hub whose user answers no. *)
Definition refusing : Mock.World :=
  {| Mock.hub := Mock.entries; Mock.failing := []; Mock.answer := false;
     Mock.clock := 1700000000000%N |}.
(** The final locals of a run that reached its summary. *)
Definition final_frame (o : Outcome) : Frame :=
  match o with
  | Completed f => f
  | _ => {| items := []; log := newArchiveLog EmptyString; successCount := 0 |}
  end.
End MockMore.

(** The in-memory hub behind a quota: it accepts a limited number of update
    requests and rejects the ones after that.  Everything else is passed
    on to the hub of [Mock]. *)
Module Quota.
Record World : Type := { base : Mock.World; updates_left : nat }.

Definition lift {A} (op : Mock.World -> A * Mock.World) (w : World) : A * World :=
  (fst (op (base w)), {| base := snd (op (base w)); updates_left := updates_left w |}).

Definition updateItem (self it : ContentItem) (w : World) : Result ContentItem * World :=
  match updates_left w with
  | 0 => (Throw "Error: 429 Too Many Requests", w)
  | S n => (fst (Mock.updateItem self it (base w)),
            {| base := snd (Mock.updateItem self it (base w)); updates_left := n |})
  end.

Definition client : DynamicContent World := {|
  contentItems_get := fun i => lift (contentItems_get Mock.client i);
  hubs_get := fun h => lift (hubs_get Mock.client h);
  contentRepositories_get := fun r => lift (contentRepositories_get Mock.client r);
  folders_get := fun f => lift (folders_get Mock.client f);
  hub_contentRepositories_list := fun h => lift (hub_contentRepositories_list Mock.client h);
  repo_contentItems_list := fun s st => lift (repo_contentItems_list Mock.client s st);
  folder_contentItems_list := fun s st => lift (folder_contentItems_list Mock.client s st);
  unarchive := fun it => lift (Mock.unarchiveItem it);
  update := updateItem;
  archive := fun it => lift (Mock.archiveItem it)
|}.

Definition system : System World := {|
  dynamicContentClientFactory := fun _ => client;
  equalsOrRegex := equalsOrRegex Mock.system;
  PublishQueue_publish := fun a it => lift (Mock.publish a it);
  asyncQuestion := fun q => lift (asyncQuestion Mock.system q);
  Date_now := fun w => Mock.clock (base w);
  writeToFile := fun p l => lift (writeToFile Mock.system p l);
  process_env := process_env Mock.system
|}.

Definition status_of (w : World) : string -> option Status := Mock.status_of (base w).

Definition initial (n : nat) : World := {| base := Mock.initial []; updates_left := n |}.

(** [--repoId repo1 --repoId repo1 --name header-a], forced. *)
Definition argv : Argv.t := {|
  Argv.id := None;
  Argv.logFile := None;
  Argv.force := true;
  Argv.silent := true;
  Argv.ignoreError := false;
  Argv.hubId := "hub1";
  Argv.revertLog := None;
  Argv.repoId := Some (Multiple ["repo1"; "repo1"]);
  Argv.folderId := None;
  Argv.name := Some (Single "header-a");
  Argv.contentType := None
|}.
End Quota.

(* ===================================================================== *)
(** * Properties *)
(* ===================================================================== *)

(** ** The predicate filter *)

Lemma filterJs_In {A} (p : A -> Result bool) (l r : list A) x :
  filterJs p l = Ok r -> In x r -> In x l /\ p x = Ok true.
Proof.
  revert r. induction l as [|a l IH]; intros r H Hx; cbn in H.
  - inversion H; subst. destruct Hx.
  - destruct (p a) as [b|e] eqn:Hp; [|discriminate].
    destruct (filterJs p l) as [r'|e]; [|discriminate].
    inversion H; subst; clear H.
    destruct b.
    + destruct Hx as [->|Hx]; [split; [now left | exact Hp]|].
      destruct (IH r' eq_refl Hx). split; [now right | assumption].
    + destruct (IH r' eq_refl Hx). split; [now right | assumption].
Qed.

Lemma findIndex_from_found {A} (p : A -> Result bool) (l : list A) (i k : Z) :
  (0 <= i)%Z -> findIndex_from p l i = Ok k -> k <> (-1)%Z ->
  exists x, In x l /\ p x = Ok true.
Proof.
  revert i. induction l as [|a l IH]; intros i Hi H Hk; cbn in H.
  - inversion H; subst. contradiction.
  - destruct (p a) as [[|]|e] eqn:Hp; [| |discriminate].
    + exists a. split; [now left | exact Hp].
    + destruct (IH (i + 1)%Z ltac:(lia) H Hk) as (x & Hx & Hpx).
      exists x. split; [now right | exact Hpx].
Qed.

Lemma findIndex_found {A} (p : A -> Result bool) (l : list A) (k : Z) :
  findIndex p l = Ok k -> negb (k =? -1)%Z = true -> exists x, In x l /\ p x = Ok true.
Proof.
  intros H Hk. apply (findIndex_from_found p l 0 k); [lia | exact H |].
  intros ->. discriminate.
Qed.

(** What an item kept by the pattern stage of the filter satisfies. *)
Lemma pattern_stage_In {A} (f : A -> string -> Result bool) (patterns : list string)
    (l r : list A) (x : A) :
  filterJs (fun item => match findIndex (fun id => f item id) patterns with
                        | Ok k => Ok (negb (k =? -1)%Z)
                        | Throw e => Throw e
                        end) l = Ok r ->
  In x r -> In x l /\ exists p, In p patterns /\ f x p = Ok true.
Proof.
  intros H Hx. destruct (filterJs_In _ _ _ _ H Hx) as [Hl Hp]. split; [exact Hl|].
  destruct (findIndex (fun id => f x id) patterns) as [k|e] eqn:Hk; [|discriminate].
  injection Hp as Hneg. exact (findIndex_found _ _ _ Hk Hneg).
Qed.

Section FilterFacts.
Context {World : Type} (sys : System World).

Lemma filter_try_dk_In name contentType l r x :
  DeliveryKey.filterContentItems_try sys name contentType l = Ok r ->
  In x (contentItems r) ->
  In x l /\ hasDeliveryKey x = true /\ matchesPatterns sys name contentType x.
Proof.
  unfold DeliveryKey.filterContentItems_try, matchesPatterns.
  destruct name as [n|]; [|destruct contentType as [c|]].
  - destruct (filterJs _ _) as [r'|e] eqn:H; [|discriminate].
    intros Hr Hx. inversion Hr; subst; cbn in Hx.
    destruct (pattern_stage_In _ _ _ _ _ H Hx) as [Hin Hp].
    apply filter_In in Hin. destruct Hin. repeat split; assumption.
  - destruct (filterJs _ _) as [r'|e] eqn:H; [|discriminate].
    intros Hr Hx. inversion Hr; subst; cbn in Hx.
    destruct (pattern_stage_In _ _ _ _ _ H Hx) as [Hin Hp].
    apply filter_In in Hin. destruct Hin. repeat split; assumption.
  - intros Hr Hx. inversion Hr; subst; cbn in Hx.
    apply filter_In in Hx. destruct Hx. repeat split; assumption.
Qed.

Lemma filter_try_af_In name contentType l r x :
  ActiveFlag.filterContentItems_try sys name contentType l = Ok r ->
  In x (contentItems r) ->
  In x l /\ hasActiveFlag x = true /\ matchesPatterns sys name contentType x.
Proof.
  unfold ActiveFlag.filterContentItems_try, matchesPatterns.
  destruct name as [n|]; [|destruct contentType as [c|]].
  - destruct (filterJs _ _) as [r'|e] eqn:H; [|discriminate].
    intros Hr Hx. inversion Hr; subst; cbn in Hx.
    destruct (pattern_stage_In _ _ _ _ _ H Hx) as [Hin Hp].
    apply filter_In in Hin. destruct Hin. repeat split; assumption.
  - destruct (filterJs _ _) as [r'|e] eqn:H; [|discriminate].
    intros Hr Hx. inversion Hr; subst; cbn in Hx.
    destruct (pattern_stage_In _ _ _ _ _ H Hx) as [Hin Hp].
    apply filter_In in Hin. destruct Hin. repeat split; assumption.
  - intros Hr Hx. inversion Hr; subst; cbn in Hx.
    apply filter_In in Hx. destruct Hx. repeat split; assumption.
Qed.

Lemma filter_dk_In name contentType l w x :
  In x (contentItems (value (DeliveryKey.filterContentItems sys name contentType l w))) ->
  In x l /\ hasDeliveryKey x = true /\ matchesPatterns sys name contentType x.
Proof.
  unfold DeliveryKey.filterContentItems.
  destruct (DeliveryKey.filterContentItems_try sys name contentType l) as [r|e] eqn:H.
  - cbn. now apply filter_try_dk_In.
  - cbn. intros [].
Qed.

Lemma filter_af_In name contentType l w x :
  In x (contentItems (value (ActiveFlag.filterContentItems sys name contentType l w))) ->
  In x l /\ hasActiveFlag x = true /\ matchesPatterns sys name contentType x.
Proof.
  unfold ActiveFlag.filterContentItems.
  destruct (ActiveFlag.filterContentItems_try sys name contentType l) as [r|e] eqn:H.
  - cbn. now apply filter_try_af_In.
  - cbn. intros [].
Qed.
End FilterFacts.

(** C6. With a name filter and a content-type filter both supplied,
    [filterContentItems] does exactly what it does with the name filter
    alone (same selection, same console output), in both commands: the
    content-type patterns are consulted only when there is no name filter. *)
Theorem C6_name_filter_takes_precedence :
  forall (World : Type) (sys : System World) (name contentType : StrOrArr)
         (contentItems : list ContentItem),
    DeliveryKey.filterContentItems sys (Some name) (Some contentType) contentItems
    = DeliveryKey.filterContentItems sys (Some name) None contentItems
    /\ ActiveFlag.filterContentItems sys (Some name) (Some contentType) contentItems
       = ActiveFlag.filterContentItems sys (Some name) None contentItems.
Proof.
  intros. split; reflexivity.
Qed.

(** C7. On an empty selection [processItems] prints its nothing-found
    message and returns: that line is the whole trace (no question, no log
    file, no request) and the world is untouched, in both commands. *)
Theorem C7_empty_selection_stops :
  forall (World : Type) (sys : System World) (force silent : bool) (logFile : option string)
         (allContent missingContent ignoreError : bool) (client : DynamicContent World)
         (argv : Argv.t) (w : World),
    DeliveryKey.processItems sys [] force silent logFile allContent missingContent
                             ignoreError client w
    = {| value := NothingFound; world := w;
         trace := [ConsoleLog "No delivery keys found in archived items."] |}
    /\ ActiveFlag.processItems sys [] force silent logFile allContent missingContent
                               ignoreError argv w
       = {| value := NothingFound; world := w;
            trace := [ConsoleLog "No active flags found in archived items."] |}.
Proof.
  intros. split; reflexivity.
Qed.

(** C9. With an item ID and a name filter both supplied (both truthy, as
    the handler tests them), the handler prints 'Please specify either a
    item name or an ID - not both.' and returns: its whole trace is console
    output (after the active-flag command's dump of argv and environment,
    and the notice about an ignored repository ID when one was given), so
    no item was located, no question asked, no request sent and no log
    file written, and the world is untouched. *)
Theorem C9_id_and_name_rejected :
  forall (World : Type) (sys : System World) (argv : Argv.t) (w : World),
    opt_truthy (Argv.id argv) = true ->
    soa_truthy (Argv.name argv) = true ->
    DeliveryKey.handler sys argv w
    = {| value := Rejected; world := w;
         trace := (if soa_truthy (Argv.repoId argv)
                   then [ConsoleLog "ID of content item is specified, ignoring repository ID"]
                   else [])
                  ++ [ConsoleLog "Please specify either a item name or an ID - not both."] |}
    /\ ActiveFlag.handler sys argv w
       = {| value := Rejected; world := w;
            trace := ConsoleLogArgvEnv argv (process_env sys)
                     :: (if soa_truthy (Argv.repoId argv)
                         then [ConsoleLog "ID of content item is specified, ignoring repository ID"]
                         else [])
                     ++ [ConsoleLog "Please specify either a item name or an ID - not both."] |}.
Proof.
  intros World sys argv w Hid Hname.
  unfold DeliveryKey.handler, ActiveFlag.handler.
  rewrite Hid, Hname.
  destruct (soa_truthy (Argv.repoId argv)); split; reflexivity.
Qed.

Lemma C9_id_and_name_rejected_witness :
  opt_truthy (Argv.id (Mock.with_name (Single "header-a") (Mock.with_id "a1" Mock.argv))) = true
  /\ soa_truthy (Argv.name (Mock.with_name (Single "header-a") (Mock.with_id "a1" Mock.argv)))
     = true
  /\ DeliveryKey.handler Mock.system
       (Mock.with_name (Single "header-a") (Mock.with_id "a1" Mock.argv)) (Mock.initial [])
     = {| value := Rejected; world := Mock.initial [];
          trace := [ConsoleLog "Please specify either a item name or an ID - not both."] |}.
Proof.
  split; [reflexivity|]. split; [reflexivity|].
  exact (proj1 (C9_id_and_name_rejected Mock.World Mock.system
                  (Mock.with_name (Single "header-a") (Mock.with_id "a1" Mock.argv))
                  (Mock.initial []) eq_refl eq_refl)).
Defined.

(** C9, counterexample. With the item ID [a1] and the name pattern given
    as the empty string ([--name ""]), an ID and a name pattern are both
    supplied, yet neither handler is stopped: the message is not printed,
    the delivery-key handler fetches A by its ID and sends its unarchive,
    update and archive requests, and the active-flag handler submits A to
    the publish queue. *)
Lemma C9_counterexample_empty_name :
  Argv.id (Mock.with_name (Single "") (Mock.with_id "a1" Mock.argv)) = Some "a1"
  /\ Argv.name (Mock.with_name (Single "") (Mock.with_id "a1" Mock.argv)) = Some (Single "")
  /\ value (DeliveryKey.handler Mock.system
              (Mock.with_name (Single "") (Mock.with_id "a1" Mock.argv)) (Mock.initial []))
     <> Rejected
  /\ ~ In (ConsoleLog "Please specify either a item name or an ID - not both.")
          (trace (DeliveryKey.handler Mock.system
                    (Mock.with_name (Single "") (Mock.with_id "a1" Mock.argv))
                    (Mock.initial [])))
  /\ List.filter is_mutation
       (trace (DeliveryKey.handler Mock.system
                 (Mock.with_name (Single "") (Mock.with_id "a1" Mock.argv)) (Mock.initial [])))
     = [Remote (Unarchive Mock.itemA) true;
        Remote (Update (Mock.cleared Mock.itemA) (Mock.cleared Mock.itemA)) true;
        Remote (Archive (Mock.cleared Mock.itemA)) true]
  /\ value (ActiveFlag.handler Mock.system
              (Mock.with_name (Single "") (Mock.with_id "a1" Mock.argv)) (Mock.initial []))
     <> Rejected
  /\ List.filter is_remote
       (trace (ActiveFlag.handler Mock.system
                 (Mock.with_name (Single "") (Mock.with_id "a1" Mock.argv)) (Mock.initial [])))
     = [Remote (GetContentItem "a1") true; Remote (Publish Mock.itemA) true].
Proof.
  split; [reflexivity|]. split; [reflexivity|].
  split; [vm_compute; discriminate|].
  split; [vm_compute; intuition discriminate|].
  split; [vm_compute; reflexivity|].
  split; [vm_compute; discriminate|].
  vm_compute. reflexivity.
Qed.

(** C10. The active-flag handler's first event, on every invocation, is
    the console print of the whole argv record together with the whole
    process environment. *)
Theorem C10_active_flag_handler_prints_environment :
  forall (World : Type) (sys : System World) (argv : Argv.t) (w : World),
    exists rest,
      trace (ActiveFlag.handler sys argv w)
      = ConsoleLogArgvEnv argv (process_env sys) :: rest.
Proof.
  intros. unfold ActiveFlag.handler. cbn [bind trace emit app].
  eexists. reflexivity.
Qed.

(** ** The item locator *)

Section LocatorFacts.
Context {World : Type} (sys : System World).

Lemma bindE_Ok {A B} (m : M World (Result A)) (k : A -> M World (Result B)) w b :
  value (bindE m k w) = Ok b ->
  exists a, value (m w) = Ok a /\ value (k a (world (m w))) = Ok b.
Proof.
  unfold bindE, bind. cbn. destruct (value (m w)) as [a|e]; cbn; intros H.
  - exists a. split; [reflexivity | exact H].
  - discriminate.
Qed.

Lemma promiseAll_Forall {A} (P : A -> Prop) (l : list (M World (Result A))) :
  (forall m, In m l -> forall w a, value (m w) = Ok a -> P a) ->
  forall w rs, value (promiseAll l w) = Ok rs -> Forall P rs.
Proof.
  induction l as [|m l IH]; intros Hl w rs H; cbn in H.
  - inversion H. constructor.
  - destruct (value (m w)) as [a|e] eqn:Ha; [|discriminate].
    destruct (value (promiseAll l (world (m w)))) as [rs'|e] eqn:Hrs; [|discriminate].
    inversion H; subst. constructor.
    + apply (Hl m (or_introl eq_refl) w a Ha).
    + apply (IH (fun m' Hm' => Hl m' (or_intror Hm')) _ _ Hrs).
Qed.

Lemma In_concat_Forall {A} (P : A -> Prop) (ls : list (list A)) x :
  Forall (Forall P) ls -> In x (concat ls) -> P x.
Proof.
  intros H Hx. apply in_concat in Hx. destruct Hx as (l & Hl & Hx).
  rewrite List.Forall_forall in H. specialize (H l Hl).
  rewrite List.Forall_forall in H. exact (H x Hx).
Qed.

(** Without an ID, whatever the locator pushed came from listings that
    asked for ARCHIVED items. *)
Lemma pushed_archived (client : DynamicContent World) (folderId : option StrOrArr)
    (folders : list Folder) (contentRepositories : list ContentRepository) w pushed :
  ListingContract client ->
  value (match folderId with
         | Some _ =>
           promiseAll (map (fun source => call (ListFolderItems source ARCHIVED)
                                               (folder_contentItems_list client source ARCHIVED))
                           folders)
         | None =>
           promiseAll (map (fun source => call (ListRepoItems source ARCHIVED)
                                               (repo_contentItems_list client source ARCHIVED))
                           contentRepositories)
         end w) = Ok pushed ->
  Forall (Forall (fun item => status item = ARCHIVED)) pushed.
Proof.
  intros [Hrepo Hfolder] H. destruct folderId.
  - eapply promiseAll_Forall; [|exact H].
    intros m Hm w' a Ha. apply in_map_iff in Hm. destruct Hm as (source & <- & _).
    cbn in Ha. eapply Hfolder. rewrite <- Ha. apply surjective_pairing.
  - eapply promiseAll_Forall; [|exact H].
    intros m Hm w' a Ha. apply in_map_iff in Hm. destruct Hm as (source & <- & _).
    cbn in Ha. eapply Hrepo. rewrite <- Ha. apply surjective_pairing.
Qed.

Lemma getContentItems_dk_enumerated client hubId repoId folderId name contentType w x :
  In x (contentItems (value (DeliveryKey.getContentItems sys client None hubId repoId folderId
                                                          name contentType w))) ->
  hasDeliveryKey x = true
  /\ matchesPatterns sys name contentType x
  /\ (ListingContract client -> status x = ARCHIVED).
Proof.
  unfold DeliveryKey.getContentItems. unfold bind at 1. cbn [value].
  destruct (value (DeliveryKey.getContentItems_try sys client None hubId repoId folderId
                                                    name contentType w)) as [r|e] eqn:H.
  2:{ cbn. intros []. }
  cbn [ret value]. intros Hx.
  unfold DeliveryKey.getContentItems_try in H.
  apply bindE_Ok in H. destruct H as (hub & _ & H).
  apply bindE_Ok in H. destruct H as (repos & _ & H).
  apply bindE_Ok in H. destruct H as (folders & _ & H).
  apply bindE_Ok in H. destruct H as (pushed & Hpushed & H).
  cbn in H. injection H as <-.
  apply filter_dk_In in Hx. destruct Hx as (Hin & Hkey & Hpat).
  repeat split; [exact Hkey | exact Hpat |].
  intros Hc. apply (In_concat_Forall (fun item => status item = ARCHIVED) pushed x); [|exact Hin].
  eapply pushed_archived; [exact Hc | exact Hpushed].
Qed.

Lemma getContentItems_af_enumerated client hubId repoId folderId name contentType w x :
  In x (contentItems (value (ActiveFlag.getContentItems sys client None hubId repoId folderId
                                                         name contentType w))) ->
  hasActiveFlag x = true
  /\ matchesPatterns sys name contentType x
  /\ (ListingContract client -> status x = ARCHIVED).
Proof.
  unfold ActiveFlag.getContentItems. unfold bind at 1. cbn [value].
  destruct (value (ActiveFlag.getContentItems_try sys client None hubId repoId folderId
                                                   name contentType w)) as [r|e] eqn:H.
  2:{ cbn. intros []. }
  cbn [ret value]. intros Hx.
  unfold ActiveFlag.getContentItems_try in H.
  apply bindE_Ok in H. destruct H as (hub & _ & H).
  apply bindE_Ok in H. destruct H as (repos & _ & H).
  apply bindE_Ok in H. destruct H as (folders & _ & H).
  apply bindE_Ok in H. destruct H as (pushed & Hpushed & H).
  cbn in H. injection H as <-.
  apply filter_af_In in Hx. destruct Hx as (Hin & Hflag & Hpat).
  repeat split; [exact Hflag | exact Hpat |].
  intros Hc. apply (In_concat_Forall (fun item => status item = ARCHIVED) pushed x); [|exact Hin].
  eapply pushed_archived; [exact Hc | exact Hpushed].
Qed.
End LocatorFacts.

(** C3 (as amended). When the items are located by enumeration (by
    repository, by folder or hub-wide, that is: without an ID), no item
    lacking the target field is in the selection that [getContentItems]
    hands on: every selected item has a delivery key (delivery-key
    command), respectively an active flag and a last-published version
    (active-flag command). *)
Theorem C3_enumerated_selection_has_target_field :
  forall (World : Type) (sys : System World) (client : DynamicContent World)
         (hubId : string) (repoId folderId name contentType : option StrOrArr) (w : World),
    Forall (fun item => hasDeliveryKey item = true)
           (contentItems (value (DeliveryKey.getContentItems sys client None hubId repoId
                                                              folderId name contentType w)))
    /\ Forall (fun item => hasActiveFlag item = true)
              (contentItems (value (ActiveFlag.getContentItems sys client None hubId repoId
                                                                folderId name contentType w))).
Proof.
  intros. split; apply List.Forall_forall; intros x Hx.
  - now apply getContentItems_dk_enumerated in Hx.
  - now apply getContentItems_af_enumerated in Hx.
Qed.

(** C3, counterexample. Located by ID, an archived item with no delivery
    key, no active flag and no published version is the selection of both
    commands, and the active-flag handler goes on to process it and to log
    an ACTION line for it. *)
Lemma C3_counterexample_located_by_id :
  hasDeliveryKey Mock.itemPlain = false
  /\ hasActiveFlag Mock.itemPlain = false
  /\ contentItems (value (DeliveryKey.getContentItems Mock.system Mock.client (Some "item123")
                            "hub1" None None None None (Mock.initial []))) = [Mock.itemPlain]
  /\ contentItems (value (ActiveFlag.getContentItems Mock.system Mock.client (Some "item123")
                            "hub1" None None None None (Mock.initial []))) = [Mock.itemPlain]
  /\ value (ActiveFlag.handler Mock.system (Mock.with_id "item123" Mock.argv) (Mock.initial []))
     = Processed
         (Completed
            {| items := [Mock.itemPlain];
               log := {| title := "Content Items Remove Archived Active Flag Log - 1700000000000"
                                  +:+ nl;
                         lines := [COMMENT "Started publish for plain.";
                                   ACTION "REMOVED-ARCHIVED-ACTIVE-FLAG" ("item123" +:+ nl)] |};
               successCount := 1 |}).
Proof.
  vm_compute. repeat split; reflexivity.
Qed.

(** ** The batch loop of the delivery-key command *)

Section DeliveryKeyLoop.
Context {World : Type} (sys : System World) (client : DynamicContent World).

Local Arguments DeliveryKey.catch_dk : simpl never.

Lemma iteration_dk_trace ignoreError i f w item :
  items f !! i = Some item ->
  trace (DeliveryKey.iteration client ignoreError i f w) = transition_requests client item w.
Proof.
  intros Hi. unfold DeliveryKey.iteration, transition_requests. rewrite Hi.
  unfold bind, call. cbn.
  destruct (unarchive client item w) as [[item1|e1] w1]; cbn; [|reflexivity].
  destruct (update client _ _ w1) as [[item2|e2] w2]; cbn; [|reflexivity].
  destruct (archive client item2 w2) as [[r|e3] w3]; cbn; reflexivity.
Qed.

(** An iteration writes to slot [i] of the array and to no other. *)
Lemma iteration_dk_items ignoreError i f w item :
  items f !! i = Some item ->
  exists x, items (snd (value (DeliveryKey.iteration client ignoreError i f w)))
            = <[i := x]> (items f).
Proof.
  intros Hi. pose proof (lookup_lt_Some _ _ _ Hi) as Hlt.
  assert (Hc : forall key e x,
             items (snd (DeliveryKey.catch_dk ignoreError i key e
                           {| items := <[i := x]> (items f); log := log f;
                              successCount := successCount f |}))
             = <[i := x]> (items f)).
  { intros key e x. unfold DeliveryKey.catch_dk. cbn [items].
    rewrite list_lookup_insert_eq by exact Hlt.
    destruct ignoreError; reflexivity. }
  unfold DeliveryKey.iteration. rewrite Hi. unfold bind, call. cbn.
  destruct (unarchive client item w) as [[item1|e1] w1]; cbn.
  - destruct (update client _ _ w1) as [[item2|e2] w2]; cbn.
    + destruct (archive client item2 w2) as [[r|e3] w3]; cbn.
      * exists item2. now rewrite list_insert_insert_eq.
      * exists item2. rewrite list_insert_insert_eq. apply Hc.
    + exists (set_deliveryKey JsNull item1). apply Hc.
  - exists item. specialize (Hc (deliveryKey (_meta (body item))) e1 item).
    rewrite (list_insert_id _ _ _ Hi) in Hc |- *.
    destruct f as [its lg n]. exact Hc.
Qed.

Lemma iteration_dk_success ignoreError i f w item item2 w' :
  items f !! i = Some item ->
  succeeds client item w item2 w' ->
  DeliveryKey.iteration client ignoreError i f w
  = {| value := (true,
                 {| items := <[i := item2]> (items f);
                    log := addAction "REMOVED-ARCHIVED-DELIVERY-KEY"
                             (id item2 +:+ ":" +:+ show (deliveryKey (_meta (body item))) +:+ nl)
                             (log f);
                    successCount := S (successCount f) |});
       world := w';
       trace := transition_requests client item w |}.
Proof.
  intros Hi (item1 & w1 & w2 & r & H1 & H2 & H3).
  unfold DeliveryKey.iteration, transition_requests. rewrite Hi.
  unfold bind, call. cbn. rewrite H1. cbn. rewrite H2. cbn. rewrite H3. cbn.
  now rewrite list_insert_insert_eq.
Qed.

Lemma iteration_dk_throws ignoreError i f w item e cur w' :
  items f !! i = Some item ->
  throws client item w e cur w' ->
  DeliveryKey.iteration client ignoreError i f w
  = {| value := DeliveryKey.catch_dk ignoreError i (deliveryKey (_meta (body item))) e
                  {| items := <[i := cur]> (items f); log := log f;
                     successCount := successCount f |};
       world := w';
       trace := transition_requests client item w |}.
Proof.
  intros Hi Ht.
  unfold DeliveryKey.iteration, transition_requests. rewrite Hi.
  unfold bind, call. cbn.
  destruct Ht as [e w' H1 | item1 w1 e w' H1 H2 | item1 w1 item2 w2 e w' H1 H2 H3].
  - rewrite H1. cbn. rewrite (list_insert_id _ _ _ Hi). destruct f; reflexivity.
  - rewrite H1. cbn. rewrite H2. cbn. reflexivity.
  - rewrite H1. cbn. rewrite H2. cbn. rewrite H3. cbn.
    now rewrite list_insert_insert_eq.
Qed.

Lemma loop_dk_step ignoreError fuel i f w :
  i < length (items f) ->
  DeliveryKey.loop client ignoreError (S fuel) i f w
  = bind (DeliveryKey.iteration client ignoreError i f)
         (fun r => if fst r
                   then DeliveryKey.loop client ignoreError fuel (S i) (snd r)
                   else ret (snd r)) w.
Proof.
  intros Hlt. cbn [DeliveryKey.loop].
  destruct (Nat.ltb_spec i (length (items f))); [reflexivity | lia].
Qed.

Lemma loop_dk_done ignoreError fuel i f w :
  length (items f) <= i ->
  DeliveryKey.loop client ignoreError fuel i f w = ret f w.
Proof.
  intros Hge. destruct fuel; [reflexivity|]. cbn [DeliveryKey.loop].
  destruct (Nat.ltb_spec i (length (items f))); [lia | reflexivity].
Qed.

(** The fuel the command gives the loop is enough: more changes nothing. *)
Lemma loop_dk_fuel ignoreError fuel i f w :
  length (items f) - i <= fuel ->
  DeliveryKey.loop client ignoreError fuel i f w
  = DeliveryKey.loop client ignoreError (length (items f) - i) i f w.
Proof.
  revert i f w. induction fuel as [|fuel IH]; intros i f w Hfuel.
  - replace (length (items f) - i) with 0 by lia. reflexivity.
  - destruct (Nat.lt_ge_cases i (length (items f))) as [Hlt|Hge].
    + replace (length (items f) - i) with (S (length (items f) - S i)) by lia.
      rewrite !loop_dk_step by exact Hlt.
      destruct (lookup_lt_is_Some_2 _ _ Hlt) as [item Hi].
      destruct (iteration_dk_items ignoreError i f w item Hi) as [x Hx].
      unfold bind.
      destruct (fst (value (DeliveryKey.iteration client ignoreError i f w))); [|reflexivity].
      rewrite IH; rewrite Hx, length_insert; [reflexivity | lia].
    + rewrite !loop_dk_done by exact Hge. reflexivity.
Qed.
End DeliveryKeyLoop.

Section DeliveryKeyThreeItems.
Context {World : Type} (sys : System World) (client : DynamicContent World).
Context (A B C : ContentItem).

Lemma loop_dk_fail_fast lg w0 A2 w1 e cur w2 :
  succeeds client A w0 A2 w1 ->
  throws client B w1 e cur w2 ->
  DeliveryKey.loop client false 3 0 {| items := [A; B; C]; log := lg; successCount := 0 |} w0
  = {| value :=
         {| items := [A2; cur; C];
            log :=
              {| title := title lg;
                 lines :=
                   (((lines lg
                      ++ [ACTION "REMOVED-ARCHIVED-DELIVERY-KEY"
                                 (id A2 +:+ ":" +:+ show (deliveryKey (_meta (body A))) +:+ nl)])
                     ++ [COMMENT ("REMOVED-ARCHIVED-DELIVERY-KEY FAILED: " +:+ id cur +:+ ":"
                                  +:+ show (deliveryKey (_meta (body B))))])
                    ++ [COMMENT e])
                   ++ [ERROR ("Failed to remove delivery key "
                              +:+ show (deliveryKey (_meta (body B)))
                              +:+ " and re-archive " +:+ show_opt (label cur)
                              +:+ " (" +:+ id cur +:+ "), current status is "
                              +:+ show_status (status cur) +:+ ", aborting.") e] |};
            successCount := 1 |};
       world := w2;
       trace := transition_requests client A w0 ++ transition_requests client B w1 ++ [] |}.
Proof.
  intros HA HB.
  rewrite loop_dk_step by (cbn; lia). unfold bind.
  erewrite (iteration_dk_success client false 0 _ w0 A A2 w1); [|reflexivity|exact HA].
  cbn [value world trace fst snd].
  rewrite loop_dk_step by (cbn; lia). unfold bind.
  erewrite (iteration_dk_throws client false 1 _ w1 B e cur w2); [|reflexivity|exact HB].
  reflexivity.
Qed.

Lemma loop_dk_ignore_error lg w0 A2 w1 e cur w2 C2 w3 :
  succeeds client A w0 A2 w1 ->
  throws client B w1 e cur w2 ->
  succeeds client C w2 C2 w3 ->
  DeliveryKey.loop client true 3 0 {| items := [A; B; C]; log := lg; successCount := 0 |} w0
  = {| value :=
         {| items := [A2; cur; C2];
            log :=
              {| title := title lg;
                 lines :=
                   ((((lines lg
                       ++ [ACTION "REMOVED-ARCHIVED-DELIVERY-KEY"
                                  (id A2 +:+ ":" +:+ show (deliveryKey (_meta (body A))) +:+ nl)])
                      ++ [COMMENT ("REMOVED-ARCHIVED-DELIVERY-KEY FAILED: " +:+ id cur +:+ ":"
                                   +:+ show (deliveryKey (_meta (body B))))])
                     ++ [COMMENT e])
                    ++ [WARN ("Failed to remove delivery key "
                              +:+ show (deliveryKey (_meta (body B)))
                              +:+ " and re-archive " +:+ show_opt (label cur)
                              +:+ " (" +:+ id cur +:+ "), current status is "
                              +:+ show_status (status cur) +:+ ", continuing.") e])
                   ++ [ACTION "REMOVED-ARCHIVED-DELIVERY-KEY"
                              (id C2 +:+ ":" +:+ show (deliveryKey (_meta (body C))) +:+ nl)] |};
            successCount := 2 |};
       world := w3;
       trace := transition_requests client A w0 ++ transition_requests client B w1
                ++ transition_requests client C w2 ++ [] |}.
Proof.
  intros HA HB HC.
  rewrite loop_dk_step by (cbn; lia). unfold bind.
  erewrite (iteration_dk_success client true 0 _ w0 A A2 w1); [|reflexivity|exact HA].
  cbn [value world trace fst snd].
  rewrite loop_dk_step by (cbn; lia). unfold bind.
  erewrite (iteration_dk_throws client true 1 _ w1 B e cur w2); [|reflexivity|exact HB].
  cbn [value world trace fst snd DeliveryKey.catch_dk items log successCount
       list_lookup lookup list_insert insert].
  rewrite loop_dk_step by (cbn; lia). unfold bind.
  erewrite (iteration_dk_success client true 2 _ w2 C C2 w3); [|reflexivity|exact HC].
  reflexivity.
Qed.
End DeliveryKeyThreeItems.

(** ** From the confirmation gate to the loop *)

Section Gate.
Context {World : Type} (sys : System World).

Lemma forEach_emit_console {A} (g : A -> string) (l : list A) (w : World) :
  world (forEach l (fun x => emit (ConsoleLog (g x))) w) = w
  /\ List.filter is_remote (trace (forEach l (fun x => emit (ConsoleLog (g x))) w)) = [].
Proof.
  induction l as [|x l [IHw IHt]]; cbn.
  - split; reflexivity.
  - split; [exact IHw | exact IHt].
Qed.

(** A confirmed run of the delivery-key command on a non-empty selection
    is the loop, started in the world the gate left; around it there is
    console output, the question and the log-file write, no request. *)
Lemma processItems_dk_confirmed (client : DynamicContent World)
    contentItems force silent logFile allContent missingContent ignoreError w w0 :
  contentItems <> [] ->
  confirmed sys force (DeliveryKey.question allContent) w w0 ->
  let P := DeliveryKey.processItems sys contentItems force silent logFile allContent
             missingContent ignoreError client w in
  let L := DeliveryKey.loop client ignoreError (length contentItems) 0
             {| items := contentItems;
                log := newArchiveLog ("Content Items Remove Archived Delivery Key Log - "
                                      +:+ show_N (Date_now sys w0) +:+ nl);
                successCount := 0 |} w0 in
  value P = Completed (value L)
  /\ List.filter is_remote (trace P) = List.filter is_remote (trace L)
  /\ (world P = world L
      \/ exists path, world P = snd (writeToFile sys path (log (value L)) (world L))).
Proof.
  intros Hne Hconf P L.
  destruct (forEach_emit_console
              (fun contentItem => " " +:+ show_opt (label contentItem) +:+ " ("
                                  +:+ id contentItem +:+ ")") contentItems w) as [Hw Ht].
  subst P. unfold DeliveryKey.processItems.
  destruct (Nat.eqb_spec (length contentItems) 0) as [H0|_];
    [apply length_zero_iff_nil in H0; contradiction|].
  destruct Hconf as [[-> ->] | [-> Hq]].
  - cbn [bind negb value world trace emit ret now]. rewrite Hw. fold L.
    destruct logFile as [lf|]; [destruct (negb silent && str_truthy lf)|];
      cbn [bind value world trace write ret emit];
      (split; [reflexivity|]);
      (split; [cbn [List.filter is_remote]; rewrite !List.filter_app, Ht;
               cbn [List.filter is_remote app]; now rewrite app_nil_r|]);
      try (left; reflexivity); right; eexists; reflexivity.
  - cbn [bind negb value world trace emit ret now ask]. rewrite Hw, Hq.
    cbn [fst snd negb]. fold L.
    destruct logFile as [lf|]; [destruct (negb silent && str_truthy lf)|];
      cbn [bind value world trace write ret emit];
      (split; [reflexivity|]);
      (split; [cbn [List.filter is_remote]; rewrite !List.filter_app, Ht;
               cbn [List.filter is_remote app]; now rewrite app_nil_r|]);
      try (left; reflexivity); right; eexists; reflexivity.
Qed.
End Gate.

(** C2 (as amended). Delivery-key command, selection [A, B, C], run
    confirmed, [ignoreError] false: if A's transition goes through and one
    of B's requests throws, then the log holds, in this order, the ACTION
    line of A and, for B, the two COMMENT lines and the ERROR line, and
    nothing for C; the success counter ends at 1. *)
Theorem C2_fail_fast_delivery_key :
  forall (World : Type) (sys : System World) (client : DynamicContent World)
         (A B C : ContentItem) (force silent : bool) (logFile : option string)
         (allContent missingContent : bool) (w w0 w1 w2 : World)
         (A2 cur : ContentItem) (e : string),
    confirmed sys force (DeliveryKey.question allContent) w w0 ->
    succeeds client A w0 A2 w1 ->
    throws client B w1 e cur w2 ->
    exists f,
      value (DeliveryKey.processItems sys [A; B; C] force silent logFile allContent
                                      missingContent false client w) = Completed f
      /\ lines (log f)
         = [ACTION "REMOVED-ARCHIVED-DELIVERY-KEY"
                   (id A2 +:+ ":" +:+ show (deliveryKey (_meta (body A))) +:+ nl);
            COMMENT ("REMOVED-ARCHIVED-DELIVERY-KEY FAILED: " +:+ id cur +:+ ":"
                     +:+ show (deliveryKey (_meta (body B))));
            COMMENT e;
            ERROR ("Failed to remove delivery key " +:+ show (deliveryKey (_meta (body B)))
                   +:+ " and re-archive " +:+ show_opt (label cur)
                   +:+ " (" +:+ id cur +:+ "), current status is "
                   +:+ show_status (status cur) +:+ ", aborting.") e]
      /\ successCount f = 1.
Proof.
  intros World sys client A B C force silent logFile allContent missingContent
         w w0 w1 w2 A2 cur e Hconf HA HB.
  destruct (processItems_dk_confirmed sys client [A; B; C] force silent logFile allContent
              missingContent false w w0 ltac:(discriminate) Hconf) as (Hv & _ & _).
  rewrite Hv. cbn [length].
  rewrite (loop_dk_fail_fast client A B C _ w0 A2 w1 e cur w2 HA HB).
  eexists. split; [reflexivity|]. split; reflexivity.
Qed.

(** C5 (as amended). Delivery-key command, selection [A, B, C], run
    confirmed, [ignoreError] true: if A's transition goes through, one of
    B's requests throws and C's transition goes through, then the log
    holds, in this order, the ACTION line of A, for B the two COMMENT lines
    and the WARN line, and the ACTION line of C; the success counter ends
    at 2. *)
Theorem C5_ignore_error_delivery_key :
  forall (World : Type) (sys : System World) (client : DynamicContent World)
         (A B C : ContentItem) (force silent : bool) (logFile : option string)
         (allContent missingContent : bool) (w w0 w1 w2 w3 : World)
         (A2 cur C2 : ContentItem) (e : string),
    confirmed sys force (DeliveryKey.question allContent) w w0 ->
    succeeds client A w0 A2 w1 ->
    throws client B w1 e cur w2 ->
    succeeds client C w2 C2 w3 ->
    exists f,
      value (DeliveryKey.processItems sys [A; B; C] force silent logFile allContent
                                      missingContent true client w) = Completed f
      /\ lines (log f)
         = [ACTION "REMOVED-ARCHIVED-DELIVERY-KEY"
                   (id A2 +:+ ":" +:+ show (deliveryKey (_meta (body A))) +:+ nl);
            COMMENT ("REMOVED-ARCHIVED-DELIVERY-KEY FAILED: " +:+ id cur +:+ ":"
                     +:+ show (deliveryKey (_meta (body B))));
            COMMENT e;
            WARN ("Failed to remove delivery key " +:+ show (deliveryKey (_meta (body B)))
                  +:+ " and re-archive " +:+ show_opt (label cur)
                  +:+ " (" +:+ id cur +:+ "), current status is "
                  +:+ show_status (status cur) +:+ ", continuing.") e;
            ACTION "REMOVED-ARCHIVED-DELIVERY-KEY"
                   (id C2 +:+ ":" +:+ show (deliveryKey (_meta (body C))) +:+ nl)]
      /\ successCount f = 2.
Proof.
  intros World sys client A B C force silent logFile allContent missingContent
         w w0 w1 w2 w3 A2 cur C2 e Hconf HA HB HC.
  destruct (processItems_dk_confirmed sys client [A; B; C] force silent logFile allContent
              missingContent true w w0 ltac:(discriminate) Hconf) as (Hv & _ & _).
  rewrite Hv. cbn [length].
  rewrite (loop_dk_ignore_error client A B C _ w0 A2 w1 e cur w2 C2 w3 HA HB HC).
  eexists. split; [reflexivity|]. split; reflexivity.
Qed.

Lemma Mock_succeeds it w :
  fst (Mock.unarchiveItem it w) = Ok (Mock.with_status ACTIVE it) ->
  fst (Mock.updateItem (Mock.cleared it) (Mock.cleared it) (Mock.after_unarchive it w))
  = Ok (Mock.cleared it) ->
  returned (fst (Mock.archiveItem (Mock.cleared it) (Mock.after_update it w))) = true ->
  succeeds Mock.client it w (Mock.cleared it) (Mock.after_transition it w).
Proof.
  intros H1 H2 H3.
  destruct (Mock.archiveItem (Mock.cleared it) (Mock.after_update it w)) as [[r|e] w3] eqn:H3';
    [|discriminate].
  exists (Mock.with_status ACTIVE it), (Mock.after_unarchive it w), (Mock.after_update it w), r.
  repeat split.
  - cbn [unarchive Mock.client]. rewrite <- H1. apply surjective_pairing.
  - cbn [update Mock.client]. fold (Mock.cleared it). rewrite <- H2. apply surjective_pairing.
  - cbn [archive Mock.client]. unfold Mock.after_transition. now rewrite H3'.
Qed.

Lemma C2_fail_fast_delivery_key_witness :
  confirmed Mock.system true (DeliveryKey.question false)
            (Mock.initial [(Mock.OpUpdate, "b2")]) (Mock.initial [(Mock.OpUpdate, "b2")])
  /\ succeeds Mock.client Mock.itemA (Mock.initial [(Mock.OpUpdate, "b2")])
              (Mock.cleared Mock.itemA)
              (Mock.after_transition Mock.itemA (Mock.initial [(Mock.OpUpdate, "b2")]))
  /\ throws Mock.client Mock.itemB
            (Mock.after_transition Mock.itemA (Mock.initial [(Mock.OpUpdate, "b2")]))
            "Error: update failed" (Mock.cleared Mock.itemB)
            (Mock.after_update Mock.itemB
               (Mock.after_transition Mock.itemA (Mock.initial [(Mock.OpUpdate, "b2")])))
  /\ exists f,
       value (DeliveryKey.processItems Mock.system [Mock.itemA; Mock.itemB; Mock.itemC]
                true false None false false false Mock.client
                (Mock.initial [(Mock.OpUpdate, "b2")])) = Completed f
       /\ successCount f = 1.
Proof.
  assert (Hconf : confirmed Mock.system true (DeliveryKey.question false)
                    (Mock.initial [(Mock.OpUpdate, "b2")])
                    (Mock.initial [(Mock.OpUpdate, "b2")]))
    by (left; split; reflexivity).
  assert (HA : succeeds Mock.client Mock.itemA (Mock.initial [(Mock.OpUpdate, "b2")])
                 (Mock.cleared Mock.itemA)
                 (Mock.after_transition Mock.itemA (Mock.initial [(Mock.OpUpdate, "b2")])))
    by (apply Mock_succeeds; vm_compute; reflexivity).
  assert (HB : throws Mock.client Mock.itemB
                 (Mock.after_transition Mock.itemA (Mock.initial [(Mock.OpUpdate, "b2")]))
                 "Error: update failed" (Mock.cleared Mock.itemB)
                 (Mock.after_update Mock.itemB
                    (Mock.after_transition Mock.itemA (Mock.initial [(Mock.OpUpdate, "b2")]))))
    by (apply (throws_update Mock.client Mock.itemB _ (Mock.with_status ACTIVE Mock.itemB)
                 (Mock.after_unarchive Mock.itemB
                    (Mock.after_transition Mock.itemA (Mock.initial [(Mock.OpUpdate, "b2")]))));
        vm_compute; reflexivity).
  split; [exact Hconf|]. split; [exact HA|]. split; [exact HB|].
  destruct (C2_fail_fast_delivery_key Mock.World Mock.system Mock.client
              Mock.itemA Mock.itemB Mock.itemC true false None false false
              _ _ _ _ _ _ _ Hconf HA HB) as (f & Hv & _ & Hc).
  exists f. split; [exact Hv | exact Hc].
Defined.

Lemma C5_ignore_error_delivery_key_witness :
  confirmed Mock.system true (DeliveryKey.question false)
            (Mock.initial [(Mock.OpArchive, "b2")]) (Mock.initial [(Mock.OpArchive, "b2")])
  /\ succeeds Mock.client Mock.itemA (Mock.initial [(Mock.OpArchive, "b2")])
              (Mock.cleared Mock.itemA)
              (Mock.after_transition Mock.itemA (Mock.initial [(Mock.OpArchive, "b2")]))
  /\ throws Mock.client Mock.itemB
            (Mock.after_transition Mock.itemA (Mock.initial [(Mock.OpArchive, "b2")]))
            "Error: archive failed" (Mock.cleared Mock.itemB)
            (Mock.after_transition Mock.itemB
               (Mock.after_transition Mock.itemA (Mock.initial [(Mock.OpArchive, "b2")])))
  /\ succeeds Mock.client Mock.itemC
              (Mock.after_transition Mock.itemB
                 (Mock.after_transition Mock.itemA (Mock.initial [(Mock.OpArchive, "b2")])))
              (Mock.cleared Mock.itemC)
              (Mock.after_transition Mock.itemC
                 (Mock.after_transition Mock.itemB
                    (Mock.after_transition Mock.itemA (Mock.initial [(Mock.OpArchive, "b2")]))))
  /\ exists f,
       value (DeliveryKey.processItems Mock.system [Mock.itemA; Mock.itemB; Mock.itemC]
                true false None false false true Mock.client
                (Mock.initial [(Mock.OpArchive, "b2")])) = Completed f
       /\ successCount f = 2.
Proof.
  assert (Hconf : confirmed Mock.system true (DeliveryKey.question false)
                    (Mock.initial [(Mock.OpArchive, "b2")])
                    (Mock.initial [(Mock.OpArchive, "b2")]))
    by (left; split; reflexivity).
  assert (HA : succeeds Mock.client Mock.itemA (Mock.initial [(Mock.OpArchive, "b2")])
                 (Mock.cleared Mock.itemA)
                 (Mock.after_transition Mock.itemA (Mock.initial [(Mock.OpArchive, "b2")])))
    by (apply Mock_succeeds; vm_compute; reflexivity).
  assert (HB : throws Mock.client Mock.itemB
                 (Mock.after_transition Mock.itemA (Mock.initial [(Mock.OpArchive, "b2")]))
                 "Error: archive failed" (Mock.cleared Mock.itemB)
                 (Mock.after_transition Mock.itemB
                    (Mock.after_transition Mock.itemA (Mock.initial [(Mock.OpArchive, "b2")]))))
    by (apply (throws_archive Mock.client Mock.itemB _ (Mock.with_status ACTIVE Mock.itemB)
                 (Mock.after_unarchive Mock.itemB
                    (Mock.after_transition Mock.itemA (Mock.initial [(Mock.OpArchive, "b2")])))
                 (Mock.cleared Mock.itemB)
                 (Mock.after_update Mock.itemB
                    (Mock.after_transition Mock.itemA (Mock.initial [(Mock.OpArchive, "b2")]))));
        vm_compute; reflexivity).
  assert (HC : succeeds Mock.client Mock.itemC
                 (Mock.after_transition Mock.itemB
                    (Mock.after_transition Mock.itemA (Mock.initial [(Mock.OpArchive, "b2")])))
                 (Mock.cleared Mock.itemC)
                 (Mock.after_transition Mock.itemC
                    (Mock.after_transition Mock.itemB
                       (Mock.after_transition Mock.itemA
                          (Mock.initial [(Mock.OpArchive, "b2")])))))
    by (apply Mock_succeeds; vm_compute; reflexivity).
  split; [exact Hconf|]. split; [exact HA|]. split; [exact HB|]. split; [exact HC|].
  destruct (C5_ignore_error_delivery_key Mock.World Mock.system Mock.client
              Mock.itemA Mock.itemB Mock.itemC true false None false false
              _ _ _ _ _ _ _ _ _ Hconf HA HB HC) as (f & Hv & _ & Hc).
  exists f. split; [exact Hv | exact Hc].
Defined.

(** C2, counterexample. Active-flag command, selection [A, B, C],
    [ignoreError] false, the publish request of B throws and those of A and
    C return: the log has an ACTION line for each of A, B and C, no ERROR
    line, and the success counter ends at 3. *)
Lemma C2_counterexample_active_flag :
  fst (Mock.publish Mock.argv Mock.itemA (Mock.initial [(Mock.OpPublish, "b2")])) = Ok tt
  /\ fst (Mock.publish Mock.argv Mock.itemB (Mock.initial [(Mock.OpPublish, "b2")]))
     = Throw "Error: publish failed"
  /\ fst (Mock.publish Mock.argv Mock.itemC (Mock.initial [(Mock.OpPublish, "b2")])) = Ok tt
  /\ exists f,
       value (ActiveFlag.processItems Mock.system [Mock.itemA; Mock.itemB; Mock.itemC]
                true false None false false false Mock.argv
                (Mock.initial [(Mock.OpPublish, "b2")])) = Completed f
       /\ lines (log f)
          = [COMMENT "Started publish for header-a.";
             ACTION "REMOVED-ARCHIVED-ACTIVE-FLAG" ("a1" +:+ nl);
             COMMENT "Failed to initiate publish for header-b: Error: publish failed";
             ACTION "REMOVED-ARCHIVED-ACTIVE-FLAG" ("b2" +:+ nl);
             COMMENT "Started publish for footer-c.";
             ACTION "REMOVED-ARCHIVED-ACTIVE-FLAG" ("c3" +:+ nl)]
       /\ successCount f = 3.
Proof.
  repeat split. eexists. repeat split.
Qed.

(** C5, counterexample. Active-flag command, selection [A, B, C],
    [ignoreError] true, the publish request of B throws and those of A and
    C return: the log has no WARN line (the failure of B is a COMMENT line
    followed by B's ACTION line), and the success counter ends at 3. *)
Lemma C5_counterexample_active_flag :
  fst (Mock.publish Mock.argv Mock.itemA (Mock.initial [(Mock.OpPublish, "b2")])) = Ok tt
  /\ fst (Mock.publish Mock.argv Mock.itemB (Mock.initial [(Mock.OpPublish, "b2")]))
     = Throw "Error: publish failed"
  /\ fst (Mock.publish Mock.argv Mock.itemC (Mock.initial [(Mock.OpPublish, "b2")])) = Ok tt
  /\ exists f,
       value (ActiveFlag.processItems Mock.system [Mock.itemA; Mock.itemB; Mock.itemC]
                true false None false false true Mock.argv
                (Mock.initial [(Mock.OpPublish, "b2")])) = Completed f
       /\ List.filter is_warn_or_error (lines (log f)) = []
       /\ In (ACTION "REMOVED-ARCHIVED-ACTIVE-FLAG" ("b2" +:+ nl)) (lines (log f))
       /\ successCount f = 3.
Proof.
  repeat split. eexists. split; [reflexivity|]. vm_compute. intuition.
Qed.

(** ** The batch loop of the active-flag command *)

Section ActiveFlagLoop.
Context {World : Type} (sys : System World) (argv : Argv.t).

(** The outer [catch] is never entered: an iteration always ends with the
    ACTION line appended and the counter incremented. *)
Lemma iteration_af_eq ignoreError i f w item :
  items f !! i = Some item ->
  ActiveFlag.iteration sys argv ignoreError i f w
  = {| value :=
         (true,
          {| items := items f;
             log :=
               addAction "REMOVED-ARCHIVED-ACTIVE-FLAG" (id item +:+ nl)
                 (match fst (PublishQueue_publish sys argv item w) with
                  | Ok _ =>
                    addComment ("Started publish for " +:+ show_opt (label item) +:+ ".") (log f)
                  | Throw e =>
                    addComment ("Failed to initiate publish for " +:+ show_opt (label item)
                                +:+ ": " +:+ e) (log f)
                  end);
             successCount := S (successCount f) |});
       world := snd (PublishQueue_publish sys argv item w);
       trace := [Remote (Publish item) (returned (fst (PublishQueue_publish sys argv item w)))] |}.
Proof.
  intros Hi. unfold ActiveFlag.iteration. rewrite Hi. reflexivity.
Qed.

Lemma loop_af_step ignoreError fuel i f w :
  i < length (items f) ->
  ActiveFlag.loop sys argv ignoreError (S fuel) i f w
  = bind (ActiveFlag.iteration sys argv ignoreError i f)
         (fun r => if fst r
                   then ActiveFlag.loop sys argv ignoreError fuel (S i) (snd r)
                   else ret (snd r)) w.
Proof.
  intros Hlt. cbn [ActiveFlag.loop].
  destruct (Nat.ltb_spec i (length (items f))); [reflexivity | lia].
Qed.

Lemma loop_af_done ignoreError fuel i f w :
  length (items f) <= i ->
  ActiveFlag.loop sys argv ignoreError fuel i f w = ret f w.
Proof.
  intros Hge. destruct fuel; [reflexivity|]. cbn [ActiveFlag.loop].
  destruct (Nat.ltb_spec i (length (items f))); [lia | reflexivity].
Qed.

Lemma filter_action_comment_action lg c a d :
  List.filter is_action (lines (addAction a d (addComment c lg)))
  = List.filter is_action (lines lg) ++ [ACTION a d]
  /\ List.filter is_warn_or_error (lines (addAction a d (addComment c lg)))
     = List.filter is_warn_or_error (lines lg).
Proof.
  cbn. rewrite !List.filter_app. cbn. rewrite !app_nil_r. split; reflexivity.
Qed.

(** With enough fuel the loop visits every remaining slot: it appends one
    ACTION line and counts one success for each, and no WARN or ERROR line. *)
Lemma loop_af_all ignoreError fuel i f w :
  length (items f) - i <= fuel ->
  let L := ActiveFlag.loop sys argv ignoreError fuel i f w in
  successCount (value L) = successCount f + (length (items f) - i)
  /\ List.filter is_action (lines (log (value L)))
     = List.filter is_action (lines (log f))
       ++ map (fun item => ACTION "REMOVED-ARCHIVED-ACTIVE-FLAG" (id item +:+ nl))
              (drop i (items f))
  /\ List.filter is_warn_or_error (lines (log (value L)))
     = List.filter is_warn_or_error (lines (log f)).
Proof.
  revert i f w. induction fuel as [|fuel IH]; intros i f w Hfuel L; subst L.
  - rewrite loop_af_done by lia. cbn [ret value].
    rewrite drop_ge by lia. cbn [map]. rewrite app_nil_r.
    repeat split. lia.
  - destruct (Nat.lt_ge_cases i (length (items f))) as [Hlt|Hge].
    + destruct (lookup_lt_is_Some_2 _ _ Hlt) as [item Hi].
      rewrite loop_af_step by exact Hlt. unfold bind.
      rewrite (iteration_af_eq ignoreError i f w item Hi).
      cbn [value world trace fst snd].
      match goal with
      | |- context [ActiveFlag.loop sys argv ignoreError fuel (S i) ?f' ?w'] =>
        destruct (IH (S i) f' w' ltac:(cbn [items]; lia)) as (Hc & Ha & He)
      end.
      cbn [items log successCount] in Hc, Ha, He.
      rewrite Hc, Ha, He.
      rewrite (drop_S _ _ _ Hi). cbn [map].
      split; [lia|]. split.
      * destruct (fst (PublishQueue_publish sys argv item w));
          rewrite (proj1 (filter_action_comment_action _ _ _ _));
          now rewrite <- app_assoc.
      * destruct (fst (PublishQueue_publish sys argv item w));
          now rewrite (proj2 (filter_action_comment_action _ _ _ _)).
    + rewrite loop_af_done by exact Hge. cbn [ret value].
      rewrite drop_ge by lia. cbn [map]. rewrite app_nil_r.
      repeat split. lia.
Qed.

(** The loop does not depend on [ignoreError]. *)
Lemma loop_af_ignoreError b1 b2 fuel i f w :
  ActiveFlag.loop sys argv b1 fuel i f w = ActiveFlag.loop sys argv b2 fuel i f w.
Proof.
  revert i f w. induction fuel as [|fuel IH]; intros i f w; [reflexivity|].
  destruct (Nat.lt_ge_cases i (length (items f))) as [Hlt|Hge].
  - destruct (lookup_lt_is_Some_2 _ _ Hlt) as [item Hi].
    rewrite !loop_af_step by exact Hlt. unfold bind.
    rewrite !(iteration_af_eq _ i f w item Hi).
    cbn [value world trace fst snd]. now rewrite IH.
  - now rewrite !loop_af_done by exact Hge.
Qed.

Lemma processItems_af_ignoreError contentItems force silent logFile allContent
    missingContent b1 b2 w :
  ActiveFlag.processItems sys contentItems force silent logFile allContent missingContent
                          b1 argv w
  = ActiveFlag.processItems sys contentItems force silent logFile allContent missingContent
                            b2 argv w.
Proof.
  unfold ActiveFlag.processItems.
  destruct (length contentItems =? 0); [reflexivity|].
  unfold bind. cbn [value world trace].
  destruct force; cbn [negb value world trace ret ask].
  - cbn [now value world].
    now rewrite (loop_af_ignoreError b1 b2).
  - destruct (fst (asyncQuestion sys (ActiveFlag.question allContent) _));
      cbn [negb value world trace ret now]; [|reflexivity].
    now rewrite (loop_af_ignoreError b1 b2).
Qed.

Lemma processItems_af_confirmed
    contentItems force silent logFile allContent missingContent ignoreError w w0 :
  contentItems <> [] ->
  confirmed sys force (ActiveFlag.question allContent) w w0 ->
  value (ActiveFlag.processItems sys contentItems force silent logFile allContent
                                 missingContent ignoreError argv w)
  = Completed
      (value (ActiveFlag.loop sys argv ignoreError (length contentItems) 0
                {| items := contentItems;
                   log := newArchiveLog ("Content Items Remove Archived Active Flag Log - "
                                         +:+ show_N (Date_now sys w0) +:+ nl);
                   successCount := 0 |} w0)).
Proof.
  intros Hne Hconf.
  destruct (forEach_emit_console
              (fun contentItem => " " +:+ show_opt (label contentItem) +:+ " ("
                                  +:+ id contentItem +:+ ")") contentItems w) as [Hw Ht].
  unfold ActiveFlag.processItems.
  destruct (Nat.eqb_spec (length contentItems) 0) as [H0|_];
    [apply length_zero_iff_nil in H0; contradiction|].
  destruct Hconf as [[-> ->] | [-> Hq]].
  - cbn [bind negb value world trace emit ret now]. rewrite Hw.
    destruct logFile as [lf|]; [destruct (negb silent && str_truthy lf)|]; reflexivity.
  - cbn [bind negb value world trace emit ret now ask]. rewrite Hw, Hq.
    cbn [fst snd negb].
    destruct logFile as [lf|]; [destruct (negb silent && str_truthy lf)|]; reflexivity.
Qed.
End ActiveFlagLoop.

(** The requests of one iteration of the batch loop, on the item in its
    slot (section 4.4, steps 2 to 4).  Delivery-key command: the unarchive
    request on the item, then (if that returned) the update request
    carrying the returned copy with its delivery key set to null, then (if
    that returned) the archive request on the updated copy.  Active-flag
    command: the submission of the item to the publish queue, and nothing
    else. *)
Lemma requests_per_item :
  forall (World : Type) (sys : System World) (client : DynamicContent World) (argv : Argv.t)
         (ignoreError : bool) (i : nat) (f : Frame) (w : World) (item : ContentItem),
    items f !! i = Some item ->
    trace (DeliveryKey.iteration client ignoreError i f w) = transition_requests client item w
    /\ trace (ActiveFlag.iteration sys argv ignoreError i f w)
       = [Remote (Publish item) (returned (fst (PublishQueue_publish sys argv item w)))].
Proof.
  intros World sys client argv ignoreError i f w item Hi. split.
  - now apply iteration_dk_trace.
  - now rewrite (iteration_af_eq sys argv ignoreError i f w item Hi).
Qed.

(** C4. The claim fails on the active-flag command.  Its handler, run
    hub-wide and forced on the in-memory hub, selects A, B and C and logs
    a REMOVED-ARCHIVED-ACTIVE-FLAG line for each of them, yet it sends no
    unarchive, update or archive request: its only requests on items are
    the three publish submissions, and the hub's copy of A still has its
    active flag.  On the same hub the delivery-key handler does send, for
    A, the unarchive request, the update request with the key set to null
    and the archive request, in this order. *)
Lemma C4_active_flag_sends_only_publish :
  List.filter is_mutation (trace (ActiveFlag.handler Mock.system Mock.argv (Mock.initial []))) = []
  /\ List.filter (fun e => match e with Remote (Publish _) _ => true | _ => false end)
                 (trace (ActiveFlag.handler Mock.system Mock.argv (Mock.initial [])))
     = [Remote (Publish Mock.itemA) true; Remote (Publish Mock.itemB) true;
        Remote (Publish Mock.itemC) true]
  /\ (exists f,
        value (ActiveFlag.handler Mock.system Mock.argv (Mock.initial []))
        = Processed (Completed f)
        /\ List.filter is_action (lines (log f))
           = [ACTION "REMOVED-ARCHIVED-ACTIVE-FLAG" ("a1" +:+ nl);
              ACTION "REMOVED-ARCHIVED-ACTIVE-FLAG" ("b2" +:+ nl);
              ACTION "REMOVED-ARCHIVED-ACTIVE-FLAG" ("c3" +:+ nl)])
  /\ Mock.lookup "a1" (Mock.hub (world (ActiveFlag.handler Mock.system Mock.argv
                                          (Mock.initial []))))
     = Some {| Mock.repo := "repo1"; Mock.folder := "folder1"; Mock.item := Mock.itemA |}
  /\ active (body Mock.itemA) = true
  /\ firstn 3 (List.filter is_mutation
                 (trace (DeliveryKey.handler Mock.system Mock.argv (Mock.initial []))))
     = [Remote (Unarchive Mock.itemA) true;
        Remote (Update (Mock.cleared Mock.itemA) (Mock.cleared Mock.itemA)) true;
        Remote (Archive (Mock.cleared Mock.itemA)) true].
Proof.
  split; [vm_compute; reflexivity|]. split; [vm_compute; reflexivity|].
  split; [eexists; split; vm_compute; reflexivity|].
  vm_compute. repeat split.
Qed.

(** ** Archived status across a run of the delivery-key command *)

Section ArchivedInvariant.
Context {World : Type} (sys : System World) (client : DynamicContent World).
Context (status_of : World -> string -> option Status).
Context (HC : RemoteContract sys client status_of).

Lemma transition_requests_unarchive item w it b :
  In (Remote (Unarchive it) b) (transition_requests client item w) -> it = item.
Proof.
  unfold transition_requests.
  destruct (unarchive client item w) as [[item1|e1] w1].
  - destruct (update client _ _ w1) as [[item2|e2] w2]; cbn; intros H;
      repeat (destruct H as [H|H]; [congruence|]); destruct H.
  - cbn. intros [H|[]]. congruence.
Qed.

Lemma iteration_dk_frame ignoreError i f w item j :
  items f !! i = Some item ->
  j <> id item ->
  status_of (world (DeliveryKey.iteration client ignoreError i f w)) j = status_of w j.
Proof.
  intros Hi Hj. unfold DeliveryKey.iteration. rewrite Hi. unfold bind, call. cbn.
  destruct (unarchive client item w) as [[item1|e1] w1] eqn:H1; cbn.
  - pose proof (unarchive_id _ _ _ HC _ _ _ _ H1) as Hid1.
    rewrite <- (unarchive_frame _ _ _ HC _ _ _ _ j H1 Hj).
    destruct (update client _ _ w1) as [[item2|e2] w2] eqn:H2; cbn.
    + pose proof (update_id _ _ _ HC _ _ _ _ _ H2) as Hid2. cbn in Hid2.
      rewrite <- (update_frame _ _ _ HC _ _ _ _ _ j H2) by (cbn; congruence).
      destruct (archive client item2 w2) as [[r|e3] w3] eqn:H3; cbn;
        apply (archive_frame _ _ _ HC _ _ _ _ j H3); congruence.
    + apply (update_frame _ _ _ HC _ _ _ _ _ j H2). cbn. congruence.
  - apply (unarchive_frame _ _ _ HC _ _ _ _ j H1 Hj).
Qed.

Lemma loop_dk_trace_step ignoreError fuel i f w e :
  i < length (items f) ->
  In e (trace (DeliveryKey.loop client ignoreError (S fuel) i f w)) ->
  In e (trace (DeliveryKey.iteration client ignoreError i f w))
  \/ (fst (value (DeliveryKey.iteration client ignoreError i f w)) = true
      /\ In e (trace (DeliveryKey.loop client ignoreError fuel (S i)
                        (snd (value (DeliveryKey.iteration client ignoreError i f w)))
                        (world (DeliveryKey.iteration client ignoreError i f w))))).
Proof.
  intros Hlt. rewrite loop_dk_step by exact Hlt. unfold bind. cbn [trace value world].
  intros H. apply in_app_or in H. destruct H as [H|H]; [now left|].
  destruct (fst (value (DeliveryKey.iteration client ignoreError i f w))).
  - right. split; [reflexivity | exact H].
  - destruct H.
Qed.

(** Every unarchive request of the loop is for the item its slot held
    when the loop started. *)
Lemma loop_dk_unarchive ignoreError fuel i f w it b :
  In (Remote (Unarchive it) b) (trace (DeliveryKey.loop client ignoreError fuel i f w)) ->
  In it (drop i (items f)).
Proof.
  revert i f w. induction fuel as [|fuel IH]; intros i f w H; [destruct H|].
  destruct (Nat.lt_ge_cases i (length (items f))) as [Hlt|Hge].
  2:{ rewrite loop_dk_done in H by exact Hge. destruct H. }
  destruct (lookup_lt_is_Some_2 _ _ Hlt) as [item Hi].
  rewrite (drop_S _ _ _ Hi).
  apply loop_dk_trace_step in H; [|exact Hlt]. destruct H as [H|[_ H]].
  - rewrite (iteration_dk_trace client ignoreError i f w item Hi) in H.
    left. symmetry. exact (transition_requests_unarchive _ _ _ _ H).
  - right. apply IH in H.
    destruct (iteration_dk_items client ignoreError i f w item Hi) as [x Hx].
    rewrite Hx, drop_insert_lt in H by lia. exact H.
Qed.

Lemma loop_dk_frame ignoreError fuel i f w j :
  ~ In j (map id (drop i (items f))) ->
  status_of (world (DeliveryKey.loop client ignoreError fuel i f w)) j = status_of w j.
Proof.
  revert i f w. induction fuel as [|fuel IH]; intros i f w Hj; [reflexivity|].
  destruct (Nat.lt_ge_cases i (length (items f))) as [Hlt|Hge].
  2:{ now rewrite loop_dk_done by exact Hge. }
  destruct (lookup_lt_is_Some_2 _ _ Hlt) as [item Hi].
  rewrite (drop_S _ _ _ Hi) in Hj. cbn [map] in Hj.
  rewrite loop_dk_step by exact Hlt. unfold bind. cbn [world value].
  destruct (iteration_dk_items client ignoreError i f w item Hi) as [x Hx].
  assert (Hframe := iteration_dk_frame ignoreError i f w item j Hi
                      ltac:(intros ->; apply Hj; now left)).
  destruct (fst (value (DeliveryKey.iteration client ignoreError i f w))).
  - rewrite IH; [exact Hframe|].
    rewrite Hx, drop_insert_lt by lia. intros Hin. apply Hj. now right.
  - exact Hframe.
Qed.

(** A run that is not confirmed sends no request. *)
Lemma processItems_dk_cases contentItems force silent logFile allContent missingContent
    ignoreError w :
  List.filter is_remote
    (trace (DeliveryKey.processItems sys contentItems force silent logFile allContent
                                     missingContent ignoreError client w)) = []
  \/ (contentItems <> []
      /\ exists w0, confirmed sys force (DeliveryKey.question allContent) w w0).
Proof.
  destruct contentItems as [|c0 cs]; [left; reflexivity|].
  destruct force.
  - right. split; [discriminate|]. exists w. left. split; reflexivity.
  - destruct (asyncQuestion sys (DeliveryKey.question allContent) w) as [[|] w0] eqn:Hq.
    + right. split; [discriminate|]. exists w0. right. split; [reflexivity | exact Hq].
    + left.
      destruct (forEach_emit_console
                  (fun contentItem => " " +:+ show_opt (label contentItem) +:+ " ("
                                      +:+ id contentItem +:+ ")") (c0 :: cs) w) as [Hw Ht].
      unfold DeliveryKey.processItems.
      cbn [length Nat.eqb bind negb value world trace emit ret ask].
      rewrite Hw, Hq. cbn [fst snd negb ret trace value world].
      cbn [List.filter is_remote]. rewrite !List.filter_app, Ht. reflexivity.
Qed.
End ArchivedInvariant.

(** ** The in-memory hub honours the contracts *)

Lemma Status_eqb_eq a b : Status_eqb a b = true -> a = b.
Proof. destruct a, b; cbn; congruence. Qed.

Lemma Mock_lookup_id i es e : Mock.lookup i es = Some e -> id (Mock.item e) = i.
Proof.
  unfold Mock.lookup. intros H. apply find_some in H. destruct H as [_ H].
  now apply String.eqb_eq.
Qed.

Lemma Mock_lookup_store_same it es e :
  Mock.lookup (id it) es = Some e ->
  Mock.lookup (id it) (Mock.store it es)
  = Some {| Mock.repo := Mock.repo e; Mock.folder := Mock.folder e; Mock.item := it |}.
Proof.
  unfold Mock.lookup, Mock.store. induction es as [|a es IH]; cbn; [discriminate|].
  destruct (String.eqb (id (Mock.item a)) (id it)) eqn:Ha; cbn.
  - rewrite String.eqb_refl. congruence.
  - rewrite Ha. exact IH.
Qed.

Lemma Mock_lookup_store_other it es j :
  j <> id it -> Mock.lookup j (Mock.store it es) = Mock.lookup j es.
Proof.
  intros Hj. unfold Mock.lookup, Mock.store. induction es as [|a es IH]; cbn; [reflexivity|].
  destruct (String.eqb (id (Mock.item a)) (id it)) eqn:Ha; cbn.
  - apply String.eqb_eq in Ha.
    assert (Hn : String.eqb (id it) j = false) by (apply String.eqb_neq; congruence).
    rewrite Hn, Ha, Hn. exact IH.
  - destruct (String.eqb (id (Mock.item a)) j); [reflexivity | exact IH].
Qed.

Lemma Mock_listing : ListingContract Mock.client.
Proof.
  split; intros source st w r w' H; cbn in H; unfold Mock.listed in H;
    injection H as <- _; apply List.Forall_forall; intros x Hx;
    apply in_map_iff in Hx; destruct Hx as (e & <- & He);
    apply filter_In in He; destruct He as [_ He];
    apply andb_true_iff in He; destruct He as [_ He];
    now apply Status_eqb_eq.
Qed.

Lemma Mock_unarchive_inv it w r w' :
  Mock.unarchiveItem it w = (r, w') ->
  (w' = w /\ returned r = false)
  \/ exists e, Mock.lookup (id it) (Mock.hub w) = Some e
               /\ r = Ok (Mock.with_status ACTIVE (Mock.item e))
               /\ w' = Mock.with_hub (Mock.store (Mock.with_status ACTIVE (Mock.item e))
                                                 (Mock.hub w)) w.
Proof.
  unfold Mock.unarchiveItem. destruct (Mock.fails _ _ _).
  { intros H; injection H as <- <-. left. split; reflexivity. }
  destruct (Mock.lookup (id it) (Mock.hub w)) as [e|] eqn:Hl.
  2:{ intros H; injection H as <- <-. left. split; reflexivity. }
  destruct (status (Mock.item e)); intros H; injection H as <- <-;
    [left; split; reflexivity | | left; split; reflexivity].
  right. exists e. repeat split.
Qed.

Lemma Mock_update_inv self it w r w' :
  Mock.updateItem self it w = (r, w') ->
  (w' = w /\ returned r = false)
  \/ exists e, Mock.lookup (id it) (Mock.hub w) = Some e
               /\ r = Ok (Mock.with_status (status (Mock.item e)) it)
               /\ w' = Mock.with_hub (Mock.store (Mock.with_status (status (Mock.item e)) it)
                                                 (Mock.hub w)) w.
Proof.
  unfold Mock.updateItem. destruct (Mock.fails _ _ _).
  { intros H; injection H as <- <-. left. split; reflexivity. }
  destruct (Mock.lookup (id it) (Mock.hub w)) as [e|] eqn:Hl.
  2:{ intros H; injection H as <- <-. left. split; reflexivity. }
  intros H; injection H as <- <-. right. exists e. repeat split.
Qed.

Lemma Mock_archive_inv it w r w' :
  Mock.archiveItem it w = (r, w') ->
  (w' = w /\ returned r = false)
  \/ exists e, Mock.lookup (id it) (Mock.hub w) = Some e
               /\ r = Ok (Mock.with_status ARCHIVED (Mock.item e))
               /\ w' = Mock.with_hub (Mock.store (Mock.with_status ARCHIVED (Mock.item e))
                                                 (Mock.hub w)) w.
Proof.
  unfold Mock.archiveItem. destruct (Mock.fails _ _ _).
  { intros H; injection H as <- <-. left. split; reflexivity. }
  destruct (Mock.lookup (id it) (Mock.hub w)) as [e|] eqn:Hl.
  2:{ intros H; injection H as <- <-. left. split; reflexivity. }
  destruct (status (Mock.item e)); intros H; injection H as <- <-;
    [| left; split; reflexivity | left; split; reflexivity].
  right. exists e. repeat split.
Qed.

Lemma Mock_status_store_other it w j :
  j <> id it ->
  Mock.status_of (Mock.with_hub (Mock.store it (Mock.hub w)) w) j = Mock.status_of w j.
Proof.
  intros Hj. unfold Mock.status_of. cbn [Mock.hub Mock.with_hub].
  now rewrite Mock_lookup_store_other.
Qed.

Lemma Mock_remote : RemoteContract Mock.system Mock.client Mock.status_of.
Proof.
  split.
  - intros item w item' w' H. cbn in H.
    apply Mock_unarchive_inv in H. destruct H as [[_ H]|(e & Hl & Hr & _)]; [discriminate|].
    injection Hr as ->. cbn. now apply Mock_lookup_id in Hl.
  - intros self item w item' w' H. cbn in H.
    apply Mock_update_inv in H. destruct H as [[_ H]|(e & Hl & Hr & _)]; [discriminate|].
    injection Hr as ->. reflexivity.
  - intros item w r w' H. cbn in H.
    apply Mock_archive_inv in H. destruct H as [[_ H]|(e & Hl & _ & ->)]; [discriminate|].
    unfold Mock.status_of. cbn [Mock.hub Mock.with_hub].
    pose proof (Mock_lookup_id _ _ _ Hl) as Hid.
    rewrite <- Hid in Hl |- *.
    change (id (Mock.item e)) with (id (Mock.with_status ARCHIVED (Mock.item e))) in Hl |- *.
    now rewrite (Mock_lookup_store_same _ _ _ Hl).
  - intros item w r w' j H Hj. cbn in H.
    apply Mock_unarchive_inv in H. destruct H as [[-> _]|(e & Hl & _ & ->)]; [reflexivity|].
    apply Mock_status_store_other. cbn. apply Mock_lookup_id in Hl. congruence.
  - intros self item w r w' j H Hj. cbn in H.
    apply Mock_update_inv in H. destruct H as [[-> _]|(e & Hl & _ & ->)]; [reflexivity|].
    apply Mock_status_store_other. exact Hj.
  - intros item w r w' j H Hj. cbn in H.
    apply Mock_archive_inv in H. destruct H as [[-> _]|(e & Hl & _ & ->)]; [reflexivity|].
    apply Mock_status_store_other. cbn. apply Mock_lookup_id in Hl. congruence.
  - intros path lg w r w' j H. cbn in H. injection H as _ <-. reflexivity.
Qed.

(* ===================================================================== *)
(** * Further properties *)
(* ===================================================================== *)

(** ** The predicate filter, continued *)

Lemma filterJs_sublist {A} (p : A -> Result bool) (l r : list A) :
  filterJs p l = Ok r -> sublist r l.
Proof.
  revert r. induction l as [|a l IH]; intros r H; cbn in H.
  - injection H as <-. constructor.
  - destruct (p a) as [b|e]; [|discriminate].
    destruct (filterJs p l) as [r'|e]; [|discriminate].
    injection H as <-. destruct b.
    + apply sublist_skip. now apply IH.
    + apply sublist_cons. now apply IH.
Qed.

Lemma List_filter_sublist {A} (f : A -> bool) (l : list A) : sublist (List.filter f l) l.
Proof.
  induction l as [|a l IH]; cbn; [constructor|].
  destruct (f a); [now apply sublist_skip | now apply sublist_cons].
Qed.

Lemma List_filter_all {A} (f : A -> bool) (l : list A) :
  (forall x, In x l -> f x = true) -> List.filter f l = l.
Proof.
  induction l as [|a l IH]; intros H; cbn; [reflexivity|].
  rewrite (H a (or_introl eq_refl)). f_equal. apply IH. intros x Hx. apply H. now right.
Qed.

(** A second pass of the same test over what the first pass kept changes
    nothing. *)
Lemma filterJs_idempotent {A} (p : A -> Result bool) (l r : list A) :
  filterJs p l = Ok r -> filterJs p r = Ok r.
Proof.
  revert r. induction l as [|a l IH]; intros r H; cbn in H.
  - injection H as <-. reflexivity.
  - destruct (p a) as [b|e] eqn:Hp; [|discriminate].
    destruct (filterJs p l) as [r'|e]; [|discriminate].
    injection H as <-. destruct b.
    + cbn. rewrite Hp. now rewrite (IH r' eq_refl).
    + now apply IH.
Qed.

Lemma findIndex_from_spec {A} (p : A -> Result bool) (l : list A) (i : Z) :
  (0 <= i)%Z ->
  match findIndex_from p l i with
  | Ok k => negb (k =? -1)%Z
            = existsb (fun x => match p x with Ok b => b | Throw _ => false end) l
  | Throw e => exists x, In x l /\ p x = Throw e
  end.
Proof.
  revert i. induction l as [|a l IH]; intros i Hi; cbn; [reflexivity|].
  destruct (p a) as [[|]|e] eqn:Hp; cbn.
  - destruct (Z.eqb_spec i (-1)); [lia | reflexivity].
  - specialize (IH (i + 1)%Z ltac:(lia)).
    destruct (findIndex_from p l (i + 1)) as [k|e]; [exact IH|].
    destruct IH as (x & Hx & Hpx). exists x. split; [now right | exact Hpx].
  - exists a. split; [now left | exact Hp].
Qed.

Lemma filterJs_spec {A} (p : A -> Result bool) (l : list A) :
  match filterJs p l with
  | Ok r => r = List.filter (fun x => match p x with Ok b => b | Throw _ => false end) l
            /\ forall x, In x l -> returned (p x) = true
  | Throw e => exists x, In x l /\ p x = Throw e
  end.
Proof.
  induction l as [|a l IH]; cbn; [split; [reflexivity | intros x []]|].
  destruct (p a) as [b|e] eqn:Hp.
  - destruct (filterJs p l) as [r|e].
    + destruct IH as [-> IH]. split; [destruct b; reflexivity|].
      intros x [<-|Hx]; [now rewrite Hp | now apply IH].
    + destruct IH as (x & Hx & Hpx). exists x. split; [now right | exact Hpx].
  - exists a. split; [now left | exact Hp].
Qed.

Lemma List_filter_andb {A} (f g : A -> bool) (l : list A) :
  List.filter g (List.filter f l) = List.filter (fun x => f x && g x) l.
Proof.
  induction l as [|a l IH]; cbn; [reflexivity|].
  destruct (f a); cbn; [destruct (g a)|]; now rewrite IH.
Qed.

Section FilterMore.
Context {World : Type} (sys : System World).

Lemma filter_try_dk_with name contentType l :
  DeliveryKey.filterContentItems_try sys name contentType l
  = filter_try_with sys hasDeliveryKey name contentType l.
Proof. reflexivity. Qed.

Lemma filter_try_af_with name contentType l :
  ActiveFlag.filterContentItems_try sys name contentType l
  = filter_try_with sys hasActiveFlag name contentType l.
Proof. reflexivity. Qed.

Lemma filter_try_with_sublist hasField name contentType l r :
  filter_try_with sys hasField name contentType l = Ok r -> sublist (contentItems r) l.
Proof.
  unfold filter_try_with.
  destruct name as [n|]; [|destruct contentType as [c|]].
  - destruct (filterJs _ _) as [r'|e] eqn:H; [|discriminate].
    intros Hr. injection Hr as <-. cbn.
    transitivity (List.filter hasField l);
      [exact (filterJs_sublist _ _ _ H) | apply List_filter_sublist].
  - destruct (filterJs _ _) as [r'|e] eqn:H; [|discriminate].
    intros Hr. injection Hr as <-. cbn.
    transitivity (List.filter hasField l);
      [exact (filterJs_sublist _ _ _ H) | apply List_filter_sublist].
  - intros Hr. injection Hr as <-. cbn. apply List_filter_sublist.
Qed.

Lemma filter_try_with_idempotent hasField name contentType l r :
  filter_try_with sys hasField name contentType l = Ok r ->
  filter_try_with sys hasField name contentType (contentItems r) = Ok r.
Proof.
  unfold filter_try_with.
  destruct name as [n|]; [|destruct contentType as [c|]].
  - destruct (filterJs _ (List.filter hasField l)) as [r'|e] eqn:H; [|discriminate].
    intros Hr. injection Hr as <-. cbn [contentItems].
    rewrite (List_filter_all hasField r').
    + now rewrite (filterJs_idempotent _ _ _ H).
    + intros x Hx. apply (filterJs_In _ _ _ _ H) in Hx. destruct Hx as [Hx _].
      apply filter_In in Hx. tauto.
  - destruct (filterJs _ (List.filter hasField l)) as [r'|e] eqn:H; [|discriminate].
    intros Hr. injection Hr as <-. cbn [contentItems].
    rewrite (List_filter_all hasField r').
    + now rewrite (filterJs_idempotent _ _ _ H).
    + intros x Hx. apply (filterJs_In _ _ _ _ H) in Hx. destruct Hx as [Hx _].
      apply filter_In in Hx. tauto.
  - intros Hr. injection Hr as <-. cbn [contentItems].
    rewrite (List_filter_all hasField (List.filter hasField l)); [reflexivity|].
    intros x Hx. apply filter_In in Hx. tauto.
Qed.

Lemma filter_try_with_nil hasField name contentType :
  filter_try_with sys hasField name contentType []
  = Ok {| contentItems := []; missingContent := false |}.
Proof. destruct name; [|destruct contentType]; reflexivity. Qed.

(** The pattern stage of the filter, for the field [key] of an item. *)
Lemma pattern_stage_spec (key : ContentItem -> string) (patterns : list string)
    (l : list ContentItem) :
  match filterJs (fun item => match findIndex (fun id => equalsOrRegex sys (key item) id)
                                              patterns with
                              | Ok k => Ok (negb (k =? -1)%Z)
                              | Throw e => Throw e
                              end) l with
  | Ok r => r = List.filter (fun item => existsb (matched sys (key item)) patterns) l
  | Throw e => exists item p, In item l /\ In p patterns
                              /\ equalsOrRegex sys (key item) p = Throw e
  end.
Proof.
  match goal with |- match filterJs ?q l with _ => _ end =>
    pose proof (filterJs_spec q l) as H; destruct (filterJs q l) as [r|e] end.
  - destruct H as [-> Hok]. apply filter_ext_in. intros item Hin.
    specialize (Hok item Hin). unfold findIndex in Hok |- *.
    pose proof (findIndex_from_spec (fun id => equalsOrRegex sys (key item) id) patterns 0
                  ltac:(lia)) as Hf.
    destruct (findIndex_from _ patterns 0) as [k|e]; [exact Hf | discriminate].
  - destruct H as (item & Hin & Hp). exists item. unfold findIndex in Hp.
    pose proof (findIndex_from_spec (fun id => equalsOrRegex sys (key item) id) patterns 0
                  ltac:(lia)) as Hf.
    destruct (findIndex_from _ patterns 0) as [k|e']; [discriminate|].
    injection Hp as ->. destruct Hf as (p & Hpin & Hpe). now exists p.
Qed.

Lemma filter_try_with_spec hasField name contentType l :
  match filter_try_with sys hasField name contentType l with
  | Ok r => r = {| contentItems := List.filter (selects (matched sys) hasField name contentType) l;
                   missingContent := false |}
  | Throw e => match_throws sys hasField name contentType l e
  end.
Proof.
  unfold filter_try_with, selects, match_throws, asked.
  destruct name as [n|]; [|destruct contentType as [c|]].
  - pose proof (pattern_stage_spec label_or_empty (toArray n) (List.filter hasField l)) as H.
    destruct (filterJs _ (List.filter hasField l)) as [r|e].
    + subst r. now rewrite List_filter_andb.
    + destruct H as (item & p & Hin & Hp & He). apply filter_In in Hin.
      exists item, (label_or_empty item, p). repeat split; try tauto.
      apply in_map_iff. now exists p.
  - pose proof (pattern_stage_spec (fun item => schema (_meta (body item))) (toArray c)
                  (List.filter hasField l)) as H.
    destruct (filterJs _ (List.filter hasField l)) as [r|e].
    + subst r. now rewrite List_filter_andb.
    + destruct H as (item & p & Hin & Hp & He). apply filter_In in Hin.
      exists item, (schema (_meta (body item)), p). repeat split; try tauto.
      apply in_map_iff. now exists p.
  - f_equal. apply filter_ext. intros x. now rewrite andb_true_r.
Qed.
End FilterMore.

(** X1. In both commands the selection of [filterContentItems] is a
    sublist of the items it was given: nothing is added, duplicated or
    reordered. *)
Theorem X1_filter_selection_is_sublist :
  forall (World : Type) (sys : System World) (name contentType : option StrOrArr)
         (l : list ContentItem) (w : World),
    sublist (contentItems (value (DeliveryKey.filterContentItems sys name contentType l w))) l
    /\ sublist (contentItems (value (ActiveFlag.filterContentItems sys name contentType l w))) l.
Proof.
  intros. split.
  - unfold DeliveryKey.filterContentItems. rewrite filter_try_dk_with.
    destruct (filter_try_with sys hasDeliveryKey name contentType l) as [r|e] eqn:H; cbn.
    + exact (filter_try_with_sublist sys _ _ _ _ _ H).
    + apply sublist_nil_l.
  - unfold ActiveFlag.filterContentItems. rewrite filter_try_af_with.
    destruct (filter_try_with sys hasActiveFlag name contentType l) as [r|e] eqn:H; cbn.
    + exact (filter_try_with_sublist sys _ _ _ _ _ H).
    + apply sublist_nil_l.
Qed.

(** X2. [filterContentItems] of either command ends in one of two ways.
    Either it prints nothing and keeps exactly the items that have the
    target field and, if name patterns are given, whose label matches at
    least one of them, else, if content-type patterns are given, whose
    schema id matches at least one of them (a match being an answer of
    [true] from the pattern match).  Or it prints an error and selects
    nothing, and then one of the pattern matches it can ask for, about an
    item that has the target field, throws that error. *)
Theorem X2_filter_is_field_and_any_pattern :
  forall (World : Type) (sys : System World) (name contentType : option StrOrArr)
         (l : list ContentItem) (w : World),
    (DeliveryKey.filterContentItems sys name contentType l w
     = {| value := {| contentItems :=
                        List.filter (selects (matched sys) hasDeliveryKey name contentType) l;
                      missingContent := false |};
          world := w; trace := [] |}
     \/ exists e,
          DeliveryKey.filterContentItems sys name contentType l w
          = {| value := {| contentItems := []; missingContent := false |};
               world := w; trace := [ConsoleLog e] |}
          /\ match_throws sys hasDeliveryKey name contentType l e)
    /\ (ActiveFlag.filterContentItems sys name contentType l w
        = {| value := {| contentItems :=
                           List.filter (selects (matched sys) hasActiveFlag name contentType) l;
                         missingContent := false |};
             world := w; trace := [] |}
        \/ exists e,
             ActiveFlag.filterContentItems sys name contentType l w
             = {| value := {| contentItems := []; missingContent := false |};
                  world := w; trace := [ConsoleLog e] |}
             /\ match_throws sys hasActiveFlag name contentType l e).
Proof.
  intros World sys name contentType l w. split.
  - unfold DeliveryKey.filterContentItems. rewrite filter_try_dk_with.
    pose proof (filter_try_with_spec sys hasDeliveryKey name contentType l) as H.
    destruct (filter_try_with sys hasDeliveryKey name contentType l) as [r|e].
    + left. now subst r.
    + right. exists e. split; [reflexivity | exact H].
  - unfold ActiveFlag.filterContentItems. rewrite filter_try_af_with.
    pose proof (filter_try_with_spec sys hasActiveFlag name contentType l) as H.
    destruct (filter_try_with sys hasActiveFlag name contentType l) as [r|e].
    + left. now subst r.
    + right. exists e. split; [reflexivity | exact H].
Qed.

(** X3. Filtering is idempotent in both commands: running
    [filterContentItems] with the same patterns over its own selection
    returns that selection again (also when the first pass threw and
    selected nothing). *)
Theorem X3_filter_idempotent :
  forall (World : Type) (sys : System World) (name contentType : option StrOrArr)
         (l : list ContentItem) (w w' : World),
    contentItems
      (value (DeliveryKey.filterContentItems sys name contentType
                (contentItems (value (DeliveryKey.filterContentItems sys name contentType l w)))
                w'))
    = contentItems (value (DeliveryKey.filterContentItems sys name contentType l w))
    /\ contentItems
         (value (ActiveFlag.filterContentItems sys name contentType
                   (contentItems (value (ActiveFlag.filterContentItems sys name contentType l w)))
                   w'))
       = contentItems (value (ActiveFlag.filterContentItems sys name contentType l w)).
Proof.
  intros. split.
  - unfold DeliveryKey.filterContentItems. rewrite !filter_try_dk_with.
    destruct (filter_try_with sys hasDeliveryKey name contentType l) as [r|e] eqn:H;
      cbn [value ret bind emit contentItems].
    + now rewrite (filter_try_with_idempotent sys _ _ _ _ _ H).
    + now rewrite filter_try_with_nil.
  - unfold ActiveFlag.filterContentItems. rewrite !filter_try_af_with.
    destruct (filter_try_with sys hasActiveFlag name contentType l) as [r|e] eqn:H;
      cbn [value ret bind emit contentItems].
    + now rewrite (filter_try_with_idempotent sys _ _ _ _ _ H).
    + now rewrite filter_try_with_nil.
Qed.

(** ** What a program's trace can hold *)

Section Traces.
Context {World : Type}.

Lemma traces_ret {A} P (a : A) : traces (World := World) P (ret a).
Proof. intros w. constructor. Qed.

Lemma traces_emit P e : P e -> traces (World := World) P (emit e).
Proof. intros H w. repeat constructor. exact H. Qed.

Lemma traces_call {A} P c (op : World -> Result A * World) :
  (forall b, P (Remote c b)) -> traces P (call c op).
Proof. intros H w. repeat constructor. apply H. Qed.

Lemma traces_ask P (sys : System World) q : P (Question q) -> traces P (ask sys q).
Proof. intros H w. repeat constructor. exact H. Qed.

Lemma traces_now P (sys : System World) : traces P (now sys).
Proof. intros w. constructor. Qed.

Lemma traces_write P (sys : System World) path lg :
  P (WriteToFile path lg) -> traces P (write sys path lg).
Proof. intros H w. repeat constructor. exact H. Qed.

Lemma traces_bind {A B} P (m : M World A) (k : A -> M World B) :
  traces P m -> (forall a, traces P (k a)) -> traces P (bind m k).
Proof.
  intros Hm Hk w. unfold bind. cbn [trace]. apply Forall_app. split; [apply Hm | apply Hk].
Qed.

Lemma traces_bindE {A B} P (m : M World (Result A)) (k : A -> M World (Result B)) :
  traces P m -> (forall a, traces P (k a)) -> traces P (bindE m k).
Proof.
  intros Hm Hk. unfold bindE. apply traces_bind; [exact Hm|].
  intros [a|e]; [apply Hk | apply traces_ret].
Qed.

Lemma traces_forEach {A} P (l : list A) (f : A -> M World unit) :
  (forall x, traces P (f x)) -> traces P (forEach l f).
Proof.
  intros Hf. induction l as [|x l IH]; cbn [forEach]; [apply traces_ret|].
  apply traces_bind; [apply Hf | intros _; exact IH].
Qed.

Lemma traces_promiseAll {A} P (l : list (M World (Result A))) :
  (forall m, In m l -> traces P m) -> traces P (promiseAll l).
Proof.
  induction l as [|m l IH]; intros Hl; cbn [promiseAll]; [apply traces_ret|].
  apply traces_bind; [apply Hl; now left|]. intros r.
  apply traces_bind; [apply IH; intros m' Hm'; apply Hl; now right|].
  intros rs. apply traces_ret.
Qed.

Lemma traces_promiseAll_map {A B} P (f : B -> M World (Result A)) (l : list B) :
  (forall x, traces P (f x)) -> traces P (promiseAll (map f l)).
Proof.
  intros Hf. apply traces_promiseAll. intros m Hm.
  apply in_map_iff in Hm. destruct Hm as (x & <- & _). apply Hf.
Qed.
End Traces.

Ltac traces_step :=
  first [ apply traces_ret
        | apply traces_now
        | apply traces_emit; cbn; first [exact I | reflexivity]
        | apply traces_call; intros; cbn; first [exact I | reflexivity]
        | apply traces_ask; cbn; first [exact I | reflexivity]
        | apply traces_write; cbn; first [exact I | reflexivity]
        | apply traces_promiseAll_map
        | apply traces_forEach
        | apply traces_bindE
        | apply traces_bind
        | match goal with
          | |- forall _, _ => intro
          | |- traces _ (match ?x with _ => _ end) => destruct x
          | |- traces _ (if ?x then _ else _) => destruct x
          end ].

(** ** The item locator, continued *)

Section LocatorMore.
Context {World : Type} (sys : System World).

Lemma traces_filter_dk P name contentType l :
  (forall s, P (ConsoleLog s)) ->
  traces P (DeliveryKey.filterContentItems sys name contentType l).
Proof.
  intros HP. unfold DeliveryKey.filterContentItems.
  destruct (DeliveryKey.filterContentItems_try sys name contentType l).
  - apply traces_ret.
  - apply traces_bind; [apply traces_emit, HP | intros; apply traces_ret].
Qed.

Lemma traces_filter_af P name contentType l :
  (forall s, P (ConsoleLog s)) ->
  traces P (ActiveFlag.filterContentItems sys name contentType l).
Proof.
  intros HP. unfold ActiveFlag.filterContentItems.
  destruct (ActiveFlag.filterContentItems_try sys name contentType l).
  - apply traces_ret.
  - apply traces_bind; [apply traces_emit, HP | intros; apply traces_ret].
Qed.

Lemma locator_dk client id hubId repoId folderId name contentType :
  traces locator_event
         (DeliveryKey.getContentItems sys client id hubId repoId folderId name contentType).
Proof.
  unfold DeliveryKey.getContentItems, DeliveryKey.getContentItems_try.
  destruct id; repeat first [apply traces_filter_dk; intros; exact I | traces_step].
Qed.

Lemma locator_af client id hubId repoId folderId name contentType :
  traces locator_event
         (ActiveFlag.getContentItems sys client id hubId repoId folderId name contentType).
Proof.
  unfold ActiveFlag.getContentItems, ActiveFlag.getContentItems_try.
  destruct id; repeat first [apply traces_filter_af; intros; exact I | traces_step].
Qed.

Lemma folder_first_dk client id hubId repoId fd name contentType :
  traces (fun e => is_repo_listing e = false)
         (DeliveryKey.getContentItems sys client id hubId repoId (Some fd) name contentType).
Proof.
  unfold DeliveryKey.getContentItems, DeliveryKey.getContentItems_try.
  destruct id; repeat first [apply traces_filter_dk; intros; reflexivity | traces_step].
Qed.

Lemma folder_first_af client id hubId repoId fd name contentType :
  traces (fun e => is_repo_listing e = false)
         (ActiveFlag.getContentItems sys client id hubId repoId (Some fd) name contentType).
Proof.
  unfold ActiveFlag.getContentItems, ActiveFlag.getContentItems_try.
  destruct id; repeat first [apply traces_filter_af; intros; reflexivity | traces_step].
Qed.

Lemma no_folder_dk client id hubId repoId name contentType :
  traces (fun e => is_folder_request e = false)
         (DeliveryKey.getContentItems sys client id hubId repoId None name contentType).
Proof.
  unfold DeliveryKey.getContentItems, DeliveryKey.getContentItems_try.
  destruct id; repeat first [apply traces_filter_dk; intros; reflexivity | traces_step].
Qed.

Lemma no_folder_af client id hubId repoId name contentType :
  traces (fun e => is_folder_request e = false)
         (ActiveFlag.getContentItems sys client id hubId repoId None name contentType).
Proof.
  unfold ActiveFlag.getContentItems, ActiveFlag.getContentItems_try.
  destruct id; repeat first [apply traces_filter_af; intros; reflexivity | traces_step].
Qed.
End LocatorMore.

(** X4. In both commands the item locator only reads: every event of
    [getContentItems] is a console line or a get/list request, never an
    unarchive, update, archive or publish request, a question or a file
    write; and every listing of content items asks for ARCHIVED items. *)
Theorem X4_locator_only_reads_archived :
  forall (World : Type) (sys : System World) (client : DynamicContent World)
         (id : option string) (hubId : string)
         (repoId folderId name contentType : option StrOrArr) (w : World),
    Forall locator_event
           (trace (DeliveryKey.getContentItems sys client id hubId repoId folderId
                                               name contentType w))
    /\ Forall locator_event
              (trace (ActiveFlag.getContentItems sys client id hubId repoId folderId
                                                 name contentType w)).
Proof.
  intros. split; [apply locator_dk | apply locator_af].
Qed.

(** X5. A folder filter takes the place of the repository listing: with a
    [folderId] the locator of either command sends no listing request to
    any repository (whatever [repoId] says), and without one it sends no
    request about folders. *)
Theorem X5_folder_filter_replaces_repository_listing :
  forall (World : Type) (sys : System World) (client : DynamicContent World)
         (id : option string) (hubId : string) (fd : StrOrArr)
         (repoId name contentType : option StrOrArr) (w : World),
    (List.filter is_repo_listing
       (trace (DeliveryKey.getContentItems sys client id hubId repoId (Some fd)
                                           name contentType w)) = []
     /\ List.filter is_repo_listing
          (trace (ActiveFlag.getContentItems sys client id hubId repoId (Some fd)
                                             name contentType w)) = [])
    /\ (List.filter is_folder_request
          (trace (DeliveryKey.getContentItems sys client id hubId repoId None
                                              name contentType w)) = []
        /\ List.filter is_folder_request
             (trace (ActiveFlag.getContentItems sys client id hubId repoId None
                                                name contentType w)) = []).
Proof.
  assert (Hnone : forall (f : Event -> bool) t,
             Forall (fun e => f e = false) t -> List.filter f t = []).
  { intros f t H. induction H as [|e t He _ IH]; cbn; [reflexivity|]. now rewrite He. }
  intros. repeat split; apply Hnone.
  - apply folder_first_dk.
  - apply folder_first_af.
  - apply no_folder_dk.
  - apply no_folder_af.
Qed.

(** ** The handlers and the confirmation gate, continued *)

Section GateMore.
Context {World : Type} (sys : System World).

Lemma Run_eta {A} (r : Run World A) a w t :
  value r = a -> world r = w -> trace r = t ->
  r = {| value := a; world := w; trace := t |}.
Proof. destruct r. cbn. congruence. Qed.

Lemma value_bind {A B} (m : M World A) (k : A -> M World B) w :
  value (bind m k w) = value (k (value (m w)) (world (m w))).
Proof. reflexivity. Qed.

Lemma world_bind {A B} (m : M World A) (k : A -> M World B) w :
  world (bind m k w) = world (k (value (m w)) (world (m w))).
Proof. reflexivity. Qed.

Lemma trace_bind' {A B} (m : M World A) (k : A -> M World B) w :
  trace (bind m k w) = trace (m w) ++ trace (k (value (m w)) (world (m w))).
Proof. reflexivity. Qed.

Lemma notice_world (c : bool) (s : string) (w : World) :
  world ((if c then emit (ConsoleLog s) else ret tt) w) = w.
Proof. now destruct c. Qed.

Lemma notice_console (c : bool) (s : string) (w : World) :
  Forall (fun ev => is_console ev = true)
         (trace ((if c then emit (ConsoleLog s) else ret tt) w)).
Proof. destruct c; repeat constructor. Qed.

Lemma getContentItems_dk_by_id_throws client i hubId repoId folderId name contentType e w w' :
  contentItems_get client i w = (Throw e, w') ->
  DeliveryKey.getContentItems sys client (Some i) hubId repoId folderId name contentType w
  = {| value := {| contentItems := []; missingContent := false |}; world := w';
       trace := [Remote (GetContentItem i) false; ConsoleLog e] |}.
Proof.
  intros H. unfold DeliveryKey.getContentItems, DeliveryKey.getContentItems_try, bindE, call.
  unfold bind. cbn [value world trace]. rewrite H. reflexivity.
Qed.

Lemma getContentItems_af_by_id_throws client i hubId repoId folderId name contentType e w w' :
  contentItems_get client i w = (Throw e, w') ->
  ActiveFlag.getContentItems sys client (Some i) hubId repoId folderId name contentType w
  = {| value := {| contentItems := []; missingContent := false |}; world := w';
       trace := [Remote (GetContentItem i) false; ConsoleLog e] |}.
Proof.
  intros H. unfold ActiveFlag.getContentItems, ActiveFlag.getContentItems_try, bindE, call.
  unfold bind. cbn [value world trace]. rewrite H. reflexivity.
Qed.

Lemma forEach_listing (l : list ContentItem) (w : World) :
  forEach l (fun contentItem =>
               emit (ConsoleLog (" " +:+ show_opt (label contentItem) +:+ " ("
                                 +:+ id contentItem +:+ ")"))) w
  = {| value := tt; world := w; trace := listing l |}.
Proof.
  induction l as [|x l IH]; [reflexivity|].
  cbn [forEach]. unfold bind. cbn [emit value world trace]. rewrite IH. reflexivity.
Qed.
End GateMore.

Ltac run_projections :=
  repeat (progress (rewrite ?value_bind, ?world_bind, ?trace_bind', ?notice_world;
                    cbn beta iota)).

(** X6. A lookup by ID that fails ends the run softly, in both commands:
    when the handler is given an ID (and is not rejected for also having a
    name filter) and the get request for that item throws, the handler
    prints the error and then the nothing-found message, and returns; the
    get request is its only request, there is no question and no log file. *)
Theorem X6_failed_lookup_by_id_finds_nothing :
  forall (World : Type) (sys : System World) (argv : Argv.t) (i e : string) (w w' : World),
    Argv.id argv = Some i ->
    opt_truthy (Argv.id argv) && soa_truthy (Argv.name argv) = false ->
    contentItems_get (dynamicContentClientFactory sys argv) i w = (Throw e, w') ->
    (exists pre,
        Forall (fun ev => is_console ev = true) pre
        /\ DeliveryKey.handler sys argv w
           = {| value := Processed NothingFound; world := w';
                trace := pre ++ [Remote (GetContentItem i) false; ConsoleLog e;
                                 ConsoleLog "No delivery keys found in archived items."] |})
    /\ (exists pre,
           Forall (fun ev => is_console ev = true) pre
           /\ ActiveFlag.handler sys argv w
              = {| value := Processed NothingFound; world := w';
                   trace := pre ++ [Remote (GetContentItem i) false; ConsoleLog e;
                                    ConsoleLog "No active flags found in archived items."] |}).
Proof.
  intros World sys argv i e w w' Hid Hrej Hget.
  split.
  - unfold DeliveryKey.handler. rewrite Hrej, Hid.
    eexists. split; [|apply Run_eta].
    2:{ run_projections.
        rewrite (getContentItems_dk_by_id_throws sys _ _ _ _ _ _ _ _ _ _ Hget). reflexivity. }
    2:{ run_projections.
        rewrite (getContentItems_dk_by_id_throws sys _ _ _ _ _ _ _ _ _ _ Hget). reflexivity. }
    2:{ run_projections.
        rewrite (getContentItems_dk_by_id_throws sys _ _ _ _ _ _ _ _ _ _ Hget).
        cbn [value world trace contentItems missingContent DeliveryKey.processItems length
             Nat.eqb]. run_projections. cbn [emit ret trace value world].
        cbn [app]. rewrite !app_assoc, ?app_comm_cons. reflexivity. }
    repeat (apply Forall_app; split); apply notice_console.
  - unfold ActiveFlag.handler. rewrite Hrej, Hid.
    eexists. split; [|apply Run_eta].
    2:{ run_projections. cbn [emit world]. run_projections.
        rewrite (getContentItems_af_by_id_throws sys _ _ _ _ _ _ _ _ _ _ Hget). reflexivity. }
    2:{ run_projections. cbn [emit world]. run_projections.
        rewrite (getContentItems_af_by_id_throws sys _ _ _ _ _ _ _ _ _ _ Hget). reflexivity. }
    2:{ run_projections. cbn [emit world trace]. run_projections.
        rewrite (getContentItems_af_by_id_throws sys _ _ _ _ _ _ _ _ _ _ Hget).
        cbn [value world trace contentItems missingContent ActiveFlag.processItems length
             Nat.eqb]. run_projections. cbn [emit ret trace value world].
        cbn [app]. rewrite !app_assoc, ?app_comm_cons. reflexivity. }
    repeat (apply Forall_app; split);
      first [apply notice_console | constructor; [reflexivity | apply notice_console]].
Qed.

Lemma X6_failed_lookup_by_id_finds_nothing_witness :
  Argv.id (Mock.with_id "no-such-item" Mock.argv) = Some "no-such-item"
  /\ opt_truthy (Argv.id (Mock.with_id "no-such-item" Mock.argv))
     && soa_truthy (Argv.name (Mock.with_id "no-such-item" Mock.argv)) = false
  /\ contentItems_get (dynamicContentClientFactory Mock.system
                         (Mock.with_id "no-such-item" Mock.argv))
                      "no-such-item" (Mock.initial [])
     = (Throw "Error: 404 Not Found", Mock.initial [])
  /\ value (DeliveryKey.handler Mock.system (Mock.with_id "no-such-item" Mock.argv)
                                (Mock.initial []))
     = Processed NothingFound.
Proof.
  split; [reflexivity|]. split; [reflexivity|]. split; [reflexivity|].
  destruct (X6_failed_lookup_by_id_finds_nothing Mock.World Mock.system
              (Mock.with_id "no-such-item" Mock.argv) "no-such-item"
              "Error: 404 Not Found" (Mock.initial []) (Mock.initial [])
              eq_refl eq_refl eq_refl) as [(pre & _ & H) _].
  exact (f_equal value H).
Defined.

(** X7. A run that is declined does nothing, in both commands: on a
    non-empty selection, not forced, when the user does not answer yes,
    [processItems] has printed the announcement, one line per selected
    item and the total, has asked its question, and returns; no request is
    sent and no log file written. *)
Theorem X7_declined_run_does_nothing :
  forall (World : Type) (sys : System World) (client : DynamicContent World) (argv : Argv.t)
         (contentItems : list ContentItem) (silent : bool) (logFile : option string)
         (allContent missingContent ignoreError : bool) (w w1 w2 : World),
    contentItems <> [] ->
    asyncQuestion sys (DeliveryKey.question allContent) w = (false, w1) ->
    asyncQuestion sys (ActiveFlag.question allContent) w = (false, w2) ->
    DeliveryKey.processItems sys contentItems false silent logFile allContent missingContent
                             ignoreError client w
    = {| value := Declined; world := w1;
         trace := ConsoleLog "The following content items in the archive will have the delivery keys removed:"
                  :: listing contentItems
                  ++ [ConsoleLog ("Total: " +:+ show_nat (length contentItems));
                      Question (DeliveryKey.question allContent)] |}
    /\ ActiveFlag.processItems sys contentItems false silent logFile allContent missingContent
                               ignoreError argv w
       = {| value := Declined; world := w2;
            trace := ConsoleLog "The following content items in the archive will have the active flags removed:"
                     :: listing contentItems
                     ++ [ConsoleLog ("Total: " +:+ show_nat (length contentItems));
                         Question (ActiveFlag.question allContent)] |}.
Proof.
  intros World sys client argv contentItems silent logFile allContent missingContent
         ignoreError w w1 w2 Hne Hq1 Hq2.
  split.
  - unfold DeliveryKey.processItems.
    destruct (Nat.eqb_spec (length contentItems) 0) as [H0|_];
      [apply length_zero_iff_nil in H0; contradiction|].
    apply Run_eta;
      repeat (progress (run_projections; rewrite ?forEach_listing;
                        cbn [emit ask ret now negb value world trace fst snd];
                        rewrite ?Hq1));
      reflexivity.
  - unfold ActiveFlag.processItems.
    destruct (Nat.eqb_spec (length contentItems) 0) as [H0|_];
      [apply length_zero_iff_nil in H0; contradiction|].
    apply Run_eta;
      repeat (progress (run_projections; rewrite ?forEach_listing;
                        cbn [emit ask ret now negb value world trace fst snd];
                        rewrite ?Hq2));
      reflexivity.
Qed.

Lemma X7_declined_run_does_nothing_witness :
  [Mock.itemA; Mock.itemB] <> []
  /\ asyncQuestion Mock.system (DeliveryKey.question true) MockMore.refusing
     = (false, MockMore.refusing)
  /\ asyncQuestion Mock.system (ActiveFlag.question true) MockMore.refusing
     = (false, MockMore.refusing)
  /\ value (DeliveryKey.processItems Mock.system [Mock.itemA; Mock.itemB] false false
              (Some "log-<DATE>.log") true false false Mock.client MockMore.refusing)
     = Declined.
Proof.
  assert (Hne : [Mock.itemA; Mock.itemB] <> []) by discriminate.
  split; [exact Hne|]. split; [reflexivity|]. split; [reflexivity|].
  exact (f_equal value
           (proj1 (X7_declined_run_does_nothing Mock.World Mock.system Mock.client Mock.argv
                     [Mock.itemA; Mock.itemB] false (Some "log-<DATE>.log") true false false
                     MockMore.refusing MockMore.refusing MockMore.refusing
                     Hne eq_refl eq_refl))).
Defined.

Lemma filter_none {A} (f : A -> bool) (t : list A) :
  Forall (fun e => f e = false) t -> List.filter f t = [].
Proof.
  intros H. induction H as [|e t He _ IH]; cbn; [reflexivity|]. now rewrite He.
Qed.

Section LoopTraces.
Context {World : Type} (sys : System World).

(** The loops only send requests. *)
Lemma traces_loop_dk P (client : DynamicContent World) ignoreError fuel i f :
  (forall c b, P (Remote c b)) ->
  traces P (DeliveryKey.loop client ignoreError fuel i f).
Proof.
  intros HP. revert i f. induction fuel as [|fuel IH]; intros i f; cbn [DeliveryKey.loop].
  - apply traces_ret.
  - destruct (i <? length (items f)); [|apply traces_ret].
    apply traces_bind.
    + unfold DeliveryKey.iteration. destruct (items f !! i); [|apply traces_ret].
      repeat first [ apply traces_ret
                   | apply traces_call; intros; apply HP
                   | apply traces_bind
                   | match goal with
                     | |- forall _, _ => intro
                     | |- traces _ (match ?x with _ => _ end) => destruct x
                     end ].
    + intros r. destruct (fst r); [apply IH | apply traces_ret].
Qed.

Lemma traces_loop_af P argv ignoreError fuel i f :
  (forall c b, P (Remote c b)) ->
  traces P (ActiveFlag.loop sys argv ignoreError fuel i f).
Proof.
  intros HP. revert i f. induction fuel as [|fuel IH]; intros i f; cbn [ActiveFlag.loop].
  - apply traces_ret.
  - destruct (i <? length (items f)); [|apply traces_ret].
    apply traces_bind.
    + unfold ActiveFlag.iteration, ActiveFlag.tryBody.
      destruct (items f !! i); [|apply traces_ret].
      repeat first [ apply traces_ret
                   | apply traces_call; intros; apply HP
                   | apply traces_bind
                   | match goal with
                     | |- forall _, _ => intro
                     | |- traces _ (match ?x with _ => _ end) => destruct x
                     end ].
    + intros r. destruct (fst r); [apply IH | apply traces_ret].
Qed.

Lemma traces_processItems_dk P client contentItems force silent logFile allContent
    missingContent ignoreError :
  (forall s, P (ConsoleLog s)) ->
  (forall c b, P (Remote c b)) ->
  (force = false -> forall q, P (Question q)) ->
  (negb silent && opt_truthy logFile = true -> forall path lg, P (WriteToFile path lg)) ->
  traces P (DeliveryKey.processItems sys contentItems force silent logFile allContent
                                     missingContent ignoreError client).
Proof.
  intros Hc Hr Hq Hw. unfold DeliveryKey.processItems.
  destruct (length contentItems =? 0).
  { apply traces_bind; [apply traces_emit, Hc | intros; apply traces_ret]. }
  apply traces_bind; [apply traces_emit, Hc | intros _].
  apply traces_bind; [apply traces_forEach; intros; apply traces_emit, Hc | intros _].
  apply traces_bind; [apply traces_emit, Hc | intros _].
  apply traces_bind.
  { destruct force; cbn [negb]; [apply traces_ret | apply traces_ask, Hq; reflexivity]. }
  intros yes. destruct (negb yes); [apply traces_ret|].
  apply traces_bind; [apply traces_now | intros t].
  apply traces_bind; [apply traces_loop_dk, Hr | intros f].
  apply traces_bind.
  { destruct logFile as [lf|]; [|apply traces_ret].
    cbn [opt_truthy] in Hw.
    destruct (negb silent && str_truthy lf); [|apply traces_ret].
    apply traces_bind; [apply traces_write, Hw; reflexivity | intros; apply traces_ret]. }
  intros _. apply traces_bind; [apply traces_emit, Hc | intros; apply traces_ret].
Qed.

Lemma traces_processItems_af P argv contentItems force silent logFile allContent
    missingContent ignoreError :
  (forall s, P (ConsoleLog s)) ->
  (forall c b, P (Remote c b)) ->
  (force = false -> forall q, P (Question q)) ->
  (negb silent && opt_truthy logFile = true -> forall path lg, P (WriteToFile path lg)) ->
  traces P (ActiveFlag.processItems sys contentItems force silent logFile allContent
                                    missingContent ignoreError argv).
Proof.
  intros Hc Hr Hq Hw. unfold ActiveFlag.processItems.
  destruct (length contentItems =? 0).
  { apply traces_bind; [apply traces_emit, Hc | intros; apply traces_ret]. }
  apply traces_bind; [apply traces_emit, Hc | intros _].
  apply traces_bind; [apply traces_forEach; intros; apply traces_emit, Hc | intros _].
  apply traces_bind; [apply traces_emit, Hc | intros _].
  apply traces_bind.
  { destruct force; cbn [negb]; [apply traces_ret | apply traces_ask, Hq; reflexivity]. }
  intros yes. destruct (negb yes); [apply traces_ret|].
  apply traces_bind; [apply traces_now | intros t].
  apply traces_bind; [apply traces_loop_af, Hr | intros f].
  apply traces_bind.
  { destruct logFile as [lf|]; [|apply traces_ret].
    cbn [opt_truthy] in Hw.
    destruct (negb silent && str_truthy lf); [|apply traces_ret].
    apply traces_bind; [apply traces_write, Hw; reflexivity | intros; apply traces_ret]. }
  intros _. apply traces_bind; [apply traces_emit, Hc | intros; apply traces_ret].
Qed.
End LoopTraces.

(** X8. With [force] set, [processItems] of either command never asks a
    question, whatever the selection. *)
Theorem X8_forced_run_asks_nothing :
  forall (World : Type) (sys : System World) (client : DynamicContent World) (argv : Argv.t)
         (contentItems : list ContentItem) (silent : bool) (logFile : option string)
         (allContent missingContent ignoreError : bool) (w : World),
    List.filter is_question
      (trace (DeliveryKey.processItems sys contentItems true silent logFile allContent
                                       missingContent ignoreError client w)) = []
    /\ List.filter is_question
         (trace (ActiveFlag.processItems sys contentItems true silent logFile allContent
                                         missingContent ignoreError argv w)) = [].
Proof.
  intros. split; apply filter_none.
  - apply traces_processItems_dk; intros; try reflexivity; discriminate.
  - apply traces_processItems_af; intros; try reflexivity; discriminate.
Qed.

(** X9. With [silent] set, or without a log file path (none, or the empty
    string), [processItems] of either command never writes a log file,
    whatever happens in the loop. *)
Theorem X9_silent_run_writes_no_file :
  forall (World : Type) (sys : System World) (client : DynamicContent World) (argv : Argv.t)
         (contentItems : list ContentItem) (force silent : bool) (logFile : option string)
         (allContent missingContent ignoreError : bool) (w : World),
    negb silent && opt_truthy logFile = false ->
    List.filter is_write
      (trace (DeliveryKey.processItems sys contentItems force silent logFile allContent
                                       missingContent ignoreError client w)) = []
    /\ List.filter is_write
         (trace (ActiveFlag.processItems sys contentItems force silent logFile allContent
                                         missingContent ignoreError argv w)) = [].
Proof.
  intros World sys client argv contentItems force silent logFile allContent missingContent
         ignoreError w H.
  split; apply filter_none.
  - apply traces_processItems_dk; intros; try reflexivity. congruence.
  - apply traces_processItems_af; intros; try reflexivity. congruence.
Qed.

Lemma X9_silent_run_writes_no_file_witness :
  negb true && opt_truthy (Some "log-<DATE>.log") = false
  /\ List.filter is_write
       (trace (DeliveryKey.processItems Mock.system [Mock.itemA; Mock.itemB; Mock.itemC]
                 true true (Some "log-<DATE>.log") false false false Mock.client
                 (Mock.initial []))) = [].
Proof.
  split; [reflexivity|].
  exact (proj1 (X9_silent_run_writes_no_file Mock.World Mock.system Mock.client Mock.argv
                  [Mock.itemA; Mock.itemB; Mock.itemC] true true (Some "log-<DATE>.log")
                  false false false (Mock.initial []) eq_refl)).
Defined.

Section Shape.
Context {World : Type} (sys : System World).

Lemma processItems_dk_shape (client : DynamicContent World)
    contentItems force silent logFile allContent missingContent ignoreError w w1 :
  contentItems <> [] ->
  confirmed sys force (DeliveryKey.question allContent) w w1 ->
  let L := DeliveryKey.loop client ignoreError (length contentItems) 0
             {| items := contentItems;
                log := newArchiveLog ("Content Items Remove Archived Delivery Key Log - "
                                      +:+ show_N (Date_now sys w1) +:+ nl);
                successCount := 0 |} w1 in
  trace (DeliveryKey.processItems sys contentItems force silent logFile allContent
                                  missingContent ignoreError client w)
  = (ConsoleLog "The following content items in the archive will have the delivery keys removed:"
     :: listing contentItems)
    ++ [ConsoleLog ("Total: " +:+ show_nat (length contentItems))]
    ++ (if force then [] else [Question (DeliveryKey.question allContent)])
    ++ trace L
    ++ match logFile with
       | Some lf =>
         if negb silent && str_truthy lf
         then [WriteToFile (replace "<DATE>" (show_N (Date_now sys w1)) lf) (log (value L))]
         else []
       | None => []
       end
    ++ [ConsoleLog ("Remove archived delivery key from "
                    +:+ show_nat (successCount (value L)) +:+ " content items.")].
Proof.
  intros Hne Hc1 L.
  unfold DeliveryKey.processItems.
  destruct (Nat.eqb_spec (length contentItems) 0) as [H0|_];
    [apply length_zero_iff_nil in H0; contradiction|].
  destruct Hc1 as [[-> ->] | [-> Hq]].
  - cbn [bind negb value world trace emit ret now]. rewrite forEach_listing.
    cbn [value world trace]. fold L.
    destruct logFile as [lf|]; [destruct (negb silent && str_truthy lf)|];
      cbn [bind value world trace write ret emit app];
      rewrite <- ?app_assoc; cbn [app]; rewrite ?app_nil_r; reflexivity.
  - cbn [bind negb value world trace emit ret now ask]. rewrite forEach_listing.
    cbn [value world trace]. rewrite Hq. cbn [fst snd negb]. fold L.
    destruct logFile as [lf|]; [destruct (negb silent && str_truthy lf)|];
      cbn [bind value world trace write ret emit app];
      rewrite <- ?app_assoc; cbn [app]; rewrite ?app_nil_r; reflexivity.
Qed.

Lemma processItems_af_shape (argv : Argv.t)
    contentItems force silent logFile allContent missingContent ignoreError w w2 :
  contentItems <> [] ->
  confirmed sys force (ActiveFlag.question allContent) w w2 ->
  let L := ActiveFlag.loop sys argv ignoreError (length contentItems) 0
             {| items := contentItems;
                log := newArchiveLog ("Content Items Remove Archived Active Flag Log - "
                                      +:+ show_N (Date_now sys w2) +:+ nl);
                successCount := 0 |} w2 in
  trace (ActiveFlag.processItems sys contentItems force silent logFile allContent
                                 missingContent ignoreError argv w)
  = (ConsoleLog "The following content items in the archive will have the active flags removed:"
     :: listing contentItems)
    ++ [ConsoleLog ("Total: " +:+ show_nat (length contentItems))]
    ++ (if force then [] else [Question (ActiveFlag.question allContent)])
    ++ trace L
    ++ match logFile with
       | Some lf =>
         if negb silent && str_truthy lf
         then [WriteToFile (replace "<DATE>" (show_N (Date_now sys w2)) lf) (log (value L))]
         else []
       | None => []
       end
    ++ [ConsoleLog ("Remove archived active flag from "
                    +:+ show_nat (successCount (value L)) +:+ " content items.")].
Proof.
  intros Hne Hc2 L.
  unfold ActiveFlag.processItems.
  destruct (Nat.eqb_spec (length contentItems) 0) as [H0|_];
    [apply length_zero_iff_nil in H0; contradiction|].
  destruct Hc2 as [[-> ->] | [-> Hq]].
  - cbn [bind negb value world trace emit ret now]. rewrite forEach_listing.
    cbn [value world trace]. fold L.
    destruct logFile as [lf|]; [destruct (negb silent && str_truthy lf)|];
      cbn [bind value world trace write ret emit app];
      rewrite <- ?app_assoc; cbn [app]; rewrite ?app_nil_r; reflexivity.
  - cbn [bind negb value world trace emit ret now ask]. rewrite forEach_listing.
    cbn [value world trace]. rewrite Hq. cbn [fst snd negb]. fold L.
    destruct logFile as [lf|]; [destruct (negb silent && str_truthy lf)|];
      cbn [bind value world trace write ret emit app];
      rewrite <- ?app_assoc; cbn [app]; rewrite ?app_nil_r; reflexivity.
Qed.

(** How [processItems] can end with its loop run: the selection was not
    empty and the gate let the run through. *)
Lemma processItems_dk_completed (client : DynamicContent World)
    contentItems force silent logFile allContent missingContent ignoreError w f :
  value (DeliveryKey.processItems sys contentItems force silent logFile allContent
                                  missingContent ignoreError client w) = Completed f ->
  contentItems <> []
  /\ exists w1, confirmed sys force (DeliveryKey.question allContent) w w1.
Proof.
  destruct contentItems as [|c0 cs]; [discriminate|].
  intros H. split; [discriminate|].
  destruct force; [exists w; left; split; reflexivity|].
  destruct (asyncQuestion sys (DeliveryKey.question allContent) w) as [[|] w1] eqn:Hq.
  - exists w1. right. split; [reflexivity | exact Hq].
  - exfalso. revert H. unfold DeliveryKey.processItems.
    cbn [length Nat.eqb bind negb value world trace emit ret ask].
    rewrite forEach_listing. cbn [world]. rewrite Hq. discriminate.
Qed.

Lemma processItems_af_completed (argv : Argv.t)
    contentItems force silent logFile allContent missingContent ignoreError w f :
  value (ActiveFlag.processItems sys contentItems force silent logFile allContent
                                 missingContent ignoreError argv w) = Completed f ->
  contentItems <> []
  /\ exists w2, confirmed sys force (ActiveFlag.question allContent) w w2.
Proof.
  destruct contentItems as [|c0 cs]; [discriminate|].
  intros H. split; [discriminate|].
  destruct force; [exists w; left; split; reflexivity|].
  destruct (asyncQuestion sys (ActiveFlag.question allContent) w) as [[|] w1] eqn:Hq.
  - exists w1. right. split; [reflexivity | exact Hq].
  - exfalso. revert H. unfold ActiveFlag.processItems.
    cbn [length Nat.eqb bind negb value world trace emit ret ask].
    rewrite forEach_listing. cbn [world]. rewrite Hq. discriminate.
Qed.
End Shape.

(** X10. The shape of a confirmed run on a non-empty selection, in both
    commands: the announcement, one line per selected item, the total, the
    question unless forced, then the requests of the loop, then one
    log-file write if and only if not silent and a non-empty log file path
    is set (the path with its first [<DATE>] replaced by the timestamp, the
    log as the loop left it), and last the summary line, which prints the
    loop's success counter. *)
Theorem X10_shape_of_a_confirmed_run :
  forall (World : Type) (sys : System World) (client : DynamicContent World) (argv : Argv.t)
         (contentItems : list ContentItem) (force silent : bool) (logFile : option string)
         (allContent missingContent ignoreError : bool) (w w1 w2 : World),
    contentItems <> [] ->
    confirmed sys force (DeliveryKey.question allContent) w w1 ->
    confirmed sys force (ActiveFlag.question allContent) w w2 ->
    (let L := DeliveryKey.loop client ignoreError (length contentItems) 0
                {| items := contentItems;
                   log := newArchiveLog ("Content Items Remove Archived Delivery Key Log - "
                                         +:+ show_N (Date_now sys w1) +:+ nl);
                   successCount := 0 |} w1 in
     trace (DeliveryKey.processItems sys contentItems force silent logFile allContent
                                     missingContent ignoreError client w)
     = (ConsoleLog "The following content items in the archive will have the delivery keys removed:"
        :: listing contentItems)
       ++ [ConsoleLog ("Total: " +:+ show_nat (length contentItems))]
       ++ (if force then [] else [Question (DeliveryKey.question allContent)])
       ++ trace L
       ++ match logFile with
          | Some lf =>
            if negb silent && str_truthy lf
            then [WriteToFile (replace "<DATE>" (show_N (Date_now sys w1)) lf) (log (value L))]
            else []
          | None => []
          end
       ++ [ConsoleLog ("Remove archived delivery key from "
                       +:+ show_nat (successCount (value L)) +:+ " content items.")])
    /\ (let L := ActiveFlag.loop sys argv ignoreError (length contentItems) 0
                   {| items := contentItems;
                      log := newArchiveLog ("Content Items Remove Archived Active Flag Log - "
                                            +:+ show_N (Date_now sys w2) +:+ nl);
                      successCount := 0 |} w2 in
        trace (ActiveFlag.processItems sys contentItems force silent logFile allContent
                                       missingContent ignoreError argv w)
        = (ConsoleLog "The following content items in the archive will have the active flags removed:"
           :: listing contentItems)
          ++ [ConsoleLog ("Total: " +:+ show_nat (length contentItems))]
          ++ (if force then [] else [Question (ActiveFlag.question allContent)])
          ++ trace L
          ++ match logFile with
             | Some lf =>
               if negb silent && str_truthy lf
               then [WriteToFile (replace "<DATE>" (show_N (Date_now sys w2)) lf)
                                 (log (value L))]
               else []
             | None => []
             end
          ++ [ConsoleLog ("Remove archived active flag from "
                          +:+ show_nat (successCount (value L)) +:+ " content items.")]).
Proof.
  intros World sys client argv contentItems force silent logFile allContent missingContent
         ignoreError w w1 w2 Hne Hc1 Hc2.
  split.
  - now apply processItems_dk_shape.
  - now apply processItems_af_shape.
Qed.

Lemma X10_shape_of_a_confirmed_run_witness :
  [Mock.itemA; Mock.itemB; Mock.itemC] <> []
  /\ confirmed Mock.system true (DeliveryKey.question false) (Mock.initial []) (Mock.initial [])
  /\ confirmed Mock.system true (ActiveFlag.question false) (Mock.initial []) (Mock.initial [])
  /\ List.filter is_write
       (trace (DeliveryKey.processItems Mock.system [Mock.itemA; Mock.itemB; Mock.itemC]
                 true false (Some "run-<DATE>-<DATE>.log") false false false Mock.client
                 (Mock.initial [])))
     = [WriteToFile "run-1700000000000-<DATE>.log"
          {| title := "Content Items Remove Archived Delivery Key Log - 1700000000000" +:+ nl;
             lines := [ACTION "REMOVED-ARCHIVED-DELIVERY-KEY" ("a1:key/a" +:+ nl);
                       ACTION "REMOVED-ARCHIVED-DELIVERY-KEY" ("b2:key/b" +:+ nl);
                       ACTION "REMOVED-ARCHIVED-DELIVERY-KEY" ("c3:key/c" +:+ nl)] |}].
Proof.
  assert (Hne : [Mock.itemA; Mock.itemB; Mock.itemC] <> []) by discriminate.
  assert (Hc1 : confirmed Mock.system true (DeliveryKey.question false)
                  (Mock.initial []) (Mock.initial [])) by (left; split; reflexivity).
  assert (Hc2 : confirmed Mock.system true (ActiveFlag.question false)
                  (Mock.initial []) (Mock.initial [])) by (left; split; reflexivity).
  split; [exact Hne|]. split; [exact Hc1|]. split; [exact Hc2|].
  rewrite (proj1 (X10_shape_of_a_confirmed_run Mock.World Mock.system Mock.client Mock.argv
                    [Mock.itemA; Mock.itemB; Mock.itemC] true false
                    (Some "run-<DATE>-<DATE>.log") false false false
                    (Mock.initial []) (Mock.initial []) (Mock.initial []) Hne Hc1 Hc2)).
  vm_compute. reflexivity.
Defined.

(** ** No request before the question *)

Lemma asked_first_app l1 l2 :
  Forall quiet l1 -> asked_first (l1 ++ l2) = asked_first l2.
Proof.
  intros H. induction H as [|e l1 [Hq Hb] _ IH]; [reflexivity|].
  cbn. now rewrite Hq, Hb.
Qed.

Lemma asked_first_quiet l : Forall quiet l -> asked_first l = true.
Proof.
  intros H. rewrite <- (app_nil_r l). now rewrite asked_first_app.
Qed.

Lemma locator_event_quiet e : locator_event e -> quiet e.
Proof.
  destruct e as [s|a env|c b|q|path lg]; cbn; try contradiction; [now split|].
  destruct c; cbn; try contradiction; now split.
Qed.

Lemma listing_quiet l : Forall quiet (listing l).
Proof. induction l; cbn; constructor; [now split | assumption]. Qed.

Section AskedFirst.
Context {World : Type} (sys : System World).

Lemma trace_bind {A B} (m : M World A) (k : A -> M World B) w :
  trace (bind m k w) = trace (m w) ++ trace (k (value (m w)) (world (m w))).
Proof. reflexivity. Qed.

Lemma notice_quiet (c : bool) (s : string) (w : World) :
  Forall quiet (trace ((if c then emit (ConsoleLog s) else ret tt) w)).
Proof. destruct c; cbn; repeat constructor. Qed.

Lemma asked_first_processItems_dk client contentItems silent logFile allContent
    missingContent ignoreError w :
  asked_first (trace (DeliveryKey.processItems sys contentItems false silent logFile
                        allContent missingContent ignoreError client w)) = true.
Proof.
  unfold DeliveryKey.processItems. destruct (length contentItems =? 0); [reflexivity|].
  rewrite !trace_bind. cbn beta. rewrite forEach_listing.
  cbn [negb emit ask value world trace app asked_first is_question is_batch_request].
  now rewrite asked_first_app by apply listing_quiet.
Qed.

Lemma asked_first_processItems_af argv contentItems silent logFile allContent
    missingContent ignoreError w :
  asked_first (trace (ActiveFlag.processItems sys contentItems false silent logFile
                        allContent missingContent ignoreError argv w)) = true.
Proof.
  unfold ActiveFlag.processItems. destruct (length contentItems =? 0); [reflexivity|].
  rewrite !trace_bind. cbn beta. rewrite forEach_listing.
  cbn [negb emit ask value world trace app asked_first is_question is_batch_request].
  now rewrite asked_first_app by apply listing_quiet.
Qed.
End AskedFirst.

(** X11. In a handler run that is not forced, no request of the batch
    loop (unarchive, update, archive, publish) is sent before a question
    has been asked, in both commands. *)
Theorem X11_unforced_handler_asks_before_any_batch_request :
  forall (World : Type) (sys : System World) (argv : Argv.t) (w : World),
    Argv.force argv = false ->
    asked_first (trace (DeliveryKey.handler sys argv w)) = true
    /\ asked_first (trace (ActiveFlag.handler sys argv w)) = true.
Proof.
  intros World sys argv w Hforce. split.
  - unfold DeliveryKey.handler. rewrite Hforce.
    rewrite trace_bind. cbn beta.
    rewrite asked_first_app by apply notice_quiet.
    destruct (opt_truthy (Argv.id argv) && soa_truthy (Argv.name argv)); [reflexivity|].
    rewrite !trace_bind. cbn beta.
    rewrite asked_first_app by apply notice_quiet.
    rewrite asked_first_app by apply notice_quiet.
    rewrite asked_first_app
      by (eapply Forall_impl; [apply locator_dk | exact locator_event_quiet]).
    cbn [ret trace]. rewrite app_nil_r. apply asked_first_processItems_dk.
  - unfold ActiveFlag.handler. rewrite Hforce.
    rewrite !trace_bind. cbn beta. cbn [emit trace value world app asked_first
                                        is_question is_batch_request].
    rewrite asked_first_app by apply notice_quiet.
    destruct (opt_truthy (Argv.id argv) && soa_truthy (Argv.name argv)); [reflexivity|].
    rewrite !trace_bind. cbn beta.
    rewrite asked_first_app by apply notice_quiet.
    rewrite asked_first_app by apply notice_quiet.
    rewrite asked_first_app
      by (eapply Forall_impl; [apply locator_af | exact locator_event_quiet]).
    cbn [ret trace]. rewrite app_nil_r. apply asked_first_processItems_af.
Qed.

Lemma X11_unforced_handler_asks_before_any_batch_request_witness :
  Argv.force (MockMore.unforced Mock.argv) = false
  /\ asked_first (trace (DeliveryKey.handler Mock.system (MockMore.unforced Mock.argv)
                                             (Mock.initial []))) = true.
Proof.
  split; [reflexivity|].
  exact (proj1 (X11_unforced_handler_asks_before_any_batch_request Mock.World Mock.system
                  (MockMore.unforced Mock.argv) (Mock.initial []) eq_refl)).
Defined.

(** ** The batch loop of the delivery-key command, continued *)

Lemma filter_through {A} (g h : A -> bool) (t : list A) :
  (forall e, g e = true -> h e = true) ->
  List.filter g (List.filter h t) = List.filter g t.
Proof.
  intros Hgh. induction t as [|e t IH]; [reflexivity|]. cbn.
  destruct (h e) eqn:Hh; cbn.
  - now rewrite IH.
  - destruct (g e) eqn:Hg; [|exact IH]. apply Hgh in Hg. congruence.
Qed.

Lemma unarchived_app t1 t2 : unarchived (t1 ++ t2) = unarchived t1 ++ unarchived t2.
Proof. apply flat_map_app. Qed.

Lemma unarchived_remote t : unarchived (List.filter is_remote t) = unarchived t.
Proof.
  induction t as [|e t IH]; [reflexivity|].
  destruct e as [s|a env|c b|q|path lg]; cbn; try exact IH. f_equal. exact IH.
Qed.

Lemma published_app t1 t2 : published (t1 ++ t2) = published t1 ++ published t2.
Proof. apply flat_map_app. Qed.

Lemma published_remote t : published (List.filter is_remote t) = published t.
Proof.
  induction t as [|e t IH]; [reflexivity|].
  destruct e as [s|a env|c b|q|path lg]; cbn; try exact IH. f_equal. exact IH.
Qed.

Section DeliveryKeyLoopMore.
Context {World : Type} (sys : System World) (client : DynamicContent World).

Lemma succeeds_or_throws item w :
  (exists item2 w', succeeds client item w item2 w')
  \/ (exists e cur w', throws client item w e cur w').
Proof.
  destruct (unarchive client item w) as [[item1|e1] w1] eqn:H1.
  - destruct (update client (set_deliveryKey JsNull item1) (set_deliveryKey JsNull item1) w1)
      as [[item2|e2] w2] eqn:H2.
    + destruct (archive client item2 w2) as [[r|e3] w3] eqn:H3.
      * left. exists item2, w3, item1, w1, w2, r. repeat split; assumption.
      * right. exists e3, item2, w3. eapply throws_archive; eassumption.
    + right. exists e2, (set_deliveryKey JsNull item1), w2.
      eapply throws_update; eassumption.
  - right. exists e1, item, w1. now apply throws_unarchive.
Qed.

Lemma transition_requests_succeeds item w item2 w' :
  succeeds client item w item2 w' ->
  exists cleared,
    transition_requests client item w
    = [Remote (Unarchive item) true; Remote (Update cleared cleared) true;
       Remote (Archive item2) true].
Proof.
  intros (item1 & w1 & w2 & r & H1 & H2 & H3). unfold transition_requests.
  rewrite H1, H2, H3. eexists. reflexivity.
Qed.

Lemma transition_requests_throws item w e cur w' :
  throws client item w e cur w' ->
  exists oks c,
    transition_requests client item w = oks ++ [Remote c false]
    /\ Forall (fun ev => is_returned ev = true) oks
    /\ List.filter is_returned_archive (oks ++ [Remote c false]) = []
    /\ unarchived (oks ++ [Remote c false]) = [item].
Proof.
  intros Ht. unfold transition_requests.
  destruct Ht as [e w' H1 | item1 w1 e w' H1 H2 | item1 w1 item2 w2 e w' H1 H2 H3].
  - rewrite H1. exists [], (Unarchive item). repeat split; constructor.
  - rewrite H1, H2. eexists [_], _. split; [reflexivity|].
    repeat split; repeat constructor.
  - rewrite H1, H2, H3. eexists [_; _], _. split; [reflexivity|].
    repeat split; repeat constructor.
Qed.

(** The [catch] block, entered with the failing copy [cur] in slot [i]. *)
Lemma catch_dk_eval ignoreError i key e l lg n cur :
  i < length l ->
  let r := DeliveryKey.catch_dk ignoreError i key e
             {| items := <[i := cur]> l; log := lg; successCount := n |} in
  fst r = ignoreError
  /\ items (snd r) = <[i := cur]> l
  /\ successCount (snd r) = n
  /\ exists a m,
       lines (log (snd r))
       = lines lg ++ [COMMENT a; COMMENT e; if ignoreError then WARN m e else ERROR m e].
Proof.
  intros Hlt. unfold DeliveryKey.catch_dk. cbn [items].
  rewrite list_lookup_insert_eq by exact Hlt.
  destruct ignoreError; cbn; repeat split; eexists _, _;
    rewrite <- !app_assoc; reflexivity.
Qed.

(** One iteration, summed up: either the item's transition went through,
    or one request threw and the [catch] block ran. *)
Lemma iteration_dk_cases ignoreError i f w item :
  items f !! i = Some item ->
  let r := DeliveryKey.iteration client ignoreError i f w in
  (exists item2 cleared a d,
      fst (value r) = true
      /\ items (snd (value r)) = <[i := item2]> (items f)
      /\ successCount (snd (value r)) = S (successCount f)
      /\ lines (log (snd (value r))) = lines (log f) ++ [ACTION a d]
      /\ trace r = [Remote (Unarchive item) true; Remote (Update cleared cleared) true;
                    Remote (Archive item2) true])
  \/ (exists cur e a m oks c,
         fst (value r) = ignoreError
         /\ items (snd (value r)) = <[i := cur]> (items f)
         /\ successCount (snd (value r)) = successCount f
         /\ lines (log (snd (value r)))
            = lines (log f)
              ++ [COMMENT a; COMMENT e; if ignoreError then WARN m e else ERROR m e]
         /\ trace r = oks ++ [Remote c false]
         /\ Forall (fun ev => is_returned ev = true) oks
         /\ List.filter is_returned_archive (oks ++ [Remote c false]) = []
         /\ unarchived (oks ++ [Remote c false]) = [item]).
Proof.
  intros Hi r. subst r. pose proof (lookup_lt_Some _ _ _ Hi) as Hlt.
  destruct (succeeds_or_throws item w) as [(item2 & w' & Hs)|(e & cur & w' & Ht)].
  - left. rewrite (iteration_dk_success client ignoreError i f w item item2 w' Hi Hs).
    destruct (transition_requests_succeeds _ _ _ _ Hs) as [cleared Htr].
    exists item2, cleared. eexists _, _. cbn [value trace fst snd items log successCount].
    repeat split. exact Htr.
  - right. rewrite (iteration_dk_throws client ignoreError i f w item e cur w' Hi Ht).
    destruct (transition_requests_throws _ _ _ _ _ Ht) as (oks & c & Htr & Hok & Hna & Hun).
    destruct (catch_dk_eval ignoreError i (deliveryKey (_meta (body item))) e (items f)
                (log f) (successCount f) cur Hlt) as (H1 & H2 & H3 & a & m & H4).
    exists cur, e, a, m, oks, c. cbn [value trace].
    repeat split; assumption.
Qed.
End DeliveryKeyLoopMore.

Section DeliveryKeyLoopInvariants.
Context {World : Type} (sys : System World) (client : DynamicContent World).

Lemma filter_action_addAction lg a d :
  List.filter is_action (lines lg ++ [ACTION a d]) = List.filter is_action (lines lg) ++ [ACTION a d].
Proof. now rewrite List.filter_app. Qed.

(** Counting: each returned archive request is one success and one ACTION
    line, and the unarchive requests follow the array from slot [i] on. *)
Lemma loop_dk_counts ignoreError fuel i f w :
  let L := DeliveryKey.loop client ignoreError fuel i f w in
  let n := length (List.filter is_returned_archive (trace L)) in
  successCount (value L) = successCount f + n
  /\ length (List.filter is_action (lines (log (value L))))
     = length (List.filter is_action (lines (log f))) + n
  /\ n <= length (items f) - i
  /\ exists rest, drop i (items f) = unarchived (trace L) ++ rest.
Proof.
  revert i f w. induction fuel as [|fuel IH]; intros i f w; cbn zeta.
  { cbn. repeat split; try lia. now exists (drop i (items f)). }
  destruct (Nat.lt_ge_cases i (length (items f))) as [Hlt|Hge].
  2:{ rewrite loop_dk_done by exact Hge. cbn. repeat split; try lia.
      now exists (drop i (items f)). }
  destruct (lookup_lt_is_Some_2 _ _ Hlt) as [item Hi].
  rewrite loop_dk_step by exact Hlt. unfold bind. cbn [value world trace].
  rewrite (drop_S _ _ _ Hi).
  destruct (iteration_dk_cases client ignoreError i f w item Hi)
    as [(item2 & cl & a & d & Hf & Hit & Hsc & Hlg & Htr)
       |(cur & e & a & m & oks & c & Hf & Hit & Hsc & Hlg & Htr & Hok & Hna & Hun)];
    cbn zeta in *.
  - rewrite Hf.
    specialize (IH (S i) (snd (value (DeliveryKey.iteration client ignoreError i f w)))
                   (world (DeliveryKey.iteration client ignoreError i f w))).
    cbn zeta in IH. destruct IH as (IH1 & IH2 & IH3 & rest & IH4).
    rewrite Hit, length_insert, drop_insert_lt in * by lia.
    rewrite Hsc in IH1. rewrite Hlg, filter_action_addAction, length_app in IH2.
    rewrite List.filter_app, length_app, Htr, unarchived_app. cbn [List.filter is_returned_archive
      length unarchived flat_map app].
    cbn [length] in IH2.
    repeat split; try lia. exists rest. now rewrite IH4.
  - rewrite Hf. destruct ignoreError.
    + specialize (IH (S i) (snd (value (DeliveryKey.iteration client true i f w)))
                     (world (DeliveryKey.iteration client true i f w))).
      cbn zeta in IH. destruct IH as (IH1 & IH2 & IH3 & rest & IH4).
      rewrite Hit, length_insert, drop_insert_lt in * by lia.
      rewrite Hsc in IH1. rewrite Hlg, List.filter_app in IH2.
      cbn [List.filter is_action] in IH2. rewrite app_nil_r in IH2.
      rewrite List.filter_app, length_app, Htr, unarchived_app, Hna, Hun.
      cbn [length app]. repeat split; try lia. exists rest. now rewrite IH4.
    + cbn [ret value trace]. rewrite app_nil_r, Htr, Hna, Hun, Hsc, Hlg, List.filter_app.
      cbn [List.filter is_action length app]. rewrite app_nil_r.
      repeat split; try lia. now exists (drop (S i) (items f)).
Qed.

(** Without [ignoreError]: ACTION lines, then at most one failure report
    at the very end; returned requests, then at most one thrown request at
    the very end. *)
Lemma loop_dk_grammar fuel i f w :
  let L := DeliveryKey.loop client false fuel i f w in
  (exists acts tail,
      lines (log (value L)) = lines (log f) ++ acts ++ tail
      /\ Forall (fun l => is_action l = true) acts
      /\ (tail = [] \/ exists a b m c, tail = [COMMENT a; COMMENT b; ERROR m c]))
  /\ (exists oks tail,
         trace L = oks ++ tail
         /\ Forall (fun ev => is_returned ev = true) oks
         /\ (tail = [] \/ exists c, tail = [Remote c false])).
Proof.
  revert i f w. induction fuel as [|fuel IH]; intros i f w; cbn zeta.
  { cbn. split; exists [], []; rewrite ?app_nil_r; repeat split; auto. }
  destruct (Nat.lt_ge_cases i (length (items f))) as [Hlt|Hge].
  2:{ rewrite loop_dk_done by exact Hge. cbn.
      split; exists [], []; rewrite ?app_nil_r; repeat split; auto. }
  destruct (lookup_lt_is_Some_2 _ _ Hlt) as [item Hi].
  rewrite loop_dk_step by exact Hlt. unfold bind. cbn [value world trace].
  destruct (iteration_dk_cases client false i f w item Hi)
    as [(item2 & cl & a & d & Hf & Hit & Hsc & Hlg & Htr)
       |(cur & e & a & m & oks & c & Hf & Hit & Hsc & Hlg & Htr & Hok & Hna & Hun)];
    cbn zeta in *.
  - rewrite Hf.
    specialize (IH (S i) (snd (value (DeliveryKey.iteration client false i f w)))
                   (world (DeliveryKey.iteration client false i f w))).
    cbn zeta in IH.
    destruct IH as [(acts & tail & IH1 & IH2 & IH3) (oks & tail' & IH4 & IH5 & IH6)].
    split.
    + exists (ACTION a d :: acts), tail. rewrite IH1, Hlg, <- app_assoc.
      repeat split; [constructor; [reflexivity | exact IH2] | exact IH3].
    + exists (trace (DeliveryKey.iteration client false i f w) ++ oks), tail'.
      rewrite IH4, app_assoc. repeat split; [|exact IH6].
      apply Forall_app. split; [|exact IH5]. rewrite Htr. repeat constructor.
  - rewrite Hf. cbn [ret value trace]. split.
    + exists [], [COMMENT a; COMMENT e; ERROR m e]. rewrite Hlg.
      repeat split; [constructor|]. right. now exists a, e, m, e.
    + exists oks, [Remote c false]. rewrite app_nil_r, Htr.
      repeat split; [exact Hok|]. right. now exists c.
Qed.

(** With [ignoreError] and enough fuel: every slot from [i] on is
    attempted, each ends as a success or as a WARN line, none as an ERROR
    line. *)
Lemma loop_dk_all fuel i f w :
  length (items f) - i <= fuel ->
  let L := DeliveryKey.loop client true fuel i f w in
  unarchived (trace L) = drop i (items f)
  /\ successCount (value L) + length (List.filter is_warn (lines (log (value L))))
     = successCount f + length (List.filter is_warn (lines (log f)))
       + (length (items f) - i)
  /\ List.filter is_error (lines (log (value L))) = List.filter is_error (lines (log f)).
Proof.
  revert i f w. induction fuel as [|fuel IH]; intros i f w Hfuel; cbn zeta.
  { cbn. rewrite drop_ge by lia. repeat split. lia. }
  destruct (Nat.lt_ge_cases i (length (items f))) as [Hlt|Hge].
  2:{ rewrite loop_dk_done by exact Hge. cbn. rewrite drop_ge by lia. repeat split. lia. }
  destruct (lookup_lt_is_Some_2 _ _ Hlt) as [item Hi].
  rewrite loop_dk_step by exact Hlt. unfold bind. cbn [value world trace].
  rewrite (drop_S _ _ _ Hi).
  destruct (iteration_dk_cases client true i f w item Hi)
    as [(item2 & cl & a & d & Hf & Hit & Hsc & Hlg & Htr)
       |(cur & e & a & m & oks & c & Hf & Hit & Hsc & Hlg & Htr & Hok & Hna & Hun)];
    cbn zeta in *; rewrite Hf;
    specialize (IH (S i) (snd (value (DeliveryKey.iteration client true i f w)))
                   (world (DeliveryKey.iteration client true i f w)));
    cbn zeta in IH; rewrite Hit, length_insert, drop_insert_lt in IH by lia;
    destruct (IH ltac:(lia)) as (IH1 & IH2 & IH3); clear IH;
    rewrite Hsc, Hlg, !List.filter_app in IH2; rewrite Hlg, List.filter_app in IH3;
    cbn [List.filter is_warn is_error length app] in IH2, IH3;
    rewrite ?app_nil_r, ?length_app in IH2; rewrite ?app_nil_r in IH3;
    cbn [length] in IH2;
    rewrite unarchived_app, IH1, IH3, Htr.
  - cbn [unarchived flat_map app]. repeat split. lia.
  - rewrite Hun. cbn [app]. repeat split. lia.
Qed.
End DeliveryKeyLoopInvariants.

Section CompletedRuns.
Context {World : Type} (sys : System World).

Lemma filter_remote_loop_dk client ignoreError fuel i f (w : World) :
  List.filter is_remote (trace (DeliveryKey.loop client ignoreError fuel i f w))
  = trace (DeliveryKey.loop client ignoreError fuel i f w).
Proof.
  apply List_filter_all. intros e He.
  pose proof (traces_loop_dk (fun e => is_remote e = true) client ignoreError fuel i f
                (fun _ _ => eq_refl) w) as H.
  rewrite List.Forall_forall in H. exact (H e He).
Qed.

Lemma filter_remote_loop_af argv ignoreError fuel i f (w : World) :
  List.filter is_remote (trace (ActiveFlag.loop sys argv ignoreError fuel i f w))
  = trace (ActiveFlag.loop sys argv ignoreError fuel i f w).
Proof.
  apply List_filter_all. intros e He.
  pose proof (traces_loop_af sys (fun e => is_remote e = true) argv ignoreError fuel i f
                (fun _ _ => eq_refl) w) as H.
  rewrite List.Forall_forall in H. exact (H e He).
Qed.

(** A completed run of the delivery-key command is its loop: same final
    locals, same requests. *)
Lemma completed_dk client contentItems force silent logFile allContent missingContent
    ignoreError w f :
  value (DeliveryKey.processItems sys contentItems force silent logFile allContent
                                  missingContent ignoreError client w) = Completed f ->
  exists lg w1,
    lines lg = []
    /\ f = value (DeliveryKey.loop client ignoreError (length contentItems) 0
                    {| items := contentItems; log := lg; successCount := 0 |} w1)
    /\ List.filter is_remote
         (trace (DeliveryKey.processItems sys contentItems force silent logFile allContent
                                          missingContent ignoreError client w))
       = trace (DeliveryKey.loop client ignoreError (length contentItems) 0
                  {| items := contentItems; log := lg; successCount := 0 |} w1).
Proof.
  intros H.
  destruct (processItems_dk_completed sys client _ _ _ _ _ _ _ _ _ H) as (Hne & w1 & Hconf).
  destruct (processItems_dk_confirmed sys client contentItems force silent logFile allContent
              missingContent ignoreError w w1 Hne Hconf) as (Hv & Ht & _).
  rewrite Hv in H. injection H as <-.
  eexists _, w1. split; [|split; [reflexivity|]]; [reflexivity|].
  rewrite Ht. apply filter_remote_loop_dk.
Qed.

Lemma listing_no_remote l : List.filter is_remote (listing l) = [].
Proof. induction l; [reflexivity | exact IHl]. Qed.

Lemma completed_af argv contentItems force silent logFile allContent missingContent
    ignoreError w f :
  value (ActiveFlag.processItems sys contentItems force silent logFile allContent
                                 missingContent ignoreError argv w) = Completed f ->
  exists lg w2,
    lines lg = []
    /\ f = value (ActiveFlag.loop sys argv ignoreError (length contentItems) 0
                    {| items := contentItems; log := lg; successCount := 0 |} w2)
    /\ List.filter is_remote
         (trace (ActiveFlag.processItems sys contentItems force silent logFile allContent
                                         missingContent ignoreError argv w))
       = trace (ActiveFlag.loop sys argv ignoreError (length contentItems) 0
                  {| items := contentItems; log := lg; successCount := 0 |} w2).
Proof.
  intros H.
  destruct (processItems_af_completed sys argv _ _ _ _ _ _ _ _ _ H) as (Hne & w2 & Hconf).
  pose proof (processItems_af_confirmed sys argv contentItems force silent logFile allContent
                missingContent ignoreError w w2 Hne Hconf) as Hv.
  rewrite Hv in H. injection H as <-.
  eexists _, w2. split; [|split; [reflexivity|]]; [reflexivity|].
  rewrite (processItems_af_shape sys argv contentItems force silent logFile allContent
             missingContent ignoreError w w2 Hne Hconf).
  repeat (progress (rewrite ?List.filter_app; cbn [app List.filter is_remote])).
  rewrite listing_no_remote, filter_remote_loop_af.
  destruct force; destruct logFile as [lf|]; try destruct (negb silent && str_truthy lf);
    cbn [app List.filter is_remote]; now rewrite ?app_nil_r.
Qed.

Lemma loop_af_published argv ignoreError fuel i f (w : World) :
  length (items f) - i <= fuel ->
  published (trace (ActiveFlag.loop sys argv ignoreError fuel i f w)) = drop i (items f)
  /\ length (trace (ActiveFlag.loop sys argv ignoreError fuel i f w)) = length (items f) - i.
Proof.
  revert i f w. induction fuel as [|fuel IH]; intros i f w Hfuel.
  { cbn. rewrite drop_ge by lia. split; [reflexivity | lia]. }
  destruct (Nat.lt_ge_cases i (length (items f))) as [Hlt|Hge].
  2:{ rewrite loop_af_done by exact Hge. cbn. rewrite drop_ge by lia.
      split; [reflexivity | lia]. }
  destruct (lookup_lt_is_Some_2 _ _ Hlt) as [item Hi].
  rewrite loop_af_step by exact Hlt. unfold bind.
  rewrite (iteration_af_eq sys argv ignoreError i f w item Hi).
  cbn [value world trace fst snd].
  match goal with
  | |- context [ActiveFlag.loop sys argv ignoreError fuel (S i) ?f' ?w'] =>
    destruct (IH (S i) f' w' ltac:(cbn [items]; lia)) as (Hp & Hl)
  end.
  cbn [items] in Hp, Hl.
  rewrite published_app, length_app, Hp, Hl, (drop_S _ _ _ Hi). cbn. split; [reflexivity | lia].
Qed.
End CompletedRuns.

(** ** The log of the active-flag command *)

Section ActiveFlagLog.
Context {World : Type} (sys : System World) (argv : Argv.t).

(** With enough fuel the loop writes, for every remaining slot in order,
    the COMMENT line of its publish outcome and its ACTION line, and
    nothing else; its requests are the publish submissions. *)
Lemma loop_af_log ignoreError fuel i f w :
  length (items f) - i <= fuel ->
  let L := ActiveFlag.loop sys argv ignoreError fuel i f w in
  lines (log (value L))
  = lines (log f) ++ flat_map publish_lines (publish_outcomes sys argv (drop i (items f)) w)
  /\ trace L = map publish_request (publish_outcomes sys argv (drop i (items f)) w)
  /\ items (value L) = items f.
Proof.
  revert i f w. induction fuel as [|fuel IH]; intros i f w Hfuel L; subst L.
  - rewrite loop_af_done by lia. cbn [ret value trace].
    rewrite drop_ge by lia. cbn. now rewrite app_nil_r.
  - destruct (Nat.lt_ge_cases i (length (items f))) as [Hlt|Hge].
    + destruct (lookup_lt_is_Some_2 _ _ Hlt) as [item Hi].
      rewrite loop_af_step by exact Hlt. unfold bind.
      rewrite (iteration_af_eq sys argv ignoreError i f w item Hi).
      cbn [value world trace fst snd].
      match goal with
      | |- context [ActiveFlag.loop sys argv ignoreError fuel (S i) ?f' ?w'] =>
        destruct (IH (S i) f' w' ltac:(cbn [items]; lia)) as (Hl & Ht & Hit)
      end.
      cbn [items log successCount] in Hl, Ht, Hit.
      rewrite Hl, Ht, Hit. rewrite (drop_S _ _ _ Hi).
      cbn [publish_outcomes flat_map map publish_lines publish_request fst snd app].
      split; [|split; reflexivity].
      destruct (fst (PublishQueue_publish sys argv item w)); cbn [addAction addComment
        appendLine lines]; now rewrite <- !app_assoc.
    + rewrite loop_af_done by exact Hge. cbn [ret value trace].
      rewrite drop_ge by lia. cbn. now rewrite app_nil_r.
Qed.
End ActiveFlagLog.

(** C8. Active-flag command. The body of the loop's outer [try] always
    completes: whether the publish request returns or throws only decides
    the text of a COMMENT line, after which the
    REMOVED-ARCHIVED-ACTIVE-FLAG ACTION line is appended and the success
    counter incremented.  Hence, after a confirmed run on a non-empty
    selection: the log holds, for every selected item in order, the COMMENT
    line of its publish outcome ("Started publish ..." when the submission
    returned, "Failed to initiate publish ...: <error>" when it threw)
    followed by its ACTION line, and nothing else, so that a failed publish
    is recorded as that COMMENT line and in no WARN or ERROR line; the
    requests of the run are the publish submissions, one per selected item;
    the success counter equals the number of selected items however many
    submissions threw; and the whole run is the same for either value of
    [ignoreError]. *)
Theorem C8_publish_failure_is_only_a_comment :
  forall (World : Type) (sys : System World) (argv : Argv.t)
         (contentItems : list ContentItem) (force silent : bool) (logFile : option string)
         (allContent missingContent ignoreError : bool) (w w0 : World),
    contentItems <> [] ->
    confirmed sys force (ActiveFlag.question allContent) w w0 ->
    (forall item f w',
        value (ActiveFlag.tryBody sys argv item f w')
        = Ok {| items := items f;
                log := addAction "REMOVED-ARCHIVED-ACTIVE-FLAG" (id item +:+ nl)
                         (addComment
                            match fst (PublishQueue_publish sys argv item w') with
                            | Ok _ => "Started publish for " +:+ show_opt (label item) +:+ "."
                            | Throw e => "Failed to initiate publish for "
                                         +:+ show_opt (label item) +:+ ": " +:+ e
                            end (log f));
                successCount := S (successCount f) |})
    /\ (exists f,
          value (ActiveFlag.processItems sys contentItems force silent logFile allContent
                                         missingContent ignoreError argv w) = Completed f
          /\ successCount f = length contentItems
          /\ lines (log f)
             = flat_map publish_lines (publish_outcomes sys argv contentItems w0)
          /\ List.filter is_remote
               (trace (ActiveFlag.processItems sys contentItems force silent logFile
                         allContent missingContent ignoreError argv w))
             = map publish_request (publish_outcomes sys argv contentItems w0)
          /\ List.filter is_action (lines (log f))
             = map (fun item => ACTION "REMOVED-ARCHIVED-ACTIVE-FLAG" (id item +:+ nl))
                   contentItems
          /\ List.filter is_warn_or_error (lines (log f)) = [])
    /\ ActiveFlag.processItems sys contentItems force silent logFile allContent
                               missingContent ignoreError argv w
       = ActiveFlag.processItems sys contentItems force silent logFile allContent
                                 missingContent (negb ignoreError) argv w.
Proof.
  intros World sys argv contentItems force silent logFile allContent missingContent
         ignoreError w w0 Hne Hconf.
  split; [|split].
  - intros item f w'. unfold ActiveFlag.tryBody, bind, call. cbn.
    destruct (fst (PublishQueue_publish sys argv item w')); reflexivity.
  - pose proof (processItems_af_confirmed sys argv contentItems force silent logFile
                  allContent missingContent ignoreError w w0 Hne Hconf) as Hv.
    destruct (completed_af sys argv contentItems force silent logFile allContent
                missingContent ignoreError w _ Hv) as (lg & w2 & Hlg & Hf & Ht).
    eexists. split; [exact Hv|].
    match goal with
    | |- context [ActiveFlag.loop sys argv ignoreError ?n 0 ?f ?w'] =>
      destruct (loop_af_all sys argv ignoreError n 0 f w' ltac:(cbn [items]; lia))
        as (Hc & Ha & He);
      destruct (loop_af_log sys argv ignoreError n 0 f w' ltac:(cbn [items]; lia))
        as (Hl & Hr & _)
    end.
    cbn [items log successCount newArchiveLog lines List.filter app] in Hc, Ha, He, Hl, Hr.
    rewrite drop_0 in Hl, Hr, Ha.
    rewrite Hc, Ha, He, Hl. repeat split; try lia.
    rewrite (processItems_af_shape sys argv contentItems force silent logFile allContent
               missingContent ignoreError w w0 Hne Hconf).
    repeat (progress (rewrite ?List.filter_app; cbn [app List.filter is_remote])).
    rewrite listing_no_remote, filter_remote_loop_af, Hr.
    destruct force; destruct logFile as [lf|]; try destruct (negb silent && str_truthy lf);
      cbn [app List.filter is_remote]; now rewrite ?app_nil_r.
  - apply processItems_af_ignoreError.
Qed.

Lemma C8_publish_failure_is_only_a_comment_witness :
  [Mock.itemA; Mock.itemB; Mock.itemC] <> []
  /\ confirmed Mock.system false (ActiveFlag.question false)
               (Mock.initial [(Mock.OpPublish, "b2"); (Mock.OpPublish, "c3")])
               (Mock.initial [(Mock.OpPublish, "b2"); (Mock.OpPublish, "c3")])
  /\ exists f,
       value (ActiveFlag.processItems Mock.system [Mock.itemA; Mock.itemB; Mock.itemC]
                false true None false false false Mock.argv
                (Mock.initial [(Mock.OpPublish, "b2"); (Mock.OpPublish, "c3")]))
       = Completed f
       /\ successCount f = 3
       /\ lines (log f)
          = [COMMENT "Started publish for header-a.";
             ACTION "REMOVED-ARCHIVED-ACTIVE-FLAG" ("a1" +:+ nl);
             COMMENT "Failed to initiate publish for header-b: Error: publish failed";
             ACTION "REMOVED-ARCHIVED-ACTIVE-FLAG" ("b2" +:+ nl);
             COMMENT "Failed to initiate publish for footer-c: Error: publish failed";
             ACTION "REMOVED-ARCHIVED-ACTIVE-FLAG" ("c3" +:+ nl)].
Proof.
  assert (Hne : [Mock.itemA; Mock.itemB; Mock.itemC] <> []) by discriminate.
  assert (Hconf : confirmed Mock.system false (ActiveFlag.question false)
                    (Mock.initial [(Mock.OpPublish, "b2"); (Mock.OpPublish, "c3")])
                    (Mock.initial [(Mock.OpPublish, "b2"); (Mock.OpPublish, "c3")]))
    by (right; split; reflexivity).
  split; [exact Hne|]. split; [exact Hconf|].
  destruct (C8_publish_failure_is_only_a_comment Mock.World Mock.system Mock.argv
              [Mock.itemA; Mock.itemB; Mock.itemC] false true None false false false
              _ _ Hne Hconf) as (_ & (f & Hv & Hc & Hl & _) & _).
  exists f. split; [exact Hv|]. split; [exact Hc|]. rewrite Hl. vm_compute. reflexivity.
Defined.

(** ** Archived status across a run *)

Lemma restored_by_app pre post t item :
  restored_by t item -> restored_by (pre ++ t ++ post) item.
Proof.
  intros (before & item1 & item2 & after & -> & H1 & H2).
  exists (pre ++ before), item1, item2, (after ++ post).
  split; [|split; assumption]. now rewrite <- !app_assoc.
Qed.

Section Restored.
Context {World : Type} (sys : System World) (client : DynamicContent World).
Context (status_of : World -> string -> option Status).
Context (HC : RemoteContract sys client status_of).

(** What a transition that went through leaves behind. *)
Lemma succeeds_restores item w item2 w' :
  succeeds client item w item2 w' ->
  id item2 = id item
  /\ status_of w' (id item) = Some ARCHIVED
  /\ restored_by (transition_requests client item w) item
  /\ List.filter is_returned_archive (transition_requests client item w)
     = [Remote (Archive item2) true].
Proof.
  intros (item1 & w1 & w2 & r & H1 & H2 & H3).
  pose proof (unarchive_id _ _ _ HC _ _ _ _ H1) as Hid1.
  pose proof (update_id _ _ _ HC _ _ _ _ _ H2) as Hid2. cbn in Hid2.
  assert (Hid : id item2 = id item) by congruence.
  split; [exact Hid|]. split.
  { rewrite <- Hid. exact (archive_status _ _ _ HC _ _ _ _ H3). }
  unfold transition_requests. rewrite H1, H2, H3. cbn [fst returned]. split.
  - exists [], item1, item2, []. repeat split; assumption.
  - reflexivity.
Qed.

(** The loop, item by item: the items whose transition went through are
    counted, have their ACTION line, were restored by the loop's own
    requests and, when no later slot has the same id, are ARCHIVED in the
    hub when the loop ends. *)
Lemma loop_dk_restored ignoreError fuel i f w :
  let L := DeliveryKey.loop client ignoreError fuel i f w in
  exists done,
    sublist done (drop i (items f))
    /\ successCount (value L) = successCount f + length done
    /\ List.filter is_action (lines (log (value L)))
       = List.filter is_action (lines (log f)) ++ map removed_key_line done
    /\ length (List.filter is_returned_archive (trace L)) = length done
    /\ Forall (restored_by (trace L)) done
    /\ (NoDup (map id (drop i (items f))) ->
        Forall (fun item => status_of (world L) (id item) = Some ARCHIVED) done).
Proof.
  revert i f w. induction fuel as [|fuel IH]; intros i f w; cbn zeta.
  { exists []. cbn. rewrite app_nil_r. repeat split; auto using sublist_nil_l. }
  destruct (Nat.lt_ge_cases i (length (items f))) as [Hlt|Hge].
  2:{ rewrite loop_dk_done by exact Hge. exists []. cbn. rewrite app_nil_r.
      repeat split; auto using sublist_nil_l. }
  destruct (lookup_lt_is_Some_2 _ _ Hlt) as [item Hi].
  rewrite loop_dk_step by exact Hlt. unfold bind. cbn [value world trace].
  rewrite (drop_S _ _ _ Hi). cbn [map].
  destruct (succeeds_or_throws client item w) as [(item2 & w' & Hs)|(e & cur & w' & Ht)].
  - destruct (succeeds_restores item w item2 w' Hs) as (Hid & Hst & Hres & Harch).
    rewrite (iteration_dk_success client ignoreError i f w item item2 w' Hi Hs).
    cbn [value world trace fst snd].
    match goal with
    | |- context [DeliveryKey.loop client ignoreError fuel (S i) ?f' w'] =>
      destruct (IH (S i) f' w') as (done & Hsub & Hcnt & Hact & Hlen & Hall & Hfin);
      set (L := DeliveryKey.loop client ignoreError fuel (S i) f' w') in *
    end.
    cbn [items log successCount] in Hsub, Hcnt, Hact, Hfin.
    rewrite drop_insert_lt in Hsub, Hfin by lia.
    exists (item :: done). repeat split.
    + now apply sublist_skip.
    + rewrite Hcnt. cbn [length]. lia.
    + rewrite Hact. cbn [addAction appendLine lines]. rewrite List.filter_app.
      cbn [List.filter is_action map]. rewrite Hid, <- app_assoc. reflexivity.
    + rewrite List.filter_app, length_app, Harch, Hlen. reflexivity.
    + constructor.
      * apply (restored_by_app [] (trace L)) in Hres. exact Hres.
      * eapply Forall_impl; [exact Hall|]. intros x Hx.
        apply (restored_by_app (transition_requests client item w) []) in Hx.
        now rewrite app_nil_r in Hx.
    + intros Hnd. apply NoDup_cons in Hnd. destruct Hnd as [Hnotin Hnd].
      constructor; [|exact (Hfin Hnd)].
      unfold L. rewrite (loop_dk_frame sys client status_of HC); [exact Hst|].
      cbn [items]. rewrite drop_insert_lt by lia.
      rewrite list_elem_of_In in Hnotin. exact Hnotin.
  - destruct (transition_requests_throws client item w e cur w' Ht)
      as (oks & c & Htr & _ & Hna & _).
    rewrite (iteration_dk_throws client ignoreError i f w item e cur w' Hi Ht).
    cbn [value world trace].
    destruct (catch_dk_eval ignoreError i (deliveryKey (_meta (body item))) e (items f)
                (log f) (successCount f) cur Hlt) as (H1 & H2 & H3 & a & m & H4).
    cbn zeta in H1, H2, H3, H4. rewrite H1. destruct ignoreError.
    + match goal with
      | |- context [DeliveryKey.loop client true fuel (S i) ?f' w'] =>
        destruct (IH (S i) f' w') as (done & Hsub & Hcnt & Hact & Hlen & Hall & Hfin);
        set (L := DeliveryKey.loop client true fuel (S i) f' w') in *
      end.
      rewrite H2, drop_insert_lt in Hsub, Hfin by lia.
      rewrite H3 in Hcnt. rewrite H4, List.filter_app in Hact.
      cbn [List.filter is_action] in Hact. rewrite app_nil_r in Hact.
      exists done. repeat split.
      * now apply sublist_cons.
      * exact Hcnt.
      * exact Hact.
      * rewrite List.filter_app, length_app, Htr, Hna, Hlen. reflexivity.
      * eapply Forall_impl; [exact Hall|]. intros x Hx.
        apply (restored_by_app (transition_requests client item w) []) in Hx.
        now rewrite app_nil_r in Hx.
      * intros Hnd. apply NoDup_cons in Hnd. destruct Hnd as [_ Hnd]. exact (Hfin Hnd).
    + exists []. cbn [ret value world trace length map]. rewrite !app_nil_r.
      rewrite H3, H4, List.filter_app, Htr, Hna. cbn [List.filter is_action length].
      rewrite app_nil_r. repeat split; auto using sublist_nil_l.
Qed.
End Restored.

(** The hub behind a quota honours the contracts. *)

Lemma Quota_lift_inv {A} (op : Mock.World -> A * Mock.World) w r w' :
  Quota.lift op w = (r, w') -> op (Quota.base w) = (r, Quota.base w').
Proof.
  unfold Quota.lift. intros H. injection H as <- <-. cbn. apply surjective_pairing.
Qed.

Lemma Quota_listing : ListingContract Quota.client.
Proof.
  split; intros source st w r w' H; apply Quota_lift_inv in H.
  - exact (repo_list_status _ Mock_listing _ _ _ _ _ H).
  - exact (folder_list_status _ Mock_listing _ _ _ _ _ H).
Qed.

Lemma Quota_update_inv self it w r w' :
  Quota.updateItem self it w = (r, w') ->
  w' = w \/ Mock.updateItem self it (Quota.base w) = (r, Quota.base w').
Proof.
  unfold Quota.updateItem. destruct (Quota.updates_left w).
  - intros H. injection H as _ <-. now left.
  - intros H. injection H as <- <-. right. cbn. apply surjective_pairing.
Qed.

Lemma Quota_remote : RemoteContract Quota.system Quota.client Quota.status_of.
Proof.
  split; unfold Quota.status_of.
  - intros item w item' w' H. apply Quota_lift_inv in H.
    exact (unarchive_id _ _ _ Mock_remote _ _ _ _ H).
  - intros self item w item' w' H. cbn in H.
    unfold Quota.updateItem in H. destruct (Quota.updates_left w); [discriminate|].
    injection H as H _.
    eapply (update_id _ _ _ Mock_remote self item (Quota.base w)).
    rewrite <- H. apply surjective_pairing.
  - intros item w r w' H. apply Quota_lift_inv in H.
    exact (archive_status _ _ _ Mock_remote _ _ _ _ H).
  - intros item w r w' j H Hj. apply Quota_lift_inv in H.
    exact (unarchive_frame _ _ _ Mock_remote _ _ _ _ j H Hj).
  - intros self item w r w' j H Hj. cbn in H.
    apply Quota_update_inv in H. destruct H as [->|H]; [reflexivity|].
    exact (update_frame _ _ _ Mock_remote _ _ _ _ _ j H Hj).
  - intros item w r w' j H Hj. apply Quota_lift_inv in H.
    exact (archive_frame _ _ _ Mock_remote _ _ _ _ j H Hj).
  - intros path lg w r w' j H. apply Quota_lift_inv in H.
    exact (write_frame _ _ _ Mock_remote _ _ _ _ _ j H).
Qed.

Lemma no_mutation_publish {World} (sys : System World) argv l (w : World) :
  List.filter is_mutation (map publish_request (publish_outcomes sys argv l w)) = [].
Proof.
  revert w. induction l as [|item l IH]; intros w; [reflexivity|]. cbn. apply IH.
Qed.




(** X12. Delivery-key command, any run that reached the summary: the
    success counter equals the number of ACTION lines in the log and the
    number of archive requests that returned; it never exceeds the number
    of selected items; and the unarchive requests were sent for an initial
    segment of the selection, in selection order, one per item. *)
Theorem X12_success_counter_counts_archived_items :
  forall (World : Type) (sys : System World) (client : DynamicContent World)
         (contentItems : list ContentItem) (force silent : bool) (logFile : option string)
         (allContent missingContent ignoreError : bool) (w : World) (f : Frame),
    value (DeliveryKey.processItems sys contentItems force silent logFile allContent
                                    missingContent ignoreError client w) = Completed f ->
    successCount f = length (List.filter is_action (lines (log f)))
    /\ successCount f
       = length (List.filter is_returned_archive
                   (trace (DeliveryKey.processItems sys contentItems force silent logFile
                             allContent missingContent ignoreError client w)))
    /\ successCount f <= length contentItems
    /\ exists rest,
         contentItems
         = unarchived (trace (DeliveryKey.processItems sys contentItems force silent logFile
                                allContent missingContent ignoreError client w)) ++ rest.
Proof.
  intros World sys client contentItems force silent logFile allContent missingContent
         ignoreError w f H.
  destruct (completed_dk sys client _ _ _ _ _ _ _ _ _ H) as (lg & w1 & Hlg & -> & Ht).
  rewrite <- (filter_through is_returned_archive is_remote)
    by (intros [| |c [|]| |]; cbn; congruence).
  rewrite <- unarchived_remote, Ht.
  destruct (loop_dk_counts client ignoreError (length contentItems) 0
              {| items := contentItems; log := lg; successCount := 0 |} w1)
    as (H1 & H2 & H3 & rest & H4).
  cbn [items log successCount] in H1, H2, H3, H4. rewrite Hlg in H2. cbn in H2.
  rewrite drop_0 in H4. repeat split; try lia. now exists rest.
Qed.

Lemma X12_success_counter_counts_archived_items_witness :
  exists f,
    value (DeliveryKey.processItems Mock.system [Mock.itemA; Mock.itemB; Mock.itemC]
             true false None false false true Mock.client
             (Mock.initial [(Mock.OpArchive, "b2")])) = Completed f
    /\ successCount f = length (List.filter is_action (lines (log f))).
Proof.
  eexists. split; [vm_compute; reflexivity|].
  refine (proj1 (X12_success_counter_counts_archived_items Mock.World Mock.system Mock.client
                   [Mock.itemA; Mock.itemB; Mock.itemC] true false None false false true
                   (Mock.initial [(Mock.OpArchive, "b2")]) _ _)).
  vm_compute. reflexivity.
Defined.



(** X14. Delivery-key command with [ignoreError], any run that reached the
    summary: every selected item was attempted, exactly once and in
    selection order (the unarchive requests are, item for item, the
    selection); each item ended as a success or as a WARN line, so the
    success counter plus the number of WARN lines is the size of the
    selection; and the log has no ERROR line. *)
Theorem X14_ignore_error_attempts_every_item :
  forall (World : Type) (sys : System World) (client : DynamicContent World)
         (contentItems : list ContentItem) (force silent : bool) (logFile : option string)
         (allContent missingContent : bool) (w : World) (f : Frame),
    value (DeliveryKey.processItems sys contentItems force silent logFile allContent
                                    missingContent true client w) = Completed f ->
    unarchived (trace (DeliveryKey.processItems sys contentItems force silent logFile
                         allContent missingContent true client w)) = contentItems
    /\ successCount f + length (List.filter is_warn (lines (log f))) = length contentItems
    /\ List.filter is_error (lines (log f)) = [].
Proof.
  intros World sys client contentItems force silent logFile allContent missingContent
         w f H.
  destruct (completed_dk sys client _ _ _ _ _ _ _ _ _ H) as (lg & w1 & Hlg & -> & Ht).
  rewrite <- unarchived_remote, Ht.
  destruct (loop_dk_all client (length contentItems) 0
              {| items := contentItems; log := lg; successCount := 0 |} w1
              ltac:(cbn [items]; lia)) as (H1 & H2 & H3).
  cbn [items log successCount] in H1, H2, H3. rewrite Hlg in H2, H3. cbn in H2, H3.
  rewrite drop_0 in H1. repeat split; [exact H1 | lia | exact H3].
Qed.

Lemma X14_ignore_error_attempts_every_item_witness :
  exists f,
    value (DeliveryKey.processItems Mock.system
             [Mock.itemA; Mock.itemB; Mock.itemC; Mock.itemPlain]
             true false None false false true Mock.client
             (Mock.initial [(Mock.OpUnarchive, "a1"); (Mock.OpArchive, "c3")]))
    = Completed f
    /\ successCount f + length (List.filter is_warn (lines (log f))) = 4.
Proof.
  eexists. split; [vm_compute; reflexivity|].
  refine (proj1 (proj2 (X14_ignore_error_attempts_every_item Mock.World Mock.system
                          Mock.client [Mock.itemA; Mock.itemB; Mock.itemC; Mock.itemPlain]
                          true false None false false
                          (Mock.initial [(Mock.OpUnarchive, "a1"); (Mock.OpArchive, "c3")])
                          _ _))).
  vm_compute. reflexivity.
Defined.

(** X15. Active-flag command, any run that reached the summary: every
    selected item was submitted to the publish queue exactly once, in
    selection order, and these submissions are all the requests of
    [processItems]. *)
Theorem X15_active_flag_publishes_each_item_once :
  forall (World : Type) (sys : System World) (argv : Argv.t)
         (contentItems : list ContentItem) (force silent : bool) (logFile : option string)
         (allContent missingContent ignoreError : bool) (w : World) (f : Frame),
    value (ActiveFlag.processItems sys contentItems force silent logFile allContent
                                   missingContent ignoreError argv w) = Completed f ->
    published (trace (ActiveFlag.processItems sys contentItems force silent logFile
                        allContent missingContent ignoreError argv w)) = contentItems
    /\ length (List.filter is_remote
                 (trace (ActiveFlag.processItems sys contentItems force silent logFile
                           allContent missingContent ignoreError argv w)))
       = length contentItems.
Proof.
  intros World sys argv contentItems force silent logFile allContent missingContent
         ignoreError w f H.
  destruct (completed_af sys argv _ _ _ _ _ _ _ _ _ H) as (lg & w2 & Hlg & -> & Ht).
  rewrite <- published_remote, Ht.
  destruct (loop_af_published sys argv ignoreError (length contentItems) 0
              {| items := contentItems; log := lg; successCount := 0 |} w2
              ltac:(cbn [items]; lia)) as (H1 & H2).
  cbn [items] in H1, H2. rewrite drop_0 in H1. split; [exact H1 | lia].
Qed.

Lemma X15_active_flag_publishes_each_item_once_witness :
  exists f,
    value (ActiveFlag.processItems Mock.system [Mock.itemA; Mock.itemB; Mock.itemC]
             true false None false false false Mock.argv
             (Mock.initial [(Mock.OpPublish, "a1")])) = Completed f
    /\ published (trace (ActiveFlag.processItems Mock.system
                           [Mock.itemA; Mock.itemB; Mock.itemC]
                           true false None false false false Mock.argv
                           (Mock.initial [(Mock.OpPublish, "a1")])))
       = [Mock.itemA; Mock.itemB; Mock.itemC].
Proof.
  eexists. split; [vm_compute; reflexivity|].
  refine (proj1 (X15_active_flag_publishes_each_item_once Mock.World Mock.system Mock.argv
                   [Mock.itemA; Mock.itemB; Mock.itemC] true false None false false false
                   (Mock.initial [(Mock.OpPublish, "a1")]) _ _)).
  vm_compute. reflexivity.
Defined.

(** ** A failed fetch empties the selection *)

Section FailsClosed.
Context {World : Type} (sys : System World).

Lemma fails_closed_call {A} c (op : World -> Result A * World) : fails_closed (call c op).
Proof.
  intros w c' [H|[]]. cbn in H. cbn [call value].
  destruct (fst (op w)) as [a|e]; [discriminate | now exists e].
Qed.

Lemma fails_closed_quiet {A B} (m : M World A) (g : A -> B) :
  traces (fun e => is_remote e = false) m ->
  fails_closed (bind m (fun r => ret (Ok (g r)))).
Proof.
  intros Hm w c H. exfalso. cbn [bind ret trace] in H. rewrite app_nil_r in H.
  specialize (Hm w). rewrite List.Forall_forall in Hm. specialize (Hm _ H). discriminate.
Qed.

Lemma fails_closed_ret {A} (r : Result A) : fails_closed (World := World) (ret r).
Proof. intros w c []. Qed.

Lemma fails_closed_bindE {A B} (m : M World (Result A)) (k : A -> M World (Result B)) :
  fails_closed m -> (forall a, fails_closed (k a)) -> fails_closed (bindE m k).
Proof.
  intros Hm Hk w c H. unfold bindE, bind in *. cbn [trace value] in *.
  apply in_app_or in H. destruct H as [H|H].
  - destruct (Hm w c H) as [e He]. rewrite He. now exists e.
  - destruct (value (m w)) as [a|e]; [exact (Hk a _ c H) | destruct H].
Qed.

Lemma fails_closed_promiseAll {A} (l : list (M World (Result A))) :
  (forall m, In m l -> fails_closed m) -> fails_closed (promiseAll l).
Proof.
  induction l as [|m l IH]; intros Hl w c H; [destruct H|].
  cbn [promiseAll] in *. unfold bind in *. cbn [trace value world ret] in *.
  rewrite app_nil_r in H. apply in_app_or in H. destruct H as [H|H].
  - destruct (Hl m (or_introl eq_refl) w c H) as [e He]. rewrite He. now exists e.
  - destruct (IH (fun m' Hm' => Hl m' (or_intror Hm')) _ c H) as [e He]. rewrite He.
    destruct (value (m w)) as [a|e']; eexists; reflexivity.
Qed.

Lemma fails_closed_promiseAll_map {A B} (f : B -> M World (Result A)) (l : list B) :
  (forall x, fails_closed (f x)) -> fails_closed (promiseAll (map f l)).
Proof.
  intros Hf. apply fails_closed_promiseAll. intros m Hm.
  apply in_map_iff in Hm. destruct Hm as (x & <- & _). apply Hf.
Qed.

Ltac fails_closed_step :=
  first [ apply fails_closed_call
        | apply fails_closed_ret
        | apply fails_closed_promiseAll_map
        | apply fails_closed_bindE
        | match goal with
          | |- forall _, _ => intro
          | |- fails_closed (match ?x with _ => _ end) => destruct x
          end ].

Lemma fails_closed_try_dk client id hubId repoId folderId name contentType :
  fails_closed (DeliveryKey.getContentItems_try sys client id hubId repoId folderId
                                                name contentType).
Proof.
  unfold DeliveryKey.getContentItems_try.
  destruct id;
    repeat first [ apply (fails_closed_quiet _ (fun r => r)), traces_filter_dk;
                   intros; reflexivity
                 | fails_closed_step ].
Qed.

Lemma fails_closed_try_af client id hubId repoId folderId name contentType :
  fails_closed (ActiveFlag.getContentItems_try sys client id hubId repoId folderId
                                               name contentType).
Proof.
  unfold ActiveFlag.getContentItems_try.
  destruct id;
    repeat first [ apply (fails_closed_quiet _ (fun r => r)), traces_filter_af;
                   intros; reflexivity
                 | fails_closed_step ].
Qed.
End FailsClosed.

(** X16. In both commands, when any request of the item locator throws
    (the get by ID, the hub, a repository or folder get, a listing), the
    selection of [getContentItems] is empty, whatever the other requests
    returned. *)
Theorem X16_failed_fetch_empties_the_selection :
  forall (World : Type) (sys : System World) (client : DynamicContent World)
         (id : option string) (hubId : string)
         (repoId folderId name contentType : option StrOrArr) (w : World) (c c' : Call),
    In (Remote c false)
       (trace (DeliveryKey.getContentItems sys client id hubId repoId folderId
                                           name contentType w)) ->
    In (Remote c' false)
       (trace (ActiveFlag.getContentItems sys client id hubId repoId folderId
                                          name contentType w)) ->
    contentItems (value (DeliveryKey.getContentItems sys client id hubId repoId folderId
                                                     name contentType w)) = []
    /\ contentItems (value (ActiveFlag.getContentItems sys client id hubId repoId folderId
                                                       name contentType w)) = [].
Proof.
  intros World sys client id hubId repoId folderId name contentType w c c' H1 H2. split.
  - unfold DeliveryKey.getContentItems, bind in *. cbn [value trace] in *.
    apply in_app_or in H1. destruct H1 as [H1|H1].
    + destruct (fails_closed_try_dk sys client id hubId repoId folderId name contentType
                  w c H1) as [e He].
      rewrite He. reflexivity.
    + destruct (value (DeliveryKey.getContentItems_try sys client id hubId repoId folderId
                         name contentType w)); [destruct H1 | reflexivity].
  - unfold ActiveFlag.getContentItems, bind in *. cbn [value trace] in *.
    apply in_app_or in H2. destruct H2 as [H2|H2].
    + destruct (fails_closed_try_af sys client id hubId repoId folderId name contentType
                  w c' H2) as [e He].
      rewrite He. reflexivity.
    + destruct (value (ActiveFlag.getContentItems_try sys client id hubId repoId folderId
                         name contentType w)); [destruct H2 | reflexivity].
Qed.

Lemma X16_failed_fetch_empties_the_selection_witness :
  In (Remote (GetContentItem "no-such-item") false)
     (trace (DeliveryKey.getContentItems Mock.system Mock.client (Some "no-such-item") "hub1"
               None None None None (Mock.initial [])))
  /\ In (Remote (GetContentItem "no-such-item") false)
        (trace (ActiveFlag.getContentItems Mock.system Mock.client (Some "no-such-item") "hub1"
                  None None None None (Mock.initial [])))
  /\ contentItems (value (DeliveryKey.getContentItems Mock.system Mock.client
                            (Some "no-such-item") "hub1" None None None None
                            (Mock.initial []))) = [].
Proof.
  assert (H1 : In (Remote (GetContentItem "no-such-item") false)
                  (trace (DeliveryKey.getContentItems Mock.system Mock.client
                            (Some "no-such-item") "hub1" None None None None
                            (Mock.initial [])))) by (left; reflexivity).
  assert (H2 : In (Remote (GetContentItem "no-such-item") false)
                  (trace (ActiveFlag.getContentItems Mock.system Mock.client
                            (Some "no-such-item") "hub1" None None None None
                            (Mock.initial [])))) by (left; reflexivity).
  split; [exact H1|]. split; [exact H2|].
  exact (proj1 (X16_failed_fetch_empties_the_selection Mock.World Mock.system Mock.client
                  (Some "no-such-item") "hub1" None None None None (Mock.initial [])
                  _ _ H1 H2)).
Defined.
